(** * Table.py: merge pipeline, report tables and workbook layout

    A shallow embedding of [Table.py].  The script reads spreadsheets with
    pandas, tags and concatenates them, derives seven summary tables from an
    edited table and writes them below each other into one worksheet with
    openpyxl.

    Conventions of the embedding.
    - A Python exception is a [Raise]; code after it does not run.
    - Spreadsheet cells of the report input are strings: the five columns the
      report reads hold text (a blank cell, pandas' NaN, is not modelled).
    - Counts are [Z]; the percentage column, a float64 in pandas, is computed
      over the rationals [Q].
    - [sort_values] is run with pandas' default quicksort, whose order among
      equal keys is not specified; the embedding uses a stable merge sort.
      No statement below depends on the order of rows with equal keys. *)

From Stdlib Require Import Ascii String QArith Qround Qabs Lqa.
From stdpp Require Import base tactics option list sorting strings gmap.

Local Open Scope string_scope.
Local Open Scope list_scope.
Local Open Scope Z_scope.

(** ** Exceptions *)

Inductive exn :=
  | ValueError (msg : string)
  | KeyError (key : string)
  | AttributeError (msg : string)
  | ParseError.

Inductive result (A : Type) :=
  | Ok (a : A)
  | Raise (e : exn).
Arguments Ok {A} a.
Arguments Raise {A} e.

Global Instance result_ret : MRet result := λ A a, Ok a.
Global Instance result_bind : MBind result := λ A B f m,
  match m with Ok a => f a | Raise e => Raise e end.
Global Instance result_fmap : FMap result := λ A B f m,
  match m with Ok a => Ok (f a) | Raise e => Raise e end.

Fixpoint mapM_result {A B} (f : A → result B) (l : list A) : result (list B) :=
  match l with
  | [] => Ok []
  | x :: l' => y ← f x; ys ← mapM_result f l'; Ok (y :: ys)
  end.

(** ** Python string operations *)

Module Py.

(** [s.startswith(p)] *)
Definition startswith (s p : string) : bool := String.prefix p s.

(** [s.split(sep)[0]]: the part of [s] before the first occurrence of [sep],
    all of [s] when [sep] does not occur. *)
Fixpoint split_head (sep s : string) : string :=
  match s with
  | EmptyString => EmptyString
  | String c s' =>
      if String.prefix sep s then EmptyString else String c (split_head sep s')
  end.

(** [s.split(c)] for a one-character separator: never empty, one more piece
    than there are separators. *)
Fixpoint split_char (c : ascii) (s : string) : list string :=
  match s with
  | EmptyString => [EmptyString]
  | String a s' =>
      if Ascii.eqb a c then EmptyString :: split_char c s'
      else match split_char c s' with
           | [] => [String a EmptyString]
           | w :: ws => String a w :: ws
           end
  end.

(** [s.rfind(c)]: the highest index of [c] in [s], or -1. *)
Fixpoint rfind (c : ascii) (s : string) : Z :=
  match s with
  | EmptyString => -1
  | String a s' =>
      let r := rfind c s' in
      if 0 <=? r then r + 1 else if Ascii.eqb a c then 0 else -1
  end.

(** The loop of [genericpath._splitext] that skips the leading dots of the
    file name: [true] when a character other than the dot stands between
    [filenameIndex] and the last dot. *)
Fixpoint has_non_dot (p : string) (filenameIndex n : nat) : bool :=
  match n with
  | O => false
  | S n' =>
      match String.get filenameIndex p with
      | Some c =>
          if Ascii.eqb c "." then has_non_dot p (S filenameIndex) n' else true
      | None => true
      end
  end.

(** [os.path.splitext(p)] of [posixpath]: separator "/", no alternative
    separator, extension separator ".". *)
Definition splitext (p : string) : string * string :=
  let sepIndex := rfind "/" p in
  let dotIndex := rfind "." p in
  if (sepIndex <? dotIndex)
     && has_non_dot p (Z.to_nat (sepIndex + 1)) (Z.to_nat (dotIndex - (sepIndex + 1)))
  then (String.substring 0 (Z.to_nat dotIndex) p,
        String.substring (Z.to_nat dotIndex) (String.length p - Z.to_nat dotIndex) p)
  else (p, EmptyString).

End Py.

(** ** Cells and frames *)

Inductive cell :=
  | CStr (s : string)
  | CInt (z : Z)
  | CFloat (q : Q)
  | CNaN.

(** ** Merge pipeline (lines 136-149) *)

Module Merge.

(** A frame with free columns: a row maps a column name to its cell; a column
    the row does not have reads as NaN. *)
Record DataFrame := {
  df_columns : list string;
  df_index : list nat;
  df_rows : list (gmap string cell)
}.

(** An upload: its name and what [pd.read_excel] makes of it ([None] when the
    file does not parse). *)
Record UploadedFile := {
  uf_name : string;
  uf_sheet : option DataFrame
}.

Definition read_excel (f : UploadedFile) : result DataFrame :=
  match uf_sheet f with
  | Some df => Ok df
  | None => Raise ParseError
  end.

(** [filename_no_ext.split(" - ")[0]] of [os.path.splitext(name)[0]] *)
Definition entity_name (name : string) : string :=
  let filename_no_ext := fst (Py.splitext name) in
  Py.split_head " - " filename_no_ext.

(** [df_["Entity"] = entity_name]: the column is overwritten when the sheet has
    one, added as the last column otherwise. *)
Definition set_Entity (e : string) (df : DataFrame) : DataFrame :=
  {| df_columns := if decide ("Entity" ∈ df_columns df) then df_columns df
                   else df_columns df ++ ["Entity"];
     df_index := df_index df;
     df_rows := (λ r, <["Entity" := CStr e]> r) <$> df_rows df |}.

(** Columns of an outer concat: union in order of first appearance. *)
Fixpoint union_columns (seen l : list string) : list string :=
  match l with
  | [] => seen
  | c :: l' =>
      if decide (c ∈ seen) then union_columns seen l'
      else union_columns (seen ++ [c]) l'
  end.

(** [pd.concat(dfs, axis=0, ignore_index=True)] *)
Definition concat_ignore_index (dfs : list DataFrame) : result DataFrame :=
  match dfs with
  | [] => Raise (ValueError "No objects to concatenate")
  | _ =>
      let rows := mjoin (df_rows <$> dfs) in
      Ok {| df_columns := union_columns [] (mjoin (df_columns <$> dfs));
            df_index := seq 0 (length rows);
            df_rows := rows |}
  end.

(** The body of the loop at lines 141-147. *)
Definition load (uploaded_file : UploadedFile) : result DataFrame :=
  df_ ← read_excel uploaded_file;
  Ok (set_Entity (entity_name (uf_name uploaded_file)) df_).

(** Lines 140-149; the caller runs it under [if uploaded_files:]. *)
Definition combined_df (uploaded_files : list UploadedFile) : result DataFrame :=
  dfs ← mapM_result load uploaded_files;
  concat_ignore_index dfs.

End Merge.

(** ** Report pipeline (lines 170-228) *)

Module Report.

Definition sum_Z (l : list Z) : Z := foldr Z.add 0 l.

Record Timestamp := { year : Z; month : Z; day : Z }.

(** A row of the edited table, with the five columns the report reads. *)
Record Row := {
  Date : Timestamp;
  Entity : string;
  Publication_Name : string;
  Publication_Type : string;
  Journalist : string
}.

(** A frame of counts: a key per row (the index, or after [to_records] the
    first column, called [index_name]) and one integer per named column. *)
Record Frame (K : Type) := {
  index_name : string;
  columns : list string;
  rows : list (K * list Z)
}.
Arguments index_name {K} _.
Arguments columns {K} _.
Arguments rows {K} _.

(** [sort_values(by, ascending=False)] *)
Definition by_desc {A} (key : A → Z) : relation A := λ a b, key b ≤ key a.

Global Instance by_desc_dec {A} (key : A → Z) : RelDecision (by_desc key).
Proof. intros a b. unfold by_desc. apply _. Defined.

Definition sort_desc {A} (key : A → Z) (l : list A) : list A :=
  merge_sort (by_desc key) l.

(** The cell of a row under a column name. *)
Fixpoint at_column (c : string) (cols : list string) (vals : list Z) : option Z :=
  match cols, vals with
  | c' :: cols', v :: vals' => if decide (c = c') then Some v else at_column c cols' vals'
  | _, _ => None
  end.

(** [df[sel].sum(axis=1)] for one row. *)
Definition sum_columns (sel cols : list string) (vals : list Z) : Z :=
  sum_Z (snd <$> filter (λ cv, cv.1 ∈ sel) (zip cols vals)).

(** [df[c]] as a list over the rows; a [KeyError] without that column. *)
Definition column {K} (c : string) (f : Frame K) : result (list Z) :=
  if decide (c ∈ columns f)
  then Ok ((λ r, default 0 (at_column c (columns f) r.2)) <$> rows f)
  else Raise (KeyError c).

(** [df.drop(columns=c, errors='ignore')] *)
Definition drop_column {K} (c : string) (f : Frame K) : Frame K :=
  {| index_name := index_name f;
     columns := filter (λ x, x ≠ c) (columns f);
     rows := (λ r, (r.1, snd <$> filter (λ cv, cv.1 ≠ c) (zip (columns f) r.2)))
               <$> rows f |}.

(** [df.sum(numeric_only=True, axis=0)]: one sum per count column. *)
Definition column_sums {K} (f : Frame K) : list Z :=
  imap (λ i _, sum_Z ((λ r, default 0 (r.2 !! i)) <$> rows f)) (columns f).

(** [df.loc[k] = vals]: the row labelled [k] is overwritten, or appended when
    no row has that label. *)
Definition set_row {K} `{EqDecision K} (k : K) (vals : list Z)
    (rs : list (K * list Z)) : list (K * list Z) :=
  if decide (k ∈ rs.*1)
  then (λ r, if decide (r.1 = k) then (k, vals) else r) <$> rs
  else rs ++ [(k, vals)].

(** [pd.DataFrame(df.to_records())]: the index becomes a column named after
    it; numpy refuses a record type with two fields of one name. *)
Definition to_records {K} (f : Frame K) : result (Frame K) :=
  if decide (index_name f ∈ columns f)
  then Raise (ValueError "field name occurs more than once")
  else Ok f.

Section crosstab.
Context {K : Type} `{EqDecision K} (R : relation K) `{RelDecision K K R}.

Definition count_pairs (r : K) (c : string) (pairs : list (K * string)) : Z :=
  Z.of_nat (length (filter (λ p, p.1 = r ∧ p.2 = c) pairs)).

(** [pd.crosstab(index, columns)]: one row per value of [index], one column
    per value of [columns], both sorted; a cell counts the rows of the data
    with that pair. *)
Definition crosstab (name : string) (index : list K) (cols : list string) : Frame K :=
  let pairs := zip index cols in
  let cs := merge_sort String.le (remove_dups pairs.*2) in
  {| index_name := name;
     columns := cs;
     rows := (λ r, (r, (λ c, count_pairs r c pairs) <$> cs))
               <$> merge_sort R (remove_dups pairs.*1) |}.

(** [pd.crosstab(index, columns, margins=True, margins_name=...)].
    [pivot_table] refuses a margin name that is a row or a column key of
    the table; on a table without columns it leaves the table as it is
    (pandas 2, GH 49240; before, it raised); else it adds the column of row
    counts and the row of column counts, both taken from the data. *)
Definition crosstab_margins (name : string) (index : list K) (cols : list string)
    (margins_name : string) (margin_key : K) : result (Frame K) :=
  let pairs := zip index cols in
  let table := crosstab name index cols in
  if decide (margin_key ∈ (rows table).*1) then
    Raise (ValueError "Conflicting name in margins")
  else if decide (margins_name ∈ columns table) then
    Raise (ValueError "Conflicting name in margins")
  else match columns table with
       | [] => Ok table
       | _ =>
           let count_row r := Z.of_nat (length (filter (λ p, p.1 = r) pairs)) in
           let count_col c := Z.of_nat (length (filter (λ p, p.2 = c) pairs)) in
           Ok {| index_name := name;
                 columns := columns table ++ [margins_name];
                 rows := ((λ r, (r.1, r.2 ++ [count_row r.1])) <$> rows table)
                         ++ [(margin_key,
                              (count_col <$> columns table)
                              ++ [Z.of_nat (length pairs)])] |}
       end.
End crosstab.

(** *** 1. Entity share of voice (lines 173-179) *)

(** [numpy.rint]: to the nearest integer, a tie to the even one. *)
Definition rint (q : Q) : Z :=
  let f := Qfloor q in
  match Qcompare (q - inject_Z f) (1 # 2) with
  | Lt => f
  | Gt => f + 1
  | Eq => if Z.even f then f else f + 1
  end.

(** [Series.round(2)] *)
Definition round2 (q : Q) : Q := (inject_Z (rint (q * 100)) / 100)%Q.

Record SOVRow := {
  sov_Entity : string;
  sov_News_Count : cell;
  sov_pct : cell
}.

(** [(df_no_total['News Count'] / sum_no_total * 100).round(2)] for one count.
    A zero sum makes the float64 quotient inf or NaN; it needs a frame whose
    counts are all zero. *)
Definition percent (count sum_no_total : Z) : cell :=
  if decide (sum_no_total = 0) then CNaN
  else CFloat (round2 (inject_Z count / inject_Z sum_no_total * 100)%Q).

(** [Entity_SOV.loc['Total', '%'] = 100] *)
Definition set_total_pct (rs : list SOVRow) : list SOVRow :=
  if decide ("Total" ∈ sov_Entity <$> rs)
  then (λ r, if decide (sov_Entity r = "Total")
             then {| sov_Entity := sov_Entity r; sov_News_Count := sov_News_Count r;
                     sov_pct := CFloat 100 |}
             else r) <$> rs
  else rs ++ [{| sov_Entity := "Total"; sov_News_Count := CNaN; sov_pct := CFloat 100 |}].

(** Lines 173-179.  The cross-tabulation counts the rows of each entity under
    the one column [News Count]; [round(0)] changes no count.  The result is
    the frame after [to_records]: columns [Entity], [News Count] and [%]. *)
Definition Entity_SOV (df : list Row) : result (list SOVRow) :=
  tab ← crosstab_margins String.le "Entity"
          (Entity <$> df) ((λ _, "News Count") <$> df) "Total" "Total";
  let Entity_SOV := drop_column "Total" tab in
  let df_no_total :=
    {| index_name := index_name Entity_SOV; columns := columns Entity_SOV;
       rows := filter (λ r, r.1 ≠ "Total") (rows Entity_SOV) |} in
  counts ← column "News Count" df_no_total;
  let sum_no_total := sum_Z counts in
  all_counts ← column "News Count" Entity_SOV;
  let with_pct :=
    (λ rc : (string * list Z) * Z,
       {| sov_Entity := rc.1.1;
          sov_News_Count := CInt rc.2;
          sov_pct := if decide (rc.1.1 ≠ "Total") then percent rc.2 sum_no_total
                     else CNaN |})
      <$> zip (rows Entity_SOV) all_counts in
  Ok (set_total_pct with_pct).

(** *** 2. Month on month (lines 180-181) *)

(** Index labels of the month table: a month, or the name of the margin. *)
Inductive plabel :=
  | Period (y m : Z)
  | PName (s : string).

Global Instance plabel_eq_dec : EqDecision plabel.
Proof. solve_decision. Defined.

Definition plabel_le (a b : plabel) : Prop :=
  match a, b with
  | Period y1 m1, Period y2 m2 => y1 < y2 ∨ (y1 = y2 ∧ m1 ≤ m2)
  | Period _ _, PName _ => True
  | PName _, Period _ _ => False
  | PName s1, PName s2 => String.le s1 s2
  end.

Global Instance plabel_le_dec : RelDecision plabel_le.
Proof. intros [y1 m1|s1] [y2 m2|s2]; simpl; apply _. Defined.

(** [dt.to_period('M')] *)
Definition to_period_M (t : Timestamp) : plabel := Period (year t) (month t).

Definition sov_dt (df : list Row) : result (Frame plabel) :=
  crosstab_margins plabel_le "Date"
    ((λ r, to_period_M (Date r)) <$> df) (Entity <$> df) "Total" (PName "Total").

(** *** 3. and 5. Publication and publication type tables *)

(** [f[c] = vals]: the column is overwritten, or added as the last one. *)
Definition set_column {K} (c : string) (new : K * list Z → Z) (f : Frame K) : Frame K :=
  {| index_name := index_name f;
     columns := if decide (c ∈ columns f) then columns f else columns f ++ [c];
     rows := (λ r,
                (r.1, if decide (c ∈ columns f)
                      then (λ cv : string * Z, if decide (cv.1 = c) then new r else cv.2)
                             <$> zip (columns f) r.2
                      else r.2 ++ [new r])) <$> rows f |}.

(** [f.sort_values(by=c, ascending=False)] *)
Definition sort_by_column {K} (c : string) (f : Frame K) : result (Frame K) :=
  if decide (c ∈ columns f)
  then Ok {| index_name := index_name f; columns := columns f;
             rows := sort_desc (λ r, default 0 (at_column c (columns f) r.2)) (rows f) |}
  else Raise (KeyError c).

(** Lines 182-186 and 210-214, which differ in the key column only;
    [round()] changes no count. *)
Definition totals_table (name : string) (key : Row → string) (df : list Row)
    : result (Frame string) :=
  let tab := crosstab String.le name (key <$> df) (Entity <$> df) in
  let tab := set_column "Total" (λ r, sum_Z r.2) tab in
  tab ← sort_by_column "Total" tab;
  let tab := {| index_name := index_name tab; columns := columns tab;
                rows := set_row "GrandTotal" (column_sums tab) (rows tab) |} in
  to_records tab.

Definition Publication (df : list Row) : result (Frame string) :=
  totals_table "Publication Name" Publication_Name df.

Definition PType_Entity (df : list Row) : result (Frame string) :=
  totals_table "Publication Type" Publication_Type df.

(** *** 4. Journalist table (lines 187-208) *)

Definition with_Journalist (j : string) (r : Row) : Row :=
  {| Date := Date r; Entity := Entity r; Publication_Name := Publication_Name r;
     Publication_Type := Publication_Type r; Journalist := j |}.

(** Lines 187-189: [str.split(',')] then [explode]. *)
Definition df1 (df : list Row) : list Row :=
  df ≫= λ r, (λ j, with_Journalist j r) <$> Py.split_char "," (Journalist r).

(** A row of the journalist table before the totals are appended. *)
Record JEntry := {
  e_Journalist : string;
  e_counts : list Z;
  e_Publication_Name : string;
  e_Total : Z
}.

(** [pd.merge(jr_tab, newdata, how='inner', on 'Journalist')]: the rows of
    the left frame in order, each once per matching row of the right. *)
Definition merge_inner (left : list (string * list Z)) (right : list (string * string))
    : list (string * list Z * string) :=
  left ≫= λ l, (λ r : string * string, (l.1, l.2, r.2)) <$> filter (λ r, r.1 = l.1) right.

(** [drop_duplicates(subset=['Journalist'], keep='first')] *)
Fixpoint drop_duplicates {A} (key : A → string) (seen : list string) (l : list A) : list A :=
  match l with
  | [] => []
  | x :: l' =>
      if decide (key x ∈ seen) then drop_duplicates key seen l'
      else x :: drop_duplicates key (key x :: seen) l'
  end.

(** Lines 190-197: the sorted table with its [Total] column.  The numeric
    columns summed into [Total] are the entity columns. *)
Definition Journalist_Table (df : list Row) : result (list string * list JEntry) :=
  let d1 := df1 df in
  let jr_tab := crosstab String.le "Journalist" (Journalist <$> d1) (Entity <$> d1) in
  (* reset_index: "cannot insert Journalist, already exists" *)
  if decide ("Journalist" ∈ columns jr_tab) then
    Raise (ValueError "cannot insert Journalist, already exists")
  (* merge renames both columns of that name; astype(int) at line 204 then
     meets the publication names *)
  else if decide ("Publication Name" ∈ columns jr_tab) then
    Raise (ValueError "invalid literal for int()")
  (* an entity of that name has ended the run at line 173 *)
  else if decide ("Total" ∈ columns jr_tab) then
    Raise (ValueError "Conflicting name in margins")
  else
    let newdata := (λ r, (Journalist r, Publication_Name r)) <$> d1 in
    let merged := merge_inner (rows jr_tab) newdata in
    let merged := drop_duplicates (λ x : string * list Z * string, x.1.1) [] merged in
    let with_total :=
      (λ x : string * list Z * string,
         {| e_Journalist := x.1.1; e_counts := x.1.2; e_Publication_Name := x.2;
            e_Total := sum_Z x.1.2 |}) <$> merged in
    Ok (columns jr_tab, sort_desc e_Total with_total).

(** Index labels of the journalist table: a position, or a name given with
    [.loc]. *)
Inductive label :=
  | RowNumber (n : nat)
  | RowName (s : string).

(** A row of the finished journalist table; the two total rows have NaN in
    the text columns. *)
Record JRow := {
  j_index : label;
  j_Journalist : cell;
  j_Publication_Name : cell;
  j_counts : list Z;
  j_Total : Z
}.

Definition data_row (i : nat) (e : JEntry) : JRow :=
  {| j_index := RowNumber i;
     j_Journalist := CStr (e_Journalist e);
     j_Publication_Name := CStr (e_Publication_Name e);
     j_counts := e_counts e;
     j_Total := e_Total e |}.

(** [Jour_table.sum(numeric_only=True, axis=0)] stored with [.loc[name]]: the
    sums of the entity columns and of [Total] over all rows the table has at
    that moment. *)
Definition sum_row (name : string) (ncols : nat) (rs : list JRow) : JRow :=
  {| j_index := RowName name;
     j_Journalist := CNaN;
     j_Publication_Name := CNaN;
     j_counts := (λ i, sum_Z ((λ r, default 0 (j_counts r !! i)) <$> rs)) <$> seq 0 ncols;
     j_Total := sum_Z (j_Total <$> rs) |}.

(** Lines 197-208.  [astype(int)] and the move of the publication column
    change no value. *)
Definition Jour_table (df : list Row) : result (list string * list JRow) :=
  '(cols, Jour_table) ← Journalist_Table df;
  let bn_row := filter (λ e, e_Journalist e = "Bureau News") Jour_table in
  let Jour_table := filter (λ e, e_Journalist e ≠ "Bureau News") Jour_table in
  let Jour_table := imap data_row (Jour_table ++ bn_row) in
  let Jour_table := Jour_table ++ [sum_row "GrandTotal" (length cols) Jour_table] in
  let Jour_table := Jour_table ++ [sum_row "Total" (length cols) Jour_table] in
  Ok (cols, Jour_table).

(** *** 6. and 7. Journalists on the client only, on competitors only
    (lines 215-228) *)

(** A row mask is a Python [bool] or a boolean Series. *)
Inductive mask :=
  | Scalar (b : bool)
  | Series (bs : list bool).

(** [m1 & m2] *)
Definition mask_and (m1 m2 : mask) : mask :=
  match m1, m2 with
  | Scalar a, Scalar b => Scalar (a && b)
  | Scalar a, Series bs => Series (andb a <$> bs)
  | Series bs, Scalar b => Series ((λ a, a && b) <$> bs)
  | Series as_, Series bs => Series (zip_with andb as_ bs)
  end.

(** [df[m]]: a Series selects rows; a [bool] is looked up as a column name. *)
Definition select {K} (f : Frame K) (m : mask) : result (Frame K) :=
  match m with
  | Scalar b => Raise (KeyError (if b then "True" else "False"))
  | Series bs =>
      Ok {| index_name := index_name f; columns := columns f;
            rows := fst <$> filter (λ rb, rb.2 = true) (zip (rows f) bs) |}
  end.

(** Lines 215-216 (and again 223-224). *)
Definition crosstab_Journalist (df : list Row) : result (Frame string) :=
  tab ← crosstab_margins String.le "Journalist"
          (Journalist <$> df) (Entity <$> df) "Total" "Total";
  to_records tab.

Definition client_cols (crosstab : Frame string) : list string :=
  filter (λ col, Py.startswith col "Client-") (index_name crosstab :: columns crosstab).

Definition competitor_cols (crosstab : Frame string) : list string :=
  filter (λ col, (col ∉ ["Journalist"; "Total"]) ∧ ¬ (Py.startswith col "Client-"))
         (index_name crosstab :: columns crosstab).

(** [(crosstab[sel].sum(axis=1) != 0) if sel else dflt], and the same with
    [== 0]. *)
Definition mask_nonzero (sel : list string) (dflt : bool) (crosstab : Frame string) : mask :=
  match sel with
  | [] => Scalar dflt
  | _ => Series ((λ r, bool_decide (sum_columns sel (columns crosstab) r.2 ≠ 0))
                   <$> rows crosstab)
  end.

Definition mask_zero (sel : list string) (dflt : bool) (crosstab : Frame string) : mask :=
  match sel with
  | [] => Scalar dflt
  | _ => Series ((λ r, bool_decide (sum_columns sel (columns crosstab) r.2 = 0))
                   <$> rows crosstab)
  end.

Definition j_abt_client (df : list Row) : result (Frame string) :=
  crosstab ← crosstab_Journalist df;
  let mask_client_positive := mask_nonzero (client_cols crosstab) false crosstab in
  let mask_competitors_zero := mask_zero (competitor_cols crosstab) true crosstab in
  j_abt_client ← select crosstab (mask_and mask_client_positive mask_competitors_zero);
  sort_by_column "Total" j_abt_client.

Definition j_abt_comp (df : list Row) : result (Frame string) :=
  crosstab ← crosstab_Journalist df;
  crosstab1 ← crosstab_Journalist df;
  let mask_client_zero := mask_zero (client_cols crosstab) true crosstab1 in
  let mask_competitor_positive := mask_nonzero (competitor_cols crosstab) false crosstab1 in
  j_abt_comp ← select crosstab1 (mask_and mask_client_zero mask_competitor_positive);
  sort_by_column "Total" j_abt_comp.

(** *** The seven tables (lines 171-236) *)

Record Tables := {
  t_Entity_SOV : list SOVRow;
  t_sov_dt : Frame plabel;
  t_Publication : Frame string;
  t_Jour_table : list string * list JRow;
  t_PType_Entity : Frame string;
  t_j_abt_client : Frame string;
  t_j_abt_comp : Frame string
}.

Definition df_dict (df : list Row) : result Tables :=
  a ← Entity_SOV df;
  b ← sov_dt df;
  c ← Publication df;
  d ← Jour_table df;
  e ← PType_Entity df;
  f ← j_abt_client df;
  g ← j_abt_comp df;
  Ok {| t_Entity_SOV := a; t_sov_dt := b; t_Publication := c; t_Jour_table := d;
        t_PType_Entity := e; t_j_abt_client := f; t_j_abt_comp := g |}.

(** *** Reading the share of voice table *)


(** The number in a cell; NaN and text read as 0. *)
Definition cell_Z (c : cell) : Z :=
  match c with CInt z => z | _ => 0 end.


End Report.

(** ** Workbook assembly (lines 13-122) *)

Module Workbook.

(** The attributes the script sets on a cell. *)
Record Style := {
  font_bold : bool;
  font_gill_sans : bool;
  fill_orange : bool;
  centered : bool;
  bordered : bool
}.

Record Cell := {
  value : cell;
  style : Style
}.

Definition no_style : Style :=
  {| font_bold := false; font_gill_sans := false; fill_orange := false;
     centered := false; bordered := false |}.

Definition blank : Cell := {| value := CNaN; style := no_style |}.

(** A merged range: first row, first column, last row, last column. *)
Definition range := (nat * nat * nat * nat)%type.

(** The active sheet: cells by (row, column), both from 1, and the merged
    ranges in the order they were made. *)
Record Worksheet := {
  title : string;
  cells : gmap (nat * nat) Cell;
  merged_cells : list range
}.

(** What the writer reads of a table: [df.columns], [df.values]; [len(df)]
    is the number of rows. *)
Record DataFrame := {
  columns : list string;
  values : list (list cell)
}.

Definition in_range (pos : nat * nat) (r : range) : Prop :=
  (r.1.1.1 ≤ pos.1 ∧ pos.1 ≤ r.1.2 ∧ r.1.1.2 ≤ pos.2 ∧ pos.2 ≤ r.2)%nat.

Global Instance in_range_dec pos r : Decision (in_range pos r).
Proof. unfold in_range. apply _. Defined.

(** A cell of a merged range other than its top left one is a [MergedCell]:
    its value cannot be set. *)
Definition is_merged_cell (pos : nat * nat) (ws : Worksheet) : Prop :=
  Exists (λ r, in_range pos r ∧ pos ≠ (r.1.1.1, r.1.1.2)) (merged_cells ws).

Global Instance is_merged_cell_dec pos ws : Decision (is_merged_cell pos ws).
Proof. unfold is_merged_cell. apply _. Defined.

(** [c = ws.cell(row, column)] followed by assignments to [c]: the cell is
    made when the sheet does not have it. *)
Definition set_cell (row col : nat) (f : Cell → Cell) (ws : Worksheet) : result Worksheet :=
  if decide (is_merged_cell (row, col) ws) then
    Raise (AttributeError "'MergedCell' object attribute 'value' is read-only")
  else
    Ok {| title := title ws;
          cells := <[(row, col) := f (default blank (cells ws !! (row, col)))]> (cells ws);
          merged_cells := merged_cells ws |}.

(** [ws.merge_cells(start_row, start_column, end_row, end_column)]; a
    [CellRange] that ends before it starts is refused.  The cells of the
    range other than its top left one are taken off the sheet. *)
Definition merge_cells (r : range) (ws : Worksheet) : result Worksheet :=
  if decide (r.1.1.2 ≤ r.2 ∧ r.1.1.1 ≤ r.1.2)%nat then
    Ok {| title := title ws;
          cells := filter (λ kv : (nat * nat) * Cell,
                             ¬ (in_range kv.1 r ∧ kv.1 ≠ (r.1.1.1, r.1.1.2)))
                          (cells ws);
          merged_cells := merged_cells ws ++ [r] |}
  else Raise (ValueError "max_col must be greater than min_col").

(** [for i, x in enumerate(l, start): body] *)
Fixpoint for_enumerate {A St} (body : nat → A → St → result St)
    (start : nat) (l : list A) (s : St) : result St :=
  match l with
  | [] => Ok s
  | x :: l' => s' ← body start x s; for_enumerate body (S start) l' s'
  end.

(** Lines 13-34. *)
Definition entity_line (line : string) (c : Cell) : Cell :=
  let st := style c in
  let entity := Py.startswith line "Entity:" in
  let other := Py.startswith line "Source:"
               || Py.startswith line "Time Period of analysis:" in
  {| value := CStr line;
     style := {| font_bold := if entity then true else if other then false else font_bold st;
                 font_gill_sans := if entity || other then true else font_gill_sans st;
                 fill_orange := if entity then true else fill_orange st;
                 centered := centered st;
                 bordered := true |} |}.

Definition add_entity_info (ws : Worksheet) (entity_info : string) (start_row : nat)
    : result Worksheet :=
  for_enumerate (λ i line ws, set_cell (start_row + i - 1) 1 (entity_line line) ws)
    1%nat (Py.split_char "010" entity_info) ws.

(** Lines 39-84. *)
Definition title_cell (comment : string) (c : Cell) : Cell :=
  {| value := CStr comment;
     style := {| font_bold := true; font_gill_sans := true; fill_orange := true;
                 centered := true; bordered := bordered (style c) |} |}.

Definition header_cell (col_name : string) (c : Cell) : Cell :=
  {| value := CStr col_name;
     style := {| font_bold := true; font_gill_sans := true;
                 fill_orange := fill_orange (style c);
                 centered := true; bordered := true |} |}.

Definition data_cell (v : cell) (c : Cell) : Cell :=
  {| value := v;
     style := {| font_bold := false; font_gill_sans := true;
                 fill_orange := fill_orange (style c);
                 centered := true; bordered := true |} |}.

Definition add_styling_to_worksheet (ws : Worksheet) (df : DataFrame)
    (start_row : nat) (comment : string) : result Worksheet :=
  ws ← set_cell start_row 1 (title_cell comment) ws;
  ws ← merge_cells (start_row, 1%nat, start_row, length (columns df)) ws;
  let header_row := (start_row + 1)%nat in
  ws ← for_enumerate (λ col_idx col_name ws,
                        set_cell header_row col_idx (header_cell col_name) ws)
         1%nat (columns df) ws;
  let data_start_row := (header_row + 1)%nat in
  for_enumerate (λ row_idx row_data ws,
                   for_enumerate (λ col_idx value ws,
                                    set_cell row_idx col_idx (data_cell value) ws)
                     1%nat row_data ws)
    data_start_row (values df) ws.

(** The loop of lines 107-115, with its cursor. *)
Fixpoint write_tables (pairs : list (DataFrame * string)) (current_row : nat)
    (ws : Worksheet) : result (Worksheet * nat) :=
  match pairs with
  | [] => Ok (ws, current_row)
  | (each_df, comment) :: rest =>
      ws ← add_styling_to_worksheet ws each_df current_row comment;
      let current_row := (current_row + (length (values each_df) + 2))%nat in
      let current_row := (current_row + 2)%nat in
      write_tables rest current_row ws
  end.

(** Lines 89-122, up to the sheet that is saved. *)
Definition multiple_dfs (df_list : list DataFrame) (sheet_name : string)
    (comments : list string) (entity_info : string) : result Worksheet :=
  let ws := {| title := sheet_name; cells := ∅; merged_cells := [] |} in
  let current_row := 1%nat in
  ws ← add_entity_info ws entity_info current_row;
  let current_row := (current_row + 6)%nat in
  '(ws, _) ← write_tables (zip df_list comments) current_row ws;
  Ok ws.

End Workbook.

(** ** Export of the seven tables (lines 229-257) *)

Module Download.
Import Report.

(** What the writer reads of each table: [df.columns], [df.values].  A
    table that went through [to_records] has its former index as first
    column.  The month table is passed as [pd.crosstab] made it: its index,
    the months, is not among its columns or values. *)
Definition of_Entity_SOV (t : list SOVRow) : Workbook.DataFrame :=
  {| Workbook.columns := ["Entity"; "News Count"; "%"];
     Workbook.values :=
       (λ r, [CStr (sov_Entity r); sov_News_Count r; sov_pct r]) <$> t |}.

Definition of_crosstab {K} (f : Frame K) : Workbook.DataFrame :=
  {| Workbook.columns := columns f;
     Workbook.values := (λ r : K * list Z, CInt <$> r.2) <$> rows f |}.

Definition of_records (f : Frame string) : Workbook.DataFrame :=
  {| Workbook.columns := index_name f :: columns f;
     Workbook.values := (λ r : string * list Z, CStr r.1 :: (CInt <$> r.2)) <$> rows f |}.

Definition label_cell (l : label) : cell :=
  match l with
  | RowNumber n => CInt (Z.of_nat n)
  | RowName s => CStr s
  end.

(** The journalist table has the unnamed index as column [index]; its
    numbers are float64 since the row Total was added at line 206. *)
Definition of_Jour_table (t : list string * list JRow) : Workbook.DataFrame :=
  {| Workbook.columns := ["index"; "Journalist"; "Publication Name"] ++ t.1 ++ ["Total"];
     Workbook.values :=
       (λ r, [label_cell (j_index r); j_Journalist r; j_Publication_Name r]
             ++ ((λ z, CFloat (inject_Z z)) <$> j_counts r)
             ++ [CFloat (inject_Z (j_Total r))]) <$> t.2 |}.

(** [list(df_dict.values())] *)
Definition dfs_for_export (df_dict : Tables) : list Workbook.DataFrame :=
  [of_Entity_SOV (t_Entity_SOV df_dict);
   of_crosstab (t_sov_dt df_dict);
   of_records (t_Publication df_dict);
   of_Jour_table (t_Jour_table df_dict);
   of_records (t_PType_Entity df_dict);
   of_records (t_j_abt_client df_dict);
   of_records (t_j_abt_comp df_dict)].

Definition comments : list string :=
  ["SOV Table";
   "Month-on-Month Table";
   "Publication Table";
   "Journalist Table All";
   "Pub Type and Entity Table";
   "Journalist writing on Client and not on Comp";
   "Journalist writing on Comp and not on Client"].

(** The text of lines 248-252: four lines and, after the last line break,
    an empty one. *)
Definition entity_info : string :=
  "Entity:" +:+ String "010"
  ("Time Period of analysis: 19th April 2023 to 18th April 2024" +:+ String "010"
  ("Source: (Online) Meltwater, Select 100 online publications..." +:+ String "010"
  ("News search: All Articles: entity mentioned at least once" +:+ String "010" ""))).

(** Lines 171-257: the sheet of the workbook offered for download. *)
Definition excel_bytes (df : list Row) : result Workbook.Worksheet :=
  df_dict ← df_dict df;
  Workbook.multiple_dfs (dfs_for_export df_dict) "Results" comments entity_info.

End Download.

(** ** Inputs used in examples *)

Module Inputs.
Import Merge.

Definition file_A : UploadedFile :=
  {| uf_name := "A - x.xlsx";
     uf_sheet := Some {| df_columns := ["Headline"]; df_index := [0%nat];
                         df_rows := [{["Headline" := CStr "h1"]}] |} |}.

Definition file_B : UploadedFile :=
  {| uf_name := "B - y.xlsx";
     uf_sheet := Some {| df_columns := ["Headline"]; df_index := [0%nat];
                         df_rows := [{["Headline" := CStr "h2"]}] |} |}.

Definition day1 : Report.Timestamp :=
  {| Report.year := 2024; Report.month := 4; Report.day := 18 |}.

Definition row (entity publication journalist : string) : Report.Row :=
  {| Report.Date := day1; Report.Entity := entity;
     Report.Publication_Name := publication;
     Report.Publication_Type := "Online";
     Report.Journalist := journalist |}.

Definition sov_rows : list Report.Row :=
  [row "A" "P1" "J1"; row "B" "P1" "J2"; row "A" "P2" "J1"].

Definition mixed_rows : list Report.Row :=
  [row "Client-A" "P1" "J1"; row "B" "P1" "J2"; row "Client-A" "P2" "J3";
   row "B" "P2" "J3"].


Definition client_rows : list Report.Row :=
  [row "Client-A" "P1" "J1"].

Definition bureau_rows : list Report.Row :=
  [row "A" "P1" "J1"; row "A" "P2" "Bureau News"; row "B" "P1" "J2";
   row "B" "P2" "Bureau News"; row "A" "P1" "J2"; row "A" "P2" "Bureau News"].

Definition one_row : list Report.Row := [row "A" "P1" "J1"].

Definition two_names : list Report.Row := [row "Client-A" "P1" "J1,J2"].

Definition table_1 : Workbook.DataFrame :=
  {| Workbook.columns := ["Entity"; "News Count"];
     Workbook.values := [[CStr "A"; CInt 2]; [CStr "B"; CInt 1]] |}.




(** An upload that [pd.read_excel] cannot parse. *)
Definition file_bad : UploadedFile :=
  {| uf_name := "C - z.xlsx"; uf_sheet := None |}.

(** Two articles, the second with two authors. *)
Definition comma_rows : list Report.Row :=
  [row "A" "P1" "J1"; row "B" "P2" "J2,J3"].

End Inputs.

(** * Properties *)

(** ** Python strings *)

Module PyFacts.
Import Py.

Local Abbreviation chars := list_ascii_of_string.

Lemma app_cons (x : ascii) (a b : string) : String x a +:+ b = String x (a +:+ b).
Proof. reflexivity. Qed.

Lemma app_nil (b : string) : "" +:+ b = b.
Proof. reflexivity. Qed.

Lemma length_app (a b : string) :
  String.length (a +:+ b) = (String.length a + String.length b)%nat.
Proof. induction a as [|c a IH]; [done|]. rewrite app_cons. simpl. by rewrite IH. Qed.

Lemma chars_app (a b : string) : chars (a +:+ b) = chars a ++ chars b.
Proof. induction a as [|c a IH]; [done|]. rewrite app_cons. simpl. by rewrite IH. Qed.

Lemma app_assoc (a b c : string) : (a +:+ b) +:+ c = a +:+ b +:+ c.
Proof. induction a as [|x a IH]; [done|]. by rewrite !app_cons, IH. Qed.

Lemma app_empty_r (a : string) : a +:+ "" = a.
Proof. induction a as [|x a IH]; [done|]. by rewrite app_cons, IH. Qed.

Lemma prefix_app (sep r : string) : String.prefix sep (sep +:+ r) = true.
Proof.
  induction sep as [|c sep IH]; rewrite ?app_nil, ?app_cons; simpl.
  - by destruct r.
  - by destruct (ascii_dec c c).
Qed.

Lemma prefix_inv (sep s : string) :
  String.prefix sep s = true → ∃ r, s = sep +:+ r.
Proof.
  revert s. induction sep as [|c sep IH]; intros s Hp.
  - by exists s.
  - destruct s as [|b s]; simpl in Hp; [done|].
    destruct (ascii_dec c b) as [->|]; [|done].
    destruct (IH _ Hp) as [r ->]. by exists r.
Qed.

(** [split_head] returns all of [s] when [sep] does not occur in it, and a
    prefix that [sep] follows otherwise. *)
Lemma split_head_decompose (sep s : string) :
  (split_head sep s = s ∧ ∀ p r, s ≠ p +:+ sep +:+ r)
  ∨ (∃ r, s = split_head sep s +:+ sep +:+ r).
Proof.
  induction s as [|c s IH].
  - destruct sep as [|a sep].
    + right. by exists "".
    + left. split; [done|]. intros [|x p] r; rewrite ?app_nil, ?app_cons; discriminate.
  - cbn [split_head]. destruct (String.prefix sep (String c s)) eqn:Hp.
    + right. destruct (prefix_inv _ _ Hp) as [r Hr]. by exists r.
    + destruct IH as [[Heq Hno]|[r Hr]].
      * left. split; [by rewrite Heq|].
        intros [|x p] r Hs; rewrite ?app_nil, ?app_cons in Hs.
        -- rewrite Hs, prefix_app in Hp. done.
        -- injection Hs as -> Hs. by apply (Hno p r).
      * right. exists r. by rewrite app_cons, <-Hr.
Qed.


Lemma rfind_ge (c : ascii) (s : string) : -1 ≤ rfind c s.
Proof.
  induction s as [|a s IH]; simpl; [lia|].
  destruct (0 <=? rfind c s) eqn:E; [lia|]. destruct (Ascii.eqb a c); lia.
Qed.

(** [rfind] is -1 on a string without [c]; else it is the place of an
    occurrence of [c] that no other follows. *)
Lemma rfind_split (c : ascii) (s : string) :
  (rfind c s = -1 ∧ c ∉ chars s)
  ∨ (∃ a b, s = a +:+ String c b
            ∧ rfind c s = Z.of_nat (String.length a) ∧ c ∉ chars b).
Proof.
  induction s as [|x s IH]; simpl.
  - left. split; [done|]. apply not_elem_of_nil.
  - destruct IH as [[Hr Hno]|(a & b & Hs & Hr & Hno)].
    + rewrite Hr. simpl. destruct (Ascii.eqb x c) eqn:E.
      * apply Ascii.eqb_eq in E as ->. right. exists "", s. done.
      * left. split; [done|]. apply Ascii.eqb_neq in E.
        rewrite not_elem_of_cons. done.
    + right. exists (String x a), b. rewrite Hr.
      destruct (0 <=? Z.of_nat (String.length a)) eqn:E; [|lia].
      split_and!; [by rewrite app_cons, <-Hs | simpl; lia | done].
Qed.

Lemma rfind_app_in (c : ascii) (a t : string) :
  c ∈ chars t → rfind c (a +:+ t) = Z.of_nat (String.length a) + rfind c t ∧ 0 ≤ rfind c t.
Proof.
  intros Hin. assert (0 ≤ rfind c t) as H0.
  { destruct (rfind_split c t) as [[_ Hno]|(x & y & _ & -> & _)]; [done|lia]. }
  split; [|done]. induction a as [|x a IH]; rewrite ?app_nil, ?app_cons; simpl; [lia|].
  rewrite IH. destruct (0 <=? _) eqn:E; lia.
Qed.

Lemma substring_prefix (a b : string) :
  String.substring 0 (String.length a) (a +:+ b) = a.
Proof.
  induction a as [|x a IH]; rewrite ?app_nil, ?app_cons; simpl; [by destruct b|].
  by rewrite IH.
Qed.

Lemma substring_all (b : string) : String.substring 0 (String.length b) b = b.
Proof. rewrite <-(app_empty_r b) at 2. apply substring_prefix. Qed.

Lemma substring_suffix (a b : string) :
  String.substring (String.length a) (String.length b) (a +:+ b) = b.
Proof.
  induction a as [|x a IH]; rewrite ?app_nil, ?app_cons; simpl; [apply substring_all|done].
Qed.

(** The two parts of [splitext] make up the path. *)
Lemma splitext_app (p : string) : (splitext p).1 +:+ (splitext p).2 = p.
Proof.
  unfold splitext. destruct (_ && _) eqn:E; simpl; [|apply app_empty_r].
  apply andb_true_iff in E as [E _]. apply Z.ltb_lt in E.
  pose proof (rfind_ge "/" p).
  destruct (rfind_split "." p) as [[Hr _]|(a & b & Hp & Hr & _)]; [lia|].
  rewrite Hr, Nat2Z.id. rewrite Hp at 1 2 3. rewrite length_app.
  replace (String.length a + String.length (String "." b) - String.length a)%nat
    with (String.length (String "." b)) by lia.
  rewrite substring_prefix.
  assert (String.substring (String.length a) (String.length (String "." b))
            (a +:+ String "." b) = String "." b) as -> by apply substring_suffix.
  by rewrite Hp.
Qed.

(** The extension is empty, or it is the last dot of the path with what
    follows it, in which there is no path separator. *)
Lemma splitext_ext (p : string) :
  (splitext p).2 = ""
  ∨ ∃ e, (splitext p).2 = String "." e ∧ ("."%char ∉ chars e) ∧ ("/"%char ∉ chars e).
Proof.
  unfold splitext. destruct (_ && _) eqn:E; simpl; [|by left].
  apply andb_true_iff in E as [E _]. apply Z.ltb_lt in E.
  pose proof (rfind_ge "/" p).
  destruct (rfind_split "." p) as [[Hr _]|(a & b & Hp & Hr & Hno)]; [lia|].
  right. exists b. rewrite Hr, Nat2Z.id. rewrite Hp at 1 2. rewrite length_app.
  replace (String.length a + String.length (String "." b) - String.length a)%nat
    with (String.length (String "." b)) by lia.
  split_and!; [apply substring_suffix|done|].
  intros Hin. rewrite Hr in E. rewrite Hp in E.
  destruct (rfind_app_in "/" a (String "." b)) as [Hs H0].
  { simpl. apply elem_of_cons. by right. }
  rewrite Hs in E. lia.
Qed.

End PyFacts.

(** ** Merge pipeline *)

Module MergeFacts.
Import Merge Inputs.






(** The example of the specification: "A - x.xlsx" and "B - y.xlsx", one row
    each, give two rows with entities A and B. *)
Lemma combined_df_two_files :
  (λ df, (λ r : gmap string cell, r !! "Entity") <$> df_rows df)
    <$> combined_df [file_A; file_B]
  = Ok [Some (CStr "A"); Some (CStr "B")].
Proof. vm_compute. reflexivity. Qed.

End MergeFacts.

(** ** Frames and cross-tabulations *)

Module FrameFacts.
Import Report.

Lemma zip_fmap_fst {A B C} (f : A → B) (g : A → C) (l : list A) :
  (zip (f <$> l) (g <$> l)).*1 = f <$> l.
Proof. apply fst_zip. by rewrite !length_fmap. Qed.

Lemma zip_fmap_snd {A B C} (f : A → B) (g : A → C) (l : list A) :
  (zip (f <$> l) (g <$> l)).*2 = g <$> l.
Proof. apply snd_zip. by rewrite !length_fmap. Qed.

Section keys.
Context {K : Type} `{EqDecision K} (R : relation K) `{RelDecision K K R}.

(** The keys of a cross-tabulation are the values of the data, each once. *)
Lemma elem_of_sorted_keys (l : list K) (x : K) :
  x ∈ merge_sort R (remove_dups l) ↔ x ∈ l.
Proof. by rewrite merge_sort_Permutation, elem_of_remove_dups. Qed.

Lemma NoDup_sorted_keys (l : list K) : NoDup (merge_sort R (remove_dups l)).
Proof. rewrite merge_sort_Permutation. apply NoDup_remove_dups. Qed.

Lemma sorted_keys_nil (l : list K) : merge_sort R (remove_dups l) = [] → l = [].
Proof.
  intros Hnil. destruct l as [|x l]; [done|].
  assert (x ∈ merge_sort R (remove_dups (x :: l))) as Hx.
  { apply elem_of_sorted_keys. by left. }
  rewrite Hnil in Hx. by apply elem_of_nil in Hx.
Qed.

Lemma sorted_keys_const {A} (c : K) (l : list A) :
  l ≠ [] → merge_sort R (remove_dups ((λ _, c) <$> l)) = [c].
Proof.
  intros Hne. assert (remove_dups ((λ _, c) <$> l) = [c]) as ->; [|done].
  induction l as [|x l IH]; [done|]. destruct l as [|y l]; [done|].
  specialize (IH ltac:(done)). rewrite fmap_cons. cbn [remove_dups].
  destruct (decide_rel elem_of c _) as [|Hn]; [by rewrite IH|].
  exfalso. apply Hn. rewrite fmap_cons. by left.
Qed.

Lemma crosstab_columns name (index : list K) (cols : list string) :
  columns (crosstab R name index cols)
  = merge_sort String.le (remove_dups (zip index cols).*2).
Proof. done. Qed.

Lemma crosstab_rows name (index : list K) (cols : list string) :
  rows (crosstab R name index cols)
  = (λ r, (r, (λ c, count_pairs r c (zip index cols))
                <$> merge_sort String.le (remove_dups (zip index cols).*2)))
      <$> merge_sort R (remove_dups (zip index cols).*1).
Proof. done. Qed.

Lemma crosstab_keys name (index : list K) (cols : list string) :
  (rows (crosstab R name index cols)).*1
  = merge_sort R (remove_dups (zip index cols).*1).
Proof.
  rewrite crosstab_rows, <-list_fmap_compose. apply list_fmap_id.
Qed.

(** What [crosstab_margins] returns when it does not raise. *)
Lemma crosstab_margins_Ok name index cols margins_name margin_key f :
  crosstab_margins R name index cols margins_name margin_key = Ok f →
  (margin_key ∉ merge_sort R (remove_dups (zip index cols).*1))
  ∧ (margins_name ∉ merge_sort String.le (remove_dups (zip index cols).*2))
  ∧ ((columns (crosstab R name index cols) = [] ∧ f = crosstab R name index cols)
     ∨ (columns (crosstab R name index cols) ≠ []
        ∧ f = {| index_name := name;
                 columns := columns (crosstab R name index cols) ++ [margins_name];
                 rows :=
                   ((λ r, (r.1, r.2 ++ [Z.of_nat (length (filter (λ p, p.1 = r.1)
                                                           (zip index cols)))]))
                      <$> rows (crosstab R name index cols))
                   ++ [(margin_key,
                        ((λ c, Z.of_nat (length (filter (λ p, p.2 = c) (zip index cols))))
                           <$> columns (crosstab R name index cols))
                        ++ [Z.of_nat (length (zip index cols))])] |})).
Proof.
  unfold crosstab_margins. rewrite crosstab_keys.
  destruct (decide (margin_key ∈ _)) as [|Hk]; [done|].
  rewrite crosstab_columns.
  destruct (decide (margins_name ∈ _)) as [|Hc]; [done|].
  destruct (merge_sort String.le _) as [|c cs] eqn:Hcs; intros [= <-].
  - split_and!; [done|done|]. left. split; [done|]. done.
  - split_and!; [done|done|]. right. split; [done|]. done.
Qed.
End keys.

(** Selecting with a mask computed row by row keeps the rows on which the
    test holds, in order. *)
Lemma select_rows {K} (l : list (K * list Z)) (g : K * list Z → bool) :
  (filter (λ rb : (K * list Z) * bool, rb.2 = true) (zip l (g <$> l))).*1
  = filter (λ r, g r = true) l.
Proof.
  induction l as [|r l IH]; [done|]. rewrite fmap_cons. cbn [zip_with].
  rewrite !filter_cons. cbn [snd]. destruct (decide (g r = true)); cbn; by rewrite IH.
Qed.

Lemma sum_Z_app (l k : list Z) : sum_Z (l ++ k) = sum_Z l + sum_Z k.
Proof. induction l as [|x l IH]; simpl; [done|]. rewrite IH. lia. Qed.

Lemma sum_Z_nonneg (l : list Z) : Forall (λ x, 0 ≤ x) l → 0 ≤ sum_Z l.
Proof. induction 1; simpl; lia. Qed.

Lemma sum_Z_pos (l : list Z) (x : Z) :
  Forall (λ x, 0 ≤ x) l → x ∈ l → 0 < x → 0 < sum_Z l.
Proof.
  induction 1 as [|y l Hy Hl IH]; intros Hin Hx; [by apply elem_of_nil in Hin|].
  apply elem_of_cons in Hin as [->|Hin]; simpl.
  - pose proof (sum_Z_nonneg l Hl). lia.
  - specialize (IH Hin Hx). lia.
Qed.

End FrameFacts.

(** ** Entity share of voice *)

Module SOVFacts.
Import Report FrameFacts.



(** A cell of the cross-tabulation of [Entity] against the constant column
    counts the rows of the entity. *)
Lemma count_pairs_const (df : list Row) (e : string) :
  count_pairs e "News Count" (zip (Entity <$> df) ((λ _, "News Count") <$> df))
  = Z.of_nat (length (filter (λ x, Entity x = e) df)).
Proof.
  unfold count_pairs. f_equal. induction df as [|x df IH]; [done|].
  rewrite !fmap_cons. cbn [zip_with]. rewrite !filter_cons. cbn [fst snd].
  destruct (decide (Entity x = e)).
  - rewrite decide_True by done. simpl. by rewrite IH.
  - rewrite decide_False by (intros [? _]; done). done.
Qed.

Lemma count_row_const (df : list Row) (e : string) :
  Z.of_nat (length (filter (λ p : string * string, p.1 = e)
                      (zip (Entity <$> df) ((λ _, "News Count") <$> df))))
  = Z.of_nat (length (filter (λ x, Entity x = e) df)).
Proof.
  f_equal. induction df as [|x df IH]; [done|].
  rewrite !fmap_cons. cbn [zip_with]. rewrite !filter_cons. cbn [fst].
  destruct (decide (Entity x = e)); simpl; by rewrite IH.
Qed.

Lemma count_col_const (df : list Row) :
  Z.of_nat (length (filter (λ p : string * string, p.2 = "News Count")
                      (zip (Entity <$> df) ((λ _, "News Count") <$> df))))
  = Z.of_nat (length df).
Proof.
  f_equal. induction df as [|x df IH]; [done|].
  rewrite !fmap_cons. cbn [zip_with]. rewrite filter_cons_True by done.
  simpl. by rewrite IH.
Qed.

Lemma filter_fmap_all {A B} (P : B → Prop) `{∀ x, Decision (P x)}
    (f : A → B) (l : list A) :
  (∀ x, x ∈ l → P (f x)) → filter P (f <$> l) = f <$> l.
Proof.
  induction l as [|x l IH]; intros HP; [done|].
  rewrite fmap_cons, filter_cons_True by (apply HP; by left).
  rewrite IH; [done|]. intros y Hy. apply HP. by right.
Qed.

Lemma zip_app_fmap {A B C} (f : A → B) (g : A → C) (l : list A) (b : B) (c : C) :
  zip ((f <$> l) ++ [b]) ((g <$> l) ++ [c]) = ((λ x, (f x, g x)) <$> l) ++ [(b, c)].
Proof. induction l as [|x l IH]; [done|]. csimpl. by rewrite IH. Qed.

(** The margin table of line 173 on a table with rows and no entity called
    Total. *)
Lemma SOV_crosstab (df : list Row) :
  df ≠ [] → "Total" ∉ Entity <$> df →
  let cnt e := Z.of_nat (length (filter (λ x, Entity x = e) df)) in
  let ents := merge_sort String.le (remove_dups (Entity <$> df)) in
  crosstab_margins String.le "Entity" (Entity <$> df) ((λ _, "News Count") <$> df)
    "Total" "Total"
  = Ok {| index_name := "Entity"; columns := ["News Count"; "Total"];
          rows := ((λ e, (e, [cnt e; cnt e])) <$> ents)
                  ++ [("Total", [Z.of_nat (length df); Z.of_nat (length df)])] |}.
Proof.
  intros Hne Htot cnt ents. unfold crosstab_margins.
  rewrite crosstab_keys, crosstab_columns, crosstab_rows, zip_fmap_fst, zip_fmap_snd.
  rewrite (sorted_keys_const _ _ _ Hne).
  rewrite decide_False by (by rewrite elem_of_sorted_keys).
  rewrite decide_False by (by intros ?%list_elem_of_singleton).
  f_equal. f_equal. f_equal.
  - rewrite <-list_fmap_compose. apply list_fmap_ext. intros _ e _. simpl.
    by rewrite count_pairs_const, count_row_const.
  - simpl. rewrite count_col_const, length_zip_with, !length_fmap.
    repeat f_equal. lia.
Qed.

Lemma Entity_SOV_eq (df : list Row) :
  df ≠ [] → "Total" ∉ Entity <$> df →
  let cnt e := Z.of_nat (length (filter (λ x, Entity x = e) df)) in
  let ents := merge_sort String.le (remove_dups (Entity <$> df)) in
  Entity_SOV df
  = Ok (((λ e, {| sov_Entity := e; sov_News_Count := CInt (cnt e);
                  sov_pct := percent (cnt e) (sum_Z (cnt <$> ents)) |}) <$> ents)
        ++ [{| sov_Entity := "Total"; sov_News_Count := CInt (Z.of_nat (length df));
               sov_pct := CFloat 100 |}]).
Proof.
  intros Hne Htot cnt ents. unfold Entity_SOV.
  rewrite (SOV_crosstab df Hne Htot). fold cnt ents. cbn [mbind result_bind].
  assert (∀ e, e ∈ ents → e ≠ "Total") as Hents.
  { intros e He ->. apply Htot. unfold ents in He.
    by rewrite elem_of_sorted_keys in He. }
  set (tab := {| index_name := "Entity"; columns := ["News Count"; "Total"];
                 rows := _ |}).
  assert (drop_column "Total" tab
          = {| index_name := "Entity"; columns := ["News Count"];
               rows := ((λ e, (e, [cnt e])) <$> ents)
                       ++ [("Total", [Z.of_nat (length df)])] |}) as ->.
  { unfold drop_column, tab. cbn [index_name columns rows]. f_equal.
    rewrite fmap_app, <-list_fmap_compose. done. }
  cbn [index_name columns rows].
  rewrite filter_app, filter_fmap_all by (intros e He; by apply Hents).
  rewrite filter_cons_False, filter_nil, app_nil_r by (intros ?; done).
  unfold column. cbn [columns rows]. rewrite !decide_True by (by left).
  cbn [mbind result_bind]. f_equal.
  assert ((λ r : string * list Z, default 0 (at_column "News Count" ["News Count"] r.2))
            <$> ((λ e, (e, [cnt e])) <$> ents) = cnt <$> ents) as Hc.
  { rewrite <-list_fmap_compose. by apply list_fmap_ext. }
  rewrite fmap_app, Hc, list_fmap_singleton, zip_app_fmap, fmap_app, <-list_fmap_compose.
  unfold set_total_pct. rewrite decide_True.
  2: { rewrite fmap_app, elem_of_app. right. by left. }
  rewrite fmap_app, <-list_fmap_compose. f_equal.
  apply list_fmap_ext. intros _ e He%list_elem_of_lookup_2. simpl.
  rewrite decide_False by (by apply Hents).
  rewrite decide_True by (by apply Hents). done.
Qed.



(** An entity called Total ends the run at line 173. *)
Lemma Entity_SOV_Total (df : list Row) :
  "Total" ∈ Entity <$> df →
  Entity_SOV df = Raise (ValueError "Conflicting name in margins").
Proof.
  intros Hin. unfold Entity_SOV, crosstab_margins.
  rewrite crosstab_keys, zip_fmap_fst.
  rewrite decide_True by (by rewrite elem_of_sorted_keys). done.
Qed.



End SOVFacts.

(** ** Journalists on the client only, on competitors only *)

Module ClientFacts.
Import Report FrameFacts.

(** What lines 215-216 return when they do not raise. *)
Lemma crosstab_Journalist_Ok (df : list Row) (ct : Frame string) :
  crosstab_Journalist df = Ok ct →
  let pairs := zip (Journalist <$> df) (Entity <$> df) in
  let ents := merge_sort String.le (remove_dups (Entity <$> df)) in
  let js := merge_sort String.le (remove_dups (Journalist <$> df)) in
  index_name ct = "Journalist"
  ∧ ("Total" ∉ js) ∧ ("Total" ∉ ents) ∧ ("Journalist" ∉ ents)
  ∧ ((df = [] ∧ columns ct = [] ∧ rows ct = [])
     ∨ (df ≠ [] ∧ columns ct = ents ++ ["Total"]
        ∧ rows ct
          = ((λ j, (j, ((λ c, count_pairs j c pairs) <$> ents)
                       ++ [Z.of_nat (length (filter (λ p, p.1 = j) pairs))])) <$> js)
            ++ [("Total",
                 ((λ c, Z.of_nat (length (filter (λ p, p.2 = c) pairs))) <$> ents)
                 ++ [Z.of_nat (length pairs)])])).
Proof.
  intros Hct pairs ents js. unfold crosstab_Journalist in Hct.
  destruct (crosstab_margins _ _ _ _ _ _) as [tab|] eqn:Htab; [|done].
  apply crosstab_margins_Ok in Htab as (Hj & He & Hform).
  rewrite zip_fmap_fst in Hj. rewrite zip_fmap_snd in He.
  rewrite crosstab_columns, crosstab_rows, zip_fmap_fst, zip_fmap_snd in Hform.
  fold pairs ents js in Hj, He, Hform.
  cbn [mbind result_bind] in Hct. unfold to_records in Hct.
  destruct (decide (index_name tab ∈ columns tab)) as [|Hrec]; [done|].
  injection Hct as <-.
  destruct Hform as [[Hnil ->]|[Hne ->]]; cbn [index_name columns rows] in *.
  - assert (df = []) as Hdf.
    { unfold ents in Hnil. apply sorted_keys_nil in Hnil. by apply fmap_nil_inv in Hnil. }
    split_and!; [done|done|done|rewrite Hnil; apply not_elem_of_nil|].
    left. by subst df.
  - split_and!; [done|done|done| |].
    + intros Hin. apply Hrec, elem_of_app. by left.
    + right. split_and!; [|done|].
      * intros ->. by apply Hne.
      * f_equal. rewrite <-list_fmap_compose. done.
Qed.

(** Lines 215-216 raise only for a journalist called Total or an entity
    called Total or Journalist. *)
Lemma crosstab_Journalist_total (df : list Row) :
  "Total" ∉ Journalist <$> df →
  "Total" ∉ Entity <$> df →
  "Journalist" ∉ Entity <$> df →
  ∃ ct, crosstab_Journalist df = Ok ct.
Proof.
  intros HJ HT HE. unfold crosstab_Journalist, crosstab_margins.
  rewrite crosstab_keys, crosstab_columns, zip_fmap_fst, zip_fmap_snd.
  rewrite decide_False by (by rewrite elem_of_sorted_keys).
  rewrite decide_False by (by rewrite elem_of_sorted_keys).
  destruct (merge_sort String.le (remove_dups (Entity <$> df))) as [|e es] eqn:Hes;
    cbn [mbind result_bind]; unfold to_records; cbn [index_name columns].
  - rewrite decide_False; [by eexists|].
    rewrite crosstab_columns, zip_fmap_snd, Hes. apply not_elem_of_nil.
  - rewrite decide_False; [by eexists|]. rewrite elem_of_app.
    intros [Hin|Hin%list_elem_of_singleton]; [|done].
    rewrite <-Hes, elem_of_sorted_keys in Hin. done.
Qed.

(** The literal columns are neither client nor competitor columns. *)
Lemma client_cols_columns (ct : Frame string) :
  index_name ct = "Journalist" →
  client_cols ct = filter (λ col, Py.startswith col "Client-") (columns ct).
Proof.
  intros Hn. unfold client_cols. rewrite Hn. rewrite filter_cons_False; [done|].
  vm_compute. intros [].
Qed.

Lemma competitor_cols_columns (ct : Frame string) :
  index_name ct = "Journalist" →
  competitor_cols ct
  = filter (λ col, (col ∉ ["Journalist"; "Total"]) ∧ ¬ (Py.startswith col "Client-"))
      (columns ct).
Proof.
  intros Hn. unfold competitor_cols. rewrite Hn. rewrite filter_cons_False; [done|].
  intros [Hno _]. apply Hno. by left.
Qed.

Lemma has_Total_column (df : list Row) (ct : Frame string) :
  crosstab_Journalist df = Ok ct →
  client_cols ct ≠ [] ∨ competitor_cols ct ≠ [] →
  df ≠ [] ∧ "Total" ∈ columns ct.
Proof.
  intros Hct Hcols.
  destruct (crosstab_Journalist_Ok df ct Hct) as (Hn & _ & _ & _ & [(-> & Hc & _)|(Hne & Hc & _)]).
  - exfalso. rewrite client_cols_columns, competitor_cols_columns, Hc in Hcols by done.
    by destruct Hcols.
  - split; [done|]. rewrite Hc. apply elem_of_app. right. by left.
Qed.

Lemma zip_with_andb_fmap {A} (f g : A → bool) (l : list A) :
  zip_with andb (f <$> l) (g <$> l) = (λ x, f x && g x) <$> l.
Proof. induction l as [|x l IH]; [done|]. csimpl. by rewrite IH. Qed.

(** Masks of which at least one is a Series select the rows on which both
    hold; two Python bools are no selection. *)
Lemma select_mask_and {K} (f : Frame K) (m1 m2 : mask) (g1 g2 : K * list Z → bool) :
  (m1 = Series (g1 <$> rows f) ∨ ∃ b, m1 = Scalar b ∧ g1 = λ _, b) →
  (m2 = Series (g2 <$> rows f) ∨ ∃ b, m2 = Scalar b ∧ g2 = λ _, b) →
  (∃ bs, m1 = Series bs) ∨ (∃ bs, m2 = Series bs) →
  select f (mask_and m1 m2)
  = Ok {| index_name := index_name f; columns := columns f;
          rows := filter (λ r, g1 r && g2 r = true) (rows f) |}.
Proof.
  intros [->|(b1 & -> & ->)] [->|(b2 & -> & ->)] Hs; cbn [mask_and select].
  - by rewrite zip_with_andb_fmap, select_rows.
  - rewrite <-list_fmap_compose. by rewrite select_rows.
  - rewrite <-list_fmap_compose. by rewrite select_rows.
  - by destruct Hs as [[? ?]|[? ?]].
Qed.

Lemma elem_of_sort_by_Total {K} (f out : Frame K) (r : K * list Z) :
  sort_by_column "Total" f = Ok out →
  columns out = columns f ∧ index_name out = index_name f ∧ (r ∈ rows out ↔ r ∈ rows f).
Proof.
  unfold sort_by_column. destruct (decide _); [|done]. intros [= <-].
  cbn [columns rows index_name]. unfold sort_desc. by rewrite merge_sort_Permutation.
Qed.

(** The rows of table 6: the rows of the cross-tabulation whose client
    columns do not sum to zero and whose competitor columns, if there are
    any, do. *)
Lemma j_abt_client_rows (df : list Row) (ct : Frame string) :
  crosstab_Journalist df = Ok ct →
  client_cols ct ≠ [] ∨ competitor_cols ct ≠ [] →
  ∃ out, j_abt_client df = Ok out
    ∧ columns out = columns ct
    ∧ ∀ r, r ∈ rows out ↔
        r ∈ rows ct
        ∧ (client_cols ct ≠ []
           ∧ sum_columns (client_cols ct) (columns ct) r.2 ≠ 0)
        ∧ (competitor_cols ct ≠ [] →
           sum_columns (competitor_cols ct) (columns ct) r.2 = 0).
Proof.
  intros Hct Hcols. destruct (has_Total_column df ct Hct Hcols) as [_ HT].
  unfold j_abt_client. rewrite Hct. cbn [mbind result_bind].
  unfold mask_nonzero, mask_zero.
  destruct (client_cols ct) as [|c cs] eqn:Hcl;
    destruct (competitor_cols ct) as [|d ds] eqn:Hco.
  - by destruct Hcols.
  - erewrite (select_mask_and ct _ _ (λ _, false)
                (λ r, bool_decide (sum_columns (d :: ds) (columns ct) r.2 = 0)));
      [|right; by eexists|by left|right; by eexists].
    cbn [mbind result_bind]. unfold sort_by_column. cbn [columns].
    rewrite decide_True by done. eexists. split; [done|]. split; [done|].
    intros r. cbn [rows]. unfold sort_desc. rewrite merge_sort_Permutation.
    rewrite list_elem_of_filter. cbn [andb]. intuition done.
  - erewrite (select_mask_and ct _ _
                (λ r, bool_decide (sum_columns (c :: cs) (columns ct) r.2 ≠ 0))
                (λ _, true));
      [|by left|right; by eexists|left; by eexists].
    cbn [mbind result_bind]. unfold sort_by_column. cbn [columns].
    rewrite decide_True by done. eexists. split; [done|]. split; [done|].
    intros r. cbn [rows]. unfold sort_desc. rewrite merge_sort_Permutation.
    rewrite list_elem_of_filter, andb_true_r, bool_decide_eq_true. intuition done.
  - erewrite (select_mask_and ct _ _
                (λ r, bool_decide (sum_columns (c :: cs) (columns ct) r.2 ≠ 0))
                (λ r, bool_decide (sum_columns (d :: ds) (columns ct) r.2 = 0)));
      [|by left|by left|left; by eexists].
    cbn [mbind result_bind]. unfold sort_by_column. cbn [columns].
    rewrite decide_True by done. eexists. split; [done|]. split; [done|].
    intros r. cbn [rows]. unfold sort_desc. rewrite merge_sort_Permutation.
    rewrite list_elem_of_filter, andb_true_iff, !bool_decide_eq_true. intuition done.
Qed.

(** The rows of table 7: the rows whose client columns, if there are any,
    sum to zero and whose competitor columns do not. *)
Lemma j_abt_comp_rows (df : list Row) (ct : Frame string) :
  crosstab_Journalist df = Ok ct →
  client_cols ct ≠ [] ∨ competitor_cols ct ≠ [] →
  ∃ out, j_abt_comp df = Ok out
    ∧ columns out = columns ct
    ∧ ∀ r, r ∈ rows out ↔
        r ∈ rows ct
        ∧ (client_cols ct ≠ [] →
           sum_columns (client_cols ct) (columns ct) r.2 = 0)
        ∧ (competitor_cols ct ≠ []
           ∧ sum_columns (competitor_cols ct) (columns ct) r.2 ≠ 0).
Proof.
  intros Hct Hcols. destruct (has_Total_column df ct Hct Hcols) as [_ HT].
  unfold j_abt_comp. rewrite Hct. cbn [mbind result_bind].
  unfold mask_nonzero, mask_zero.
  destruct (client_cols ct) as [|c cs] eqn:Hcl;
    destruct (competitor_cols ct) as [|d ds] eqn:Hco.
  - by destruct Hcols.
  - erewrite (select_mask_and ct _ _ (λ _, true)
                (λ r, bool_decide (sum_columns (d :: ds) (columns ct) r.2 ≠ 0)));
      [|right; by eexists|by left|right; by eexists].
    cbn [mbind result_bind]. unfold sort_by_column. cbn [columns].
    rewrite decide_True by done. eexists. split; [done|]. split; [done|].
    intros r. cbn [rows]. unfold sort_desc. rewrite merge_sort_Permutation.
    rewrite list_elem_of_filter. cbn [andb]. rewrite bool_decide_eq_true. intuition done.
  - erewrite (select_mask_and ct _ _
                (λ r, bool_decide (sum_columns (c :: cs) (columns ct) r.2 = 0))
                (λ _, false));
      [|by left|right; by eexists|left; by eexists].
    cbn [mbind result_bind]. unfold sort_by_column. cbn [columns].
    rewrite decide_True by done. eexists. split; [done|]. split; [done|].
    intros r. cbn [rows]. unfold sort_desc. rewrite merge_sort_Permutation.
    rewrite list_elem_of_filter, andb_false_r. intuition done.
  - erewrite (select_mask_and ct _ _
                (λ r, bool_decide (sum_columns (c :: cs) (columns ct) r.2 = 0))
                (λ r, bool_decide (sum_columns (d :: ds) (columns ct) r.2 ≠ 0)));
      [|by left|by left|left; by eexists].
    cbn [mbind result_bind]. unfold sort_by_column. cbn [columns].
    rewrite decide_True by done. eexists. split; [done|]. split; [done|].
    intros r. cbn [rows]. unfold sort_desc. rewrite merge_sort_Permutation.
    rewrite list_elem_of_filter, andb_true_iff, !bool_decide_eq_true. intuition done.
Qed.

Lemma NoDup_fst_eq {A B} (l : list (A * B)) (r1 r2 : A * B) :
  NoDup l.*1 → r1 ∈ l → r2 ∈ l → r1.1 = r2.1 → r1 = r2.
Proof.
  induction l as [|x l IH]; intros Hnd H1 H2 Heq; [by apply elem_of_nil in H1|].
  rewrite fmap_cons in Hnd. apply NoDup_cons in Hnd as [Hx Hnd].
  apply elem_of_cons in H1 as [->|H1]; apply elem_of_cons in H2 as [->|H2].
  - done.
  - exfalso. apply Hx. rewrite Heq. by apply list_elem_of_fmap_2.
  - exfalso. apply Hx. rewrite <-Heq. by apply list_elem_of_fmap_2.
  - by apply IH.
Qed.

(** No two rows of the cross-tabulation have the same name. *)
Lemma crosstab_Journalist_NoDup (df : list Row) (ct : Frame string) :
  crosstab_Journalist df = Ok ct → NoDup (rows ct).*1.
Proof.
  intros Hct.
  destruct (crosstab_Journalist_Ok df ct Hct)
    as (_ & Hj & _ & _ & [(_ & _ & ->)|(_ & _ & ->)]); [constructor|].
  rewrite fmap_app, <-list_fmap_compose, list_fmap_singleton. cbn [fst].
  erewrite list_fmap_ext; [rewrite list_fmap_id|done].
  apply NoDup_app. split_and!.
  - apply NoDup_sorted_keys.
  - intros j Hin ->%list_elem_of_singleton. done.
  - apply NoDup_singleton.
Qed.

(** C6.  When the cross-tabulation has a column that starts with "Client-"
    and an entity column that does not, tables 6 and 7 are both made and no
    journalist (no row name) is in both. *)
Theorem client_comp_disjoint (df : list Row) (ct : Frame string) :
  crosstab_Journalist df = Ok ct →
  client_cols ct ≠ [] →
  competitor_cols ct ≠ [] →
  ∃ cl co, j_abt_client df = Ok cl ∧ j_abt_comp df = Ok co
    ∧ ∀ j, j ∈ (rows cl).*1 → j ∉ (rows co).*1.
Proof.
  intros Hct Hcl Hco.
  destruct (j_abt_client_rows df ct Hct) as (cl & Hcl_ok & _ & Hcl_rows); [by left|].
  destruct (j_abt_comp_rows df ct Hct) as (co & Hco_ok & _ & Hco_rows); [by left|].
  exists cl, co. split_and!; [done|done|].
  intros j (r1 & -> & H1)%list_elem_of_fmap (r2 & Heq & H2)%list_elem_of_fmap.
  apply Hcl_rows in H1 as (H1 & [_ Hnz] & _).
  apply Hco_rows in H2 as (H2 & Hz & _).
  assert (r1 = r2) as ->.
  { apply (NoDup_fst_eq (rows ct)); [|done..]. by apply crosstab_Journalist_NoDup with df. }
  by apply Hnz, Hz.
Qed.

(** The theorem on a table with a client and a competitor. *)
Lemma client_comp_disjoint_witness :
  ∃ cl co, j_abt_client Inputs.mixed_rows = Ok cl ∧ j_abt_comp Inputs.mixed_rows = Ok co
    ∧ ∀ j, j ∈ (rows cl).*1 → j ∉ (rows co).*1.
Proof.
  destruct (crosstab_Journalist Inputs.mixed_rows) as [ct|] eqn:Hct; [|by vm_compute in Hct].
  apply (client_comp_disjoint Inputs.mixed_rows ct Hct).
  - vm_compute in Hct. injection Hct as <-. by vm_compute.
  - vm_compute in Hct. injection Hct as <-. by vm_compute.
Defined.

(** On a table with rows, an entity column is a client column or a
    competitor column. *)
Lemma entity_column_split (df : list Row) (ct : Frame string) (e : string) :
  crosstab_Journalist df = Ok ct →
  e ∈ Entity <$> df →
  e ∈ columns ct ∧ (e ∈ client_cols ct ∨ e ∈ competitor_cols ct).
Proof.
  intros Hct He.
  destruct (crosstab_Journalist_Ok df ct Hct)
    as (Hn & _ & HT & HJ & [(-> & _ & _)|(_ & Hc & _)]); [by apply elem_of_nil in He|].
  assert (e ∈ merge_sort String.le (remove_dups (Entity <$> df))) as Hin
    by (by apply elem_of_sorted_keys).
  assert (e ∈ columns ct) as Hcol by (rewrite Hc; apply elem_of_app; by left).
  split; [done|].
  rewrite client_cols_columns, competitor_cols_columns, !list_elem_of_filter by done.
  destruct (Py.startswith e "Client-") eqn:Hs.
  - left. split; [done|done].
  - right. split; [|done]. split; [|by intros []].
    intros [->|[->|[]%elem_of_nil]%elem_of_cons]%elem_of_cons; done.
Qed.



Lemma sum_columns_pos (sel cols : list string) (vals : list Z) (c : string) (v : Z) :
  Forall (λ x, 0 ≤ x) vals → (c, v) ∈ zip cols vals → c ∈ sel → 0 < v →
  0 < sum_columns sel cols vals.
Proof.
  intros Hnn Hin Hsel Hv. unfold sum_columns. apply (sum_Z_pos _ v); [| |done].
  - apply Forall_fmap, Forall_forall. intros [c' v'] [_ Hz]%list_elem_of_filter.
    apply elem_of_zip_r in Hz. rewrite Forall_forall in Hnn. by apply Hnn.
  - apply list_elem_of_fmap. exists (c, v). split; [done|].
    apply list_elem_of_filter. done.
Qed.

(** C10.  The cross-tabulation from which tables 6 and 7 are selected has a
    row named Total (its margin), and on a table with rows in which no entity
    column is a competitor column (all start with "Client-") that row is a
    row of table 6. *)
Theorem Total_row_in_client_table (df : list Row) (ct : Frame string) :
  crosstab_Journalist df = Ok ct →
  df ≠ [] →
  competitor_cols ct = [] →
  ∃ cl totals, j_abt_client df = Ok cl
    ∧ ("Total", totals) ∈ rows ct
    ∧ ("Total", totals) ∈ rows cl.
Proof.
  intros Hct Hne Hco.
  destruct df as [|x df]; [done|].
  destruct (entity_column_split (x :: df) ct (Entity x) Hct) as [_ [Hin|Hin]];
    [rewrite fmap_cons; by left| |by rewrite Hco in Hin; apply elem_of_nil in Hin].
  destruct (j_abt_client_rows (x :: df) ct Hct) as (cl & Hcl_ok & _ & Hcl_rows).
  { left. by apply elem_of_not_nil in Hin. }
  destruct (crosstab_Journalist_Ok (x :: df) ct Hct)
    as (_ & _ & _ & _ & [(? & _)|(_ & Hc & Hr)]); [done|].
  cbv zeta in Hr. set (pairs := zip (Journalist <$> x :: df) (Entity <$> x :: df)) in *.
  set (ents := merge_sort String.le (remove_dups (Entity <$> x :: df))) in *.
  set (count_col := λ c, Z.of_nat (length (filter (λ p : string * string, p.2 = c) pairs))) in *.
  exists cl, ((count_col <$> ents) ++ [Z.of_nat (length pairs)]).
  assert (("Total", (count_col <$> ents) ++ [Z.of_nat (length pairs)]) ∈ rows ct) as HT.
  { rewrite Hr. apply elem_of_app. right. by left. }
  split_and!; [done|done|].
  apply Hcl_rows. split_and!; [done|by apply elem_of_not_nil in Hin| |by intros ?].
  cbn [snd]. rewrite Hc.
  enough (0 < sum_columns (client_cols ct) (ents ++ ["Total"])
                ((count_col <$> ents) ++ [Z.of_nat (length pairs)])) by lia.
  apply (sum_columns_pos _ _ _ (Entity x) (count_col (Entity x))); [| |done|].
  - apply Forall_app. split.
    + apply Forall_fmap, Forall_forall. intros c _. unfold count_col. simpl. lia.
    + apply Forall_singleton. lia.
  - rewrite zip_with_app by (by rewrite length_fmap). apply elem_of_app. left.
    rewrite zip_with_fmap_r, zip_with_diag. apply list_elem_of_fmap.
    exists (Entity x). split; [done|]. unfold ents. apply elem_of_sorted_keys.
    rewrite fmap_cons. by left.
  - unfold count_col, pairs. rewrite !fmap_cons. cbn [zip_with].
    rewrite filter_cons_True by done. simpl. lia.
Qed.

(** The theorem on a table whose one entity is a client. *)
Lemma Total_row_in_client_table_witness :
  ∃ cl totals, j_abt_client Inputs.client_rows = Ok cl
    ∧ ("Total", totals) ∈ rows cl.
Proof.
  destruct (crosstab_Journalist Inputs.client_rows) as [ct|] eqn:Hct;
    [|by vm_compute in Hct].
  destruct (Total_row_in_client_table Inputs.client_rows ct Hct)
    as (cl & totals & H1 & _ & H2); [done| |].
  - vm_compute in Hct. injection Hct as <-. by vm_compute.
  - exists cl, totals. split; [exact H1|exact H2].
Defined.

End ClientFacts.

(** ** Journalist table *)

Module JournalistFacts.
Import Report FrameFacts.

Lemma split_char_not_nil (c : ascii) (s : string) : Py.split_char c s ≠ [].
Proof.
  induction s as [|a s IH]; simpl; [done|].
  destruct (Ascii.eqb a c); [done|]. by destruct (Py.split_char c s).
Qed.

(** The pieces of [s.split(c)], joined by [c], are [s]; no piece holds [c]. *)
Lemma split_char_concat (c : ascii) (s : string) :
  String.concat (String c EmptyString) (Py.split_char c s) = s.
Proof.
  induction s as [|a s IH]; [done|]. cbn [Py.split_char].
  pose proof (split_char_not_nil c s) as Hne.
  destruct (Ascii.eqb a c) eqn:E.
  - apply Ascii.eqb_eq in E as ->.
    destruct (Py.split_char c s) as [|w ws]; [done|].
    cbn [String.concat] in *. by rewrite IH.
  - destruct (Py.split_char c s) as [|w ws]; [done|].
    destruct ws as [|w' ws]; cbn [String.concat] in *; by rewrite <-IH.
Qed.

Lemma split_char_no_sep (c : ascii) (s w : string) :
  w ∈ Py.split_char c s → c ∉ list_ascii_of_string w.
Proof.
  revert w. induction s as [|a s IH]; intros w; cbn [Py.split_char].
  - intros ->%list_elem_of_singleton. apply not_elem_of_nil.
  - pose proof (split_char_not_nil c s) as Hne.
    destruct (Ascii.eqb a c) eqn:E.
    + intros [->|Hw]%elem_of_cons; [apply not_elem_of_nil|by apply IH].
    + apply Ascii.eqb_neq in E.
      destruct (Py.split_char c s) as [|w0 ws]; [done|].
      intros [->|Hw]%elem_of_cons.
      * simpl. apply not_elem_of_cons. split; [done|]. apply IH. by left.
      * apply IH. by right.
Qed.

(** [explode]: a row of [df1] is a row of the table with one of the names of
    its journalist field; the other fields are those of the row. *)
Lemma elem_of_df1 (df : list Row) (r' : Row) :
  r' ∈ df1 df ↔
  ∃ r j, r ∈ df ∧ j ∈ Py.split_char "," (Journalist r) ∧ r' = with_Journalist j r.
Proof.
  unfold df1. rewrite list_elem_of_bind. split.
  - intros (r & (j & -> & Hj)%list_elem_of_fmap & Hr). by exists r, j.
  - intros (r & j & Hr & Hj & ->). exists r. split; [|done].
    apply list_elem_of_fmap. by exists j.
Qed.

Lemma Entity_df1 (df : list Row) (e : string) :
  e ∈ Entity <$> df1 df ↔ e ∈ Entity <$> df.
Proof.
  rewrite !list_elem_of_fmap. split.
  - intros (r' & -> & (r & j & Hr & _ & ->)%elem_of_df1). by exists r.
  - intros (r & -> & Hr). destruct (Py.split_char "," (Journalist r)) as [|j js] eqn:Hs.
    { by apply split_char_not_nil in Hs. }
    exists (with_Journalist j r). split; [done|]. apply elem_of_df1.
    exists r, j. rewrite Hs. split_and!; [done|by left|done].
Qed.





Global Instance by_desc_trans {A} (key : A → Z) : Transitive (by_desc key).
Proof. intros a b c. unfold by_desc. lia. Qed.

Global Instance by_desc_total {A} (key : A → Z) : Total (by_desc key).
Proof. intros a b. unfold by_desc. lia. Qed.






(** On that table Bureau News, with a Total of 3, comes after J2 with 2 and
    J1 with 1. *)
Lemma Jour_table_bureau_rows :
  (λ t : list string * list JRow, (λ r, (j_Journalist r, j_Total r)) <$> t.2)
    <$> Jour_table Inputs.bureau_rows
  = Ok [(CStr "J2", 2); (CStr "J1", 1); (CStr "Bureau News", 3); (CNaN, 6); (CNaN, 12)].
Proof. by vm_compute. Qed.

(** The row Total is computed when the table already has its row
    GrandTotal: every number of Total is twice that of GrandTotal, which is
    the sum over the journalists' rows. *)
Lemma Jour_table_Total_twice (df : list Row) (cols : list string) (tab : list JRow) :
  Jour_table df = Ok (cols, tab) →
  ∃ data grand total,
    tab = data ++ [grand; total]
    ∧ j_index grand = RowName "GrandTotal" ∧ j_index total = RowName "Total"
    ∧ j_Total grand = sum_Z (j_Total <$> data)
    ∧ j_Total total = 2 * j_Total grand
    ∧ j_counts total = (λ v, 2 * v) <$> j_counts grand.
Proof.
  unfold Jour_table. destruct (Journalist_Table df) as [[cols' entries]|]; [|done].
  cbn [mbind result_bind]. intros [= <- <-].
  set (data := imap data_row _).
  exists data, (sum_row "GrandTotal" (length cols') data),
    (sum_row "Total" (length cols') (data ++ [sum_row "GrandTotal" (length cols') data])).
  split_and!; [by rewrite <-(assoc_L (++))|done|done|done| |].
  - cbn [j_Total sum_row]. rewrite fmap_app, sum_Z_app. simpl. lia.
  - cbn [j_counts sum_row]. rewrite <-list_fmap_compose. apply list_fmap_ext.
    intros i n Hn. apply lookup_seq in Hn as [-> Hn]. cbn [compose].
    rewrite fmap_app, sum_Z_app. cbn [fmap list_fmap j_counts sum_row sum_Z foldr].
    rewrite list_lookup_fmap, lookup_seq_lt by done. simpl. lia.
Qed.

(** C1, at a table of one row.  The row GrandTotal holds the column sums
    (A = 1, Total = 1); the row Total holds twice these (A = 2, Total = 2). *)
Theorem Jour_table_Total_not_GrandTotal :
  Jour_table Inputs.one_row
  = Ok (["A"],
        [{| j_index := RowNumber 0; j_Journalist := CStr "J1";
            j_Publication_Name := CStr "P1"; j_counts := [1]; j_Total := 1 |};
         {| j_index := RowName "GrandTotal"; j_Journalist := CNaN;
            j_Publication_Name := CNaN; j_counts := [1]; j_Total := 1 |};
         {| j_index := RowName "Total"; j_Journalist := CNaN;
            j_Publication_Name := CNaN; j_counts := [2]; j_Total := 2 |}]).
Proof. by vm_compute. Qed.

(** C4, at the table of the specification's example.  The exploded table
    has a row for J1 and a row for J2, and the journalist table counts one
    article on Client-A for each; the cross-tabulation of lines 215 and 223
    is taken from [df], not [df1], and has the one journalist "J1,J2". *)
Theorem explode_not_used_by_crosstab :
  df1 Inputs.two_names
  = [Inputs.row "Client-A" "P1" "J1"; Inputs.row "Client-A" "P1" "J2"]
  ∧ rows (crosstab String.le "Journalist"
            (Journalist <$> df1 Inputs.two_names) (Entity <$> df1 Inputs.two_names))
    = [("J1", [1]); ("J2", [1])]
  ∧ crosstab_Journalist Inputs.two_names
    = Ok {| index_name := "Journalist"; columns := ["Client-A"; "Total"];
            rows := [("J1,J2", [1; 1]); ("Total", [1; 1])] |}.
Proof. by vm_compute. Qed.

End JournalistFacts.

(** ** The report on an empty table *)

Module ReportFacts.
Import Report.



End ReportFacts.

(** ** Workbook layout *)

Module WorkbookFacts.
Import Workbook.
Local Open Scope nat_scope.

(** A cell below all merged ranges can be written. *)
Lemma set_cell_Ok (row col : nat) (f : Cell → Cell) (ws : Worksheet) :
  Forall (λ rg : range, rg.1.2 < row) (merged_cells ws) →
  set_cell row col f ws
  = Ok {| title := title ws;
          cells := <[(row, col) := f (default blank (cells ws !! (row, col)))]> (cells ws);
          merged_cells := merged_cells ws |}.
Proof.
  intros Hm. unfold set_cell. rewrite decide_False; [done|].
  unfold is_merged_cell. rewrite Exists_exists. intros (rg & Hin & [Hr _]).
  rewrite Forall_forall in Hm. specialize (Hm rg Hin).
  unfold in_range in Hr. simpl in Hr. lia.
Qed.

(** Merging leaves the cells outside the range, and its first cell. *)
Lemma lookup_merged (r : range) (m : gmap (nat * nat) Cell) (pos : nat * nat) :
  ¬ (in_range pos r ∧ pos ≠ (r.1.1.1, r.1.1.2)) →
  filter (λ kv : (nat * nat) * Cell, ¬ (in_range kv.1 r ∧ kv.1 ≠ (r.1.1.1, r.1.1.2))) m
    !! pos
  = m !! pos.
Proof.
  intros Hpos. rewrite map_lookup_filter. destruct (m !! pos) as [c|]; [|done].
  simpl. by rewrite option_guard_True.
Qed.

(** One row of cells, written from column [start] on. *)
Lemma write_row_spec {A} (g : A → Cell → Cell) (row : nat) (l : list A)
    (start : nat) (ws : Worksheet) :
  Forall (λ rg : range, rg.1.2 < row) (merged_cells ws) →
  ∃ ws', for_enumerate (λ col x ws, set_cell row col (g x) ws) start l ws = Ok ws'
    ∧ merged_cells ws' = merged_cells ws
    ∧ (∀ j x, l !! j = Some x → ∃ c, cells ws' !! (row, start + j) = Some (g x c))
    ∧ (∀ pos, pos.1 ≠ row ∨ pos.2 < start → cells ws' !! pos = cells ws !! pos).
Proof.
  revert start ws. induction l as [|x l IH]; intros start ws Hm.
  - exists ws. split_and!; [done|done| |done]. intros j x Hx. done.
  - cbn [for_enumerate]. rewrite set_cell_Ok by done. cbn [mbind result_bind].
    set (ws1 := {| title := _; cells := _; merged_cells := _ |}).
    destruct (IH (S start) ws1 Hm) as (ws' & Hok & Hmerged & Hcells & Hframe).
    exists ws'. split_and!; [done|done| |].
    + intros [|j] y Hy.
      * injection Hy as <-. eexists. rewrite Hframe by (right; simpl; lia).
        rewrite Nat.add_0_r. unfold ws1. cbn [cells]. apply lookup_insert_eq.
      * destruct (Hcells j y Hy) as [c Hc]. exists c.
        by rewrite <-Nat.add_succ_comm.
    + intros pos Hpos. rewrite Hframe by (destruct Hpos; [by left|right; lia]).
      unfold ws1. cbn [cells]. apply lookup_insert_ne. destruct pos as [r c].
      intros [= <- <-]. simpl in Hpos. lia.
Qed.

(** The data rows, written from row [start] on. *)
Lemma write_rows_spec (rows : list (list cell)) (start : nat) (ws : Worksheet) :
  Forall (λ rg : range, rg.1.2 < start) (merged_cells ws) →
  ∃ ws', for_enumerate
           (λ row_idx row_data ws,
              for_enumerate (λ col_idx v ws, set_cell row_idx col_idx (data_cell v) ws)
                1 row_data ws)
           start rows ws = Ok ws'
    ∧ merged_cells ws' = merged_cells ws
    ∧ (∀ i row j v, rows !! i = Some row → row !! j = Some v →
         ∃ c, cells ws' !! (start + i, 1 + j) = Some (data_cell v c))
    ∧ (∀ pos, pos.1 < start ∨ start + length rows ≤ pos.1 →
         cells ws' !! pos = cells ws !! pos).
Proof.
  revert start ws. induction rows as [|row rows IH]; intros start ws Hm.
  - exists ws. split_and!; [done|done| |done]. intros i row j v Hrow. done.
  - cbn [for_enumerate].
    destruct (write_row_spec data_cell start row 1 ws Hm)
      as (ws1 & Hok1 & Hm1 & Hcells1 & Hframe1).
    rewrite Hok1. cbn [mbind result_bind].
    destruct (IH (S start) ws1) as (ws' & Hok & Hmerged & Hcells & Hframe).
    { rewrite Hm1. eapply Forall_impl; [exact Hm|]. intros rg Hrg. simpl in *. lia. }
    exists ws'. split_and!; [done|by rewrite Hmerged| |].
    + intros [|i] r j v Hr Hv.
      * injection Hr as <-. destruct (Hcells1 j v Hv) as [c Hc]. exists c.
        rewrite Hframe by (left; simpl; lia). by rewrite Nat.add_0_r.
      * destruct (Hcells i r j v Hr Hv) as [c Hc]. exists c.
        by rewrite <-Nat.add_succ_comm.
    + intros pos Hpos. cbn [length] in Hpos.
      rewrite Hframe by (destruct Hpos; [left|right]; lia).
      apply Hframe1. left. destruct Hpos; lia.
Qed.

(** One table: title, merge, header row, data rows. *)
Lemma add_styling_spec (ws : Worksheet) (df : DataFrame) (start_row : nat)
    (comment : string) :
  Forall (λ rg : range, rg.1.2 < start_row) (merged_cells ws) →
  columns df ≠ [] →
  ∃ ws', add_styling_to_worksheet ws df start_row comment = Ok ws'
    ∧ merged_cells ws'
      = merged_cells ws ++ [(start_row, 1, start_row, length (columns df))]
    ∧ value <$> cells ws' !! (start_row, 1) = Some (CStr comment)
    ∧ (∀ j c, columns df !! j = Some c →
         value <$> cells ws' !! (start_row + 1, 1 + j) = Some (CStr c))
    ∧ (∀ i row j v, values df !! i = Some row → row !! j = Some v →
         value <$> cells ws' !! (start_row + 2 + i, 1 + j) = Some v)
    ∧ (∀ pos, pos.1 < start_row ∨ start_row + 2 + length (values df) ≤ pos.1 →
         cells ws' !! pos = cells ws !! pos).
Proof.
  intros Hm Hcols. unfold add_styling_to_worksheet.
  rewrite set_cell_Ok by done. cbn [mbind result_bind].
  set (ws1 := {| title := _; cells := _; merged_cells := _ |}).
  unfold merge_cells. cbn [fst snd]. rewrite decide_True.
  2: { split; [|done]. destruct (columns df); [done|]. simpl. lia. }
  cbn [mbind result_bind].
  set (ws2 := {| title := _; cells := _; merged_cells := _ |}).
  assert (Forall (λ rg : range, rg.1.2 < start_row + 1) (merged_cells ws2)) as Hm2.
  { unfold ws2, ws1. cbn [merged_cells]. apply Forall_app. split.
    - eapply Forall_impl; [exact Hm|]. intros rg Hrg. simpl in *. lia.
    - apply Forall_singleton. simpl. lia. }
  destruct (write_row_spec header_cell (start_row + 1) (columns df) 1 ws2 Hm2)
    as (ws3 & Hok3 & Hm3 & Hcells3 & Hframe3).
  rewrite Hok3. cbn [mbind result_bind].
  destruct (write_rows_spec (values df) (start_row + 1 + 1) ws3)
    as (ws4 & Hok4 & Hm4 & Hcells4 & Hframe4).
  { rewrite Hm3. eapply Forall_impl; [exact Hm2|]. intros rg Hrg. simpl in *. lia. }
  exists ws4. split_and!.
  - done.
  - by rewrite Hm4, Hm3.
  - rewrite Hframe4 by (left; simpl; lia). rewrite Hframe3 by (left; simpl; lia).
    unfold ws2. cbn [cells]. rewrite lookup_merged by (intros [_ Hne]; done).
    unfold ws1. cbn [cells]. by rewrite lookup_insert_eq.
  - intros j c Hc. rewrite Hframe4 by (left; simpl; lia).
    destruct (Hcells3 j c Hc) as [c0 ->]. done.
  - intros i row j v Hrow Hv. destruct (Hcells4 i row j v Hrow Hv) as [c0 Hc0].
    replace (start_row + 2 + i) with (start_row + 1 + 1 + i) by lia.
    by rewrite Hc0.
  - intros pos Hpos. rewrite Hframe4 by (destruct Hpos; [left|right]; lia).
    rewrite Hframe3 by (left; destruct Hpos; lia).
    unfold ws2. cbn [cells]. rewrite lookup_merged.
    2: { intros [Hin _]. unfold in_range in Hin. simpl in Hin. lia. }
    unfold ws1. cbn [cells]. apply lookup_insert_ne.
    destruct pos as [r c]. intros [= <- <-]. simpl in Hpos. lia.
Qed.

(** The loop over the tables, from a cursor below all merged ranges. *)
Lemma write_tables_spec (pairs : list (DataFrame * string)) (current_row : nat)
    (ws : Worksheet) :
  Forall (λ rg : range, rg.1.2 < current_row) (merged_cells ws) →
  Forall (λ p : DataFrame * string, columns p.1 ≠ []) pairs →
  ∃ ws' n, write_tables pairs current_row ws = Ok (ws', n)
    ∧ length (merged_cells ws') = length (merged_cells ws) + length pairs
    ∧ (∀ k, k < length (merged_cells ws) → merged_cells ws' !! k = merged_cells ws !! k)
    ∧ (∀ pos, pos.1 < current_row → cells ws' !! pos = cells ws !! pos)
    ∧ ∀ pre df comment post, pairs = pre ++ (df, comment) :: post →
        let title_row :=
          current_row
          + sum_list ((λ p : DataFrame * string, length (values p.1) + 2 + 2) <$> pre) in
        merged_cells ws' !! (length (merged_cells ws) + length pre)
        = Some (title_row, 1, title_row, length (columns df))
        ∧ value <$> cells ws' !! (title_row, 1) = Some (CStr comment)
        ∧ (∀ j c, columns df !! j = Some c →
             value <$> cells ws' !! (title_row + 1, 1 + j) = Some (CStr c))
        ∧ (∀ i row j v, values df !! i = Some row → row !! j = Some v →
             value <$> cells ws' !! (title_row + 2 + i, 1 + j) = Some v).
Proof.
  revert current_row ws. induction pairs as [|[df0 c0] pairs IH];
    intros current_row ws Hm Hcols.
  - exists ws, current_row. split_and!; [done|simpl; lia|done|done|].
    intros [|? ?] ? ? ? Hnil; discriminate.
  - apply Forall_cons in Hcols as [Hcol0 Hcols]. cbn [write_tables].
    destruct (add_styling_spec ws df0 current_row c0 Hm Hcol0)
      as (ws1 & Hok1 & Hm1 & Htitle1 & Hhead1 & Hdata1 & Hframe1).
    rewrite Hok1. cbn [mbind result_bind].
    destruct (IH (current_row + (length (values df0) + 2) + 2) ws1)
      as (ws' & n & Hok & Hlen & Hkeep & Hframe & Htables); [|done|].
    { rewrite Hm1. apply Forall_app. split.
      - eapply Forall_impl; [exact Hm|]. intros rg Hrg. simpl in *. lia.
      - apply Forall_singleton. simpl. lia. }
    rewrite Hm1, length_app in Hlen, Hkeep, Htables. cbn [length] in Hlen, Hkeep, Htables.
    exists ws', n. split_and!.
    + done.
    + simpl. lia.
    + intros k Hk. rewrite Hkeep by lia. by rewrite lookup_app_l.
    + intros pos Hpos. rewrite Hframe by lia. apply Hframe1. left. lia.
    + intros [|p pre] df comment post Hpairs.
      * cbn [app] in Hpairs. simplify_eq. cbn [fmap list_fmap sum_list_with length].
        rewrite !Nat.add_0_r. split_and!.
        -- rewrite Hkeep by lia. by rewrite list_lookup_middle.
        -- rewrite Hframe by (simpl; lia). done.
        -- intros j c Hc. rewrite Hframe by (simpl; lia). by apply Hhead1.
        -- intros i row j v Hrow Hv. apply lookup_lt_Some in Hrow as Hi.
           rewrite Hframe by (simpl; lia). by apply (Hdata1 i row j v).
      * rewrite <-app_comm_cons in Hpairs. simplify_eq.
        destruct (Htables pre df comment post eq_refl) as (H1 & H2 & H3 & H4).
        rewrite fmap_cons. cbn [sum_list_with length fst].
        replace (current_row + (length (values df0) + 2 + 2
                                + sum_list ((λ p : DataFrame * string,
                                               length (values p.1) + 2 + 2) <$> pre)))
          with (current_row + (length (values df0) + 2) + 2
                + sum_list ((λ p : DataFrame * string,
                               length (values p.1) + 2 + 2) <$> pre)) by lia.
        replace (length (merged_cells ws) + S (length pre))
          with (length (merged_cells ws) + 1 + length pre) by lia.
        done.
Qed.





End WorkbookFacts.

(** ** Counting rows by key *)

Module CountFacts.
Import Report FrameFacts.

Lemma sum_Z_cons (x : Z) (l : list Z) : sum_Z (x :: l) = x + sum_Z l.
Proof. done. Qed.

Lemma sum_Z_Permutation (l k : list Z) : l ≡ₚ k → sum_Z l = sum_Z k.
Proof. induction 1; rewrite ?sum_Z_cons; [done|lia|lia|congruence]. Qed.

Lemma sum_Z_zero {A} (l : list A) : sum_Z ((λ _, 0) <$> l) = 0.
Proof. induction l as [|x l IH]; [done|]. rewrite fmap_cons, sum_Z_cons. lia. Qed.

(** A key of a list without duplicates is met once. *)
Lemma sum_indicator {B} `{EqDecision B} (y : B) (g : B → Z) (bs : list B) :
  NoDup bs →
  sum_Z ((λ b, if decide (y = b) then 1 + g b else g b) <$> bs)
  = (if decide (y ∈ bs) then 1 else 0) + sum_Z (g <$> bs).
Proof.
  induction 1 as [|b bs Hb Hnd IH]; [done|].
  rewrite !fmap_cons, !sum_Z_cons, IH.
  destruct (decide (y = b)) as [->|Hne].
  - rewrite (decide_True (P := b ∈ b :: bs)) by (by left).
    rewrite decide_False by done. lia.
  - destruct (decide (y ∈ bs)) as [Hin|Hin].
    + rewrite decide_True by (by right). lia.
    + rewrite decide_False; [lia|]. by intros [?|?]%elem_of_cons.
Qed.

(** Every element of [l] is counted under its key: the counts per key add
    up to the length of [l]. *)
Lemma sum_count_keys {A B} `{EqDecision B} (f : A → B) (bs : list B) (l : list A) :
  NoDup bs → (∀ x, x ∈ l → f x ∈ bs) →
  sum_Z ((λ b, Z.of_nat (length (filter (λ x, f x = b) l))) <$> bs) = Z.of_nat (length l).
Proof.
  intros Hnd. induction l as [|x l IH]; intros Hin.
  - apply (sum_Z_zero bs).
  - rewrite (list_fmap_ext _
      (λ b, if decide (f x = b)
            then 1 + Z.of_nat (length (filter (λ x', f x' = b) l))
            else Z.of_nat (length (filter (λ x', f x' = b) l)))).
    + rewrite sum_indicator by done. rewrite decide_True by (apply Hin; by left).
      rewrite IH by (intros ??; apply Hin; by right). simpl. lia.
    + intros _ b _. rewrite filter_cons. destruct (decide (f x = b)); simpl; lia.
Qed.

(** The cells of a row of a cross-tabulation add up to the number of rows
    of the data with that row key. *)
Lemma sum_count_pairs_row {K} `{EqDecision K} (r : K) (cs : list string)
    (pairs : list (K * string)) :
  NoDup cs → (∀ p, p ∈ pairs → p.2 ∈ cs) →
  sum_Z ((λ c, count_pairs r c pairs) <$> cs)
  = Z.of_nat (length (filter (λ p, p.1 = r) pairs)).
Proof.
  intros Hnd Hin.
  rewrite <-(sum_count_keys snd cs (filter (λ p, p.1 = r) pairs) Hnd).
  - f_equal. apply list_fmap_ext. intros _ c _. unfold count_pairs.
    rewrite list_filter_filter. do 2 f_equal. apply list_filter_iff. intros p. tauto.
  - intros p [_ Hp]%list_elem_of_filter. by apply Hin.
Qed.

(** The cells of a column add up to the number of rows of the data with
    that column key. *)
Lemma sum_count_pairs_col {K} `{EqDecision K} (c : string) (rs : list K)
    (pairs : list (K * string)) :
  NoDup rs → (∀ p, p ∈ pairs → p.1 ∈ rs) →
  sum_Z ((λ r, count_pairs r c pairs) <$> rs)
  = Z.of_nat (length (filter (λ p, p.2 = c) pairs)).
Proof.
  intros Hnd Hin.
  rewrite <-(sum_count_keys fst rs (filter (λ p, p.2 = c) pairs) Hnd).
  - f_equal. apply list_fmap_ext. intros _ r _. unfold count_pairs.
    rewrite list_filter_filter. done.
  - intros p [_ Hp]%list_elem_of_filter. by apply Hin.
Qed.

Lemma count_pairs_nonneg {K} `{EqDecision K} (r : K) (c : string)
    (pairs : list (K * string)) : 0 ≤ count_pairs r c pairs.
Proof. unfold count_pairs. lia. Qed.

Lemma length_zip_fmap {A B C} (f : A → B) (g : A → C) (l : list A) :
  length (zip (f <$> l) (g <$> l)) = length l.
Proof. by rewrite length_zip_with, !length_fmap, Nat.min_id. Qed.

Lemma zip_fmap_pair {A B C} (f : A → B) (g : A → C) (l : list A) :
  zip (f <$> l) (g <$> l) = (λ x, (f x, g x)) <$> l.
Proof. induction l as [|x l IH]; [done|]. csimpl. by rewrite IH. Qed.

(** Rows of the data with a key, counted on the pairs or on the rows. *)
Lemma length_filter_pairs_1 {A B C} `{EqDecision B} (f : A → B) (g : A → C)
    (l : list A) (b : B) :
  length (filter (λ p : B * C, p.1 = b) (zip (f <$> l) (g <$> l)))
  = length (filter (λ x, f x = b) l).
Proof.
  rewrite zip_fmap_pair. induction l as [|x l IH]; [done|].
  rewrite fmap_cons, !filter_cons. cbn [fst].
  destruct (decide (f x = b)); simpl; by rewrite IH.
Qed.

Lemma length_filter_pairs_2 {A B C} `{EqDecision C} (f : A → B) (g : A → C)
    (l : list A) (c : C) :
  length (filter (λ p : B * C, p.2 = c) (zip (f <$> l) (g <$> l)))
  = length (filter (λ x, g x = c) l).
Proof.
  rewrite zip_fmap_pair. induction l as [|x l IH]; [done|].
  rewrite fmap_cons, !filter_cons. cbn [snd].
  destruct (decide (g x = c)); simpl; by rewrite IH.
Qed.

(** A cell of a cross-tabulation of two columns of a table counts the rows
    of the table with that pair of values. *)
Lemma count_pairs_rows {A K} `{EqDecision K} (f : A → K) (g : A → string)
    (l : list A) (k : K) (c : string) :
  count_pairs k c (zip (f <$> l) (g <$> l))
  = Z.of_nat (length (filter (λ x, f x = k ∧ g x = c) l)).
Proof.
  unfold count_pairs. rewrite zip_fmap_pair. f_equal.
  induction l as [|x l IH]; [done|].
  rewrite fmap_cons, !filter_cons. cbn [fst snd].
  destruct (decide (f x = k ∧ g x = c)); simpl; by rewrite IH.
Qed.

(** The counts of a table by a key column and the entity column. *)
Section by_key.
Context {K : Type} `{EqDecision K} (R : relation K) `{RelDecision K K R}.
Context (key : Row → K) (df : list Row).

Local Abbreviation ents := (merge_sort String.le (remove_dups (Entity <$> df))).
Local Abbreviation keys := (merge_sort R (remove_dups (key <$> df))).
Local Abbreviation pairs := (zip (key <$> df) (Entity <$> df)).
Local Abbreviation n_key k := (Z.of_nat (length (filter (λ x, key x = k) df))).
Local Abbreviation n_ent c := (Z.of_nat (length (filter (λ x, Entity x = c) df))).
Local Abbreviation n_pair k c :=
  (Z.of_nat (length (filter (λ x, key x = k ∧ Entity x = c) df))).

Lemma sum_n_pair (k : K) : sum_Z ((λ c, n_pair k c) <$> ents) = n_key k.
Proof.
  rewrite <-(length_filter_pairs_1 key Entity df k).
  rewrite <-(sum_count_pairs_row k ents pairs).
  - f_equal. apply list_fmap_ext. intros _ c _. symmetry. apply count_pairs_rows.
  - apply NoDup_sorted_keys.
  - intros p Hp. apply elem_of_sorted_keys. rewrite <-(zip_fmap_snd key Entity df).
    by apply list_elem_of_fmap_2.
Qed.

Lemma sum_n_pair_col (c : string) : sum_Z ((λ k, n_pair k c) <$> keys) = n_ent c.
Proof.
  rewrite <-(length_filter_pairs_2 key Entity df c).
  rewrite <-(sum_count_pairs_col c keys pairs).
  - f_equal. apply list_fmap_ext. intros _ k _. symmetry. apply count_pairs_rows.
  - apply NoDup_sorted_keys.
  - intros p Hp. apply elem_of_sorted_keys. rewrite <-(zip_fmap_fst key Entity df).
    by apply list_elem_of_fmap_2.
Qed.

Lemma sum_n_key : sum_Z ((λ k, n_key k) <$> keys) = Z.of_nat (length df).
Proof.
  apply (sum_count_keys key keys df); [apply NoDup_sorted_keys|].
  intros x Hx. apply elem_of_sorted_keys. by apply list_elem_of_fmap_2.
Qed.

Lemma sum_n_ent : sum_Z ((λ c, n_ent c) <$> ents) = Z.of_nat (length df).
Proof.
  apply (sum_count_keys Entity ents df); [apply NoDup_sorted_keys|].
  intros x Hx. apply elem_of_sorted_keys. by apply list_elem_of_fmap_2.
Qed.

End by_key.

(** [x ∉ l] for a closed list [l] that computes. *)
Ltac not_in_list :=
  let H := fresh in
  intros H; vm_compute in H;
  repeat (apply elem_of_cons in H as [H|H]; [discriminate H|]);
  by apply elem_of_nil in H.

End CountFacts.

(** ** Entity names from file names (lines 142-143) *)

Module EntityNameFacts.
Import Py PyFacts Merge.

Local Abbreviation chars := list_ascii_of_string.

Lemma app_eq_empty (a b : string) : a +:+ b = "" → a = "" ∧ b = "".
Proof. destruct a; [by rewrite app_nil|by rewrite app_cons]. Qed.

Lemma split_head_prefix (sep s : string) : ∃ rest, s = split_head sep s +:+ rest.
Proof.
  destruct (split_head_decompose sep s) as [[H _]|[r Hr]].
  - exists "". by rewrite H, app_empty_r.
  - by exists (sep +:+ r).
Qed.

(** The part before the first separator holds no separator. *)
Lemma split_head_no_sep (sep s p r : string) :
  sep ≠ "" → split_head sep s ≠ p +:+ sep +:+ r.
Proof.
  intros Hsep. revert p. induction s as [|c s IH]; intros p; cbn [split_head].
  - intros Heq. symmetry in Heq. apply app_eq_empty in Heq as [_ Heq].
    by apply app_eq_empty in Heq as [? _].
  - destruct (String.prefix sep (String c s)) eqn:E.
    + intros Heq. symmetry in Heq. apply app_eq_empty in Heq as [_ Heq].
      by apply app_eq_empty in Heq as [? _].
    + destruct p as [|c' p].
      * rewrite app_nil. intros Heq.
        destruct (split_head_prefix sep s) as [rest Hrest].
        assert (String.prefix sep (String c s) = true) as Ht; [|congruence].
        rewrite Hrest, <-app_cons, Heq, app_assoc. apply prefix_app.
      * rewrite app_cons. intros [= <- Heq]. by apply IH in Heq.
Qed.

Lemma app_prefix_split (a b c d : string) :
  a +:+ b = c +:+ d → (String.length c ≤ String.length a)%nat → ∃ a', a = c +:+ a'.
Proof.
  revert a. induction c as [|x c IH]; intros a Heq Hlen.
  - exists a. by rewrite app_nil.
  - destruct a as [|y a]; [simpl in Hlen; lia|].
    rewrite !app_cons in Heq. injection Heq as -> Heq.
    destruct (IH a Heq) as [a' ->]; [simpl in Hlen; lia|].
    exists a'. by rewrite app_cons.
Qed.

Lemma app_before_char (a b k1 k2 : string) (x : ascii) :
  a +:+ String x b = k1 +:+ k2 → x ∉ chars k1 → ∃ k2', a = k1 +:+ k2'.
Proof.
  revert a. induction k1 as [|y k1 IH]; intros a Heq Hx.
  - exists a. by rewrite app_nil.
  - simpl in Hx. apply not_elem_of_cons in Hx as [Hxy Hx].
    destruct a as [|z a]; rewrite ?app_nil, !app_cons in Heq.
    + by injection Heq as -> _.
    + injection Heq as -> Heq. destruct (IH a Heq Hx) as [k2' ->].
      exists k2'. by rewrite app_cons.
Qed.

(** The stem that [splitext] returns keeps a prefix of the path that has no
    dot, or after which there is a dot. *)
Lemma splitext_stem_prefix (k rest : string) :
  "."%char ∉ chars k ∨ "."%char ∈ chars rest →
  ∃ rest', (splitext (k +:+ rest)).1 = k +:+ rest'.
Proof.
  intros Hdot. remember (k +:+ rest) as p eqn:Hp.
  unfold splitext. destruct (_ && _) eqn:E; cbn [fst]; [|by exists rest].
  apply andb_true_iff in E as [E _]. apply Z.ltb_lt in E.
  pose proof (rfind_ge "/" p).
  destruct (rfind_split "." p) as [[Hr _]|(a & b & Hab & Hr & _)]; [lia|].
  rewrite Hr, Nat2Z.id. rewrite Hab, substring_prefix.
  rewrite Hab in Hp. destruct Hdot as [Hno|Hin].
  - by apply (app_before_char a b k rest ".").
  - apply (app_prefix_split a (String "." b) k rest Hp).
    destruct (rfind_app_in "." k rest Hin) as [Hs H0].
    rewrite <-Hp, <-Hab, Hr in Hs. lia.
Qed.

(** [s.split(" - ")[0]] of a string that starts with [e] and the separator
    is [e], when the separator does not begin inside [e]. *)
Lemma split_head_entity (e rest : string) :
  split_head " - " (e +:+ " -") = e +:+ " -" →
  split_head " - " (e +:+ " - " +:+ rest) = e.
Proof.
  intros Hsplit.
  assert (∀ p r, e +:+ " -" ≠ p +:+ " - " +:+ r) as H.
  { intros p r Heq. rewrite <-Hsplit in Heq. by apply split_head_no_sep in Heq. }
  clear Hsplit. induction e as [|c e IH].
  { rewrite app_nil. change (" - " +:+ rest) with (String " " ("- " +:+ rest)).
    cbn [split_head]. change (String " " ("- " +:+ rest)) with (" - " +:+ rest).
    by rewrite prefix_app. }
  rewrite app_cons. cbn [split_head].
  destruct (String.prefix " - " (String c (e +:+ " - " +:+ rest))) eqn:E.
  - exfalso. apply prefix_inv in E as [r0 Hr0]. rewrite <-app_cons in Hr0.
    destruct (app_prefix_split (String c e +:+ " -") (" " +:+ rest) " - " r0) as [a' Ha].
    + by rewrite app_assoc.
    + rewrite length_app. simpl. lia.
    + apply (H "" a'). by rewrite app_nil.
  - f_equal. apply IH. intros p r Hp. apply (H (String c p) r).
    rewrite !app_cons. by f_equal.
Qed.

(** X1.  The entity tag of a file is a prefix of the file name and never
    holds the separator " - ": it is the stem of the name cut before the
    first " - ". *)
Theorem entity_name_no_separator (name : string) :
  (∃ rest, name = entity_name name +:+ rest)
  ∧ ∀ p r, entity_name name ≠ p +:+ " - " +:+ r.
Proof.
  unfold entity_name. split.
  - destruct (split_head_prefix " - " (splitext name).1) as [rest Hrest].
    exists (rest +:+ (splitext name).2).
    rewrite <-app_assoc, <-Hrest. symmetry. apply splitext_app.
  - intros p r. by apply split_head_no_sep.
Qed.

(** X2.  A file called [e], then " - ", then anything gets the entity tag
    [e], when " - " does not begin inside [e] (splitting [e] followed by " -"
    at " - " gives it back) and the dot of the extension comes after [e]:
    [e] has no dot, or the rest of the name has one. *)
Theorem entity_name_prefix (e rest : string) :
  split_head " - " (e +:+ " -") = e +:+ " -" →
  "."%char ∉ chars e ∨ "."%char ∈ chars rest →
  entity_name (e +:+ " - " +:+ rest) = e.
Proof.
  intros Hsplit Hdot. unfold entity_name. rewrite <-app_assoc.
  destruct (splitext_stem_prefix (e +:+ " - ") rest) as [rest' ->].
  - destruct Hdot as [Hno|Hin]; [left|by right].
    rewrite chars_app. intros [?|Hin]%elem_of_app; [done|].
    simpl in Hin. by repeat (apply elem_of_cons in Hin as [?|Hin]; [done|]);
      apply elem_of_nil in Hin.
  - cbn [fst]. rewrite app_assoc. by apply split_head_entity.
Qed.

(** The theorem on a name whose entity holds a blank and a dot. *)
Lemma entity_name_prefix_witness :
  entity_name ("Dr. Reddy - April 2024.xlsx") = "Dr. Reddy".
Proof.
  apply (entity_name_prefix "Dr. Reddy" "April 2024.xlsx").
  - reflexivity.
  - right. simpl. rewrite !elem_of_cons. tauto.
Defined.

End EntityNameFacts.

(** ** The merged table (lines 140-149) *)

Module MergeColumnFacts.
Import Merge.


Lemma load_eq (f : UploadedFile) :
  load f = match uf_sheet f with
           | Some d => Ok (set_Entity (entity_name (uf_name f)) d)
           | None => Raise ParseError
           end.
Proof. unfold load, read_excel. by destruct (uf_sheet f). Qed.


(** X3.  One upload that cannot be parsed ends the merge with the parser's
    exception: no table is made of the other uploads. *)
Theorem combined_df_ParseError (uploaded_files : list UploadedFile) :
  (∃ f, f ∈ uploaded_files ∧ uf_sheet f = None) →
  combined_df uploaded_files = Raise ParseError.
Proof.
  intros (f & Hin & Hf). unfold combined_df.
  enough (mapM_result load uploaded_files = Raise ParseError) as -> by done.
  induction uploaded_files as [|g files IH]; [by apply elem_of_nil in Hin|].
  cbn [mapM_result]. rewrite load_eq.
  destruct (uf_sheet g) as [d|] eqn:Hg; [|done]. cbn [mbind result_bind].
  rewrite IH; [done|]. apply elem_of_cons in Hin as [->|Hin]; [congruence|done].
Qed.

(** The theorem on two uploads, the second unreadable. *)
Lemma combined_df_ParseError_witness :
  combined_df [Inputs.file_A; Inputs.file_bad] = Raise ParseError.
Proof.
  apply combined_df_ParseError. exists Inputs.file_bad. split; [|reflexivity].
  apply elem_of_cons. right. apply elem_of_cons. by left.
Defined.



End MergeColumnFacts.

(** ** The exploded table (lines 187-189) *)

Module ExplodeFacts.
Import Report JournalistFacts.

Local Abbreviation chars := list_ascii_of_string.

Lemma split_char_none (c : ascii) (s : string) :
  c ∉ chars s → Py.split_char c s = [s].
Proof.
  induction s as [|a s IH]; [done|]. cbn [Py.split_char list_ascii_of_string].
  intros [Hne Hs]%not_elem_of_cons.
  destruct (Ascii.eqb a c) eqn:E; [apply Ascii.eqb_eq in E; congruence|].
  by rewrite IH.
Qed.

(** One piece more than there are separators. *)
Lemma split_char_length (c : ascii) (s : string) :
  length (Py.split_char c s) = S (length (filter (λ a, a = c) (chars s))).
Proof.
  induction s as [|a s IH]; [done|]. cbn [Py.split_char list_ascii_of_string].
  rewrite filter_cons. pose proof (split_char_not_nil c s) as Hne.
  destruct (Ascii.eqb a c) eqn:E.
  - apply Ascii.eqb_eq in E as ->. rewrite decide_True by done. simpl. by rewrite IH.
  - apply Ascii.eqb_neq in E. rewrite decide_False by done.
    destruct (Py.split_char c s); [done|]. simpl in *. done.
Qed.

Lemma with_Journalist_id (r : Row) : with_Journalist (Journalist r) r = r.
Proof. by destruct r. Qed.

Lemma df1_cons (r : Row) (df : list Row) :
  df1 (r :: df)
  = ((λ j, with_Journalist j r) <$> Py.split_char "," (Journalist r)) ++ df1 df.
Proof. done. Qed.

(** X5.  A table in which no journalist field holds a comma is not changed
    by the split and explode of lines 187-189. *)
Theorem df1_no_comma (df : list Row) :
  (∀ r, r ∈ df → ","%char ∉ chars (Journalist r)) → df1 df = df.
Proof.
  induction df as [|r df IH]; intros H; [done|].
  rewrite df1_cons, split_char_none by (apply H; by left).
  rewrite IH by (intros; apply H; by right).
  rewrite list_fmap_singleton. by rewrite with_Journalist_id.
Qed.

(** The theorem on a table of three articles with one author each. *)
Lemma df1_no_comma_witness : df1 Inputs.sov_rows = Inputs.sov_rows.
Proof.
  apply df1_no_comma. intros r Hr. unfold Inputs.sov_rows in Hr.
  repeat (apply elem_of_cons in Hr as [->|Hr];
          [simpl; rewrite !elem_of_cons, elem_of_nil; intuition discriminate|]).
  by apply elem_of_nil in Hr.
Defined.

(** X6.  In the exploded table every row of the table is replaced, in
    place, by a block of one row per name of its journalist field: the block
    is not empty, its names joined by commas are the field as it was (nothing
    is trimmed or dropped), no name holds a comma, and every other column of
    the block's rows is copied from the row. *)
Theorem df1_blocks (before after : list Row) (r : Row) :
  df1 (before ++ r :: after) = df1 before ++ df1 [r] ++ df1 after
  ∧ (df1 [r] ≠ [])
  ∧ String.concat "," (Journalist <$> df1 [r]) = Journalist r
  ∧ Forall (λ r', (","%char ∉ chars (Journalist r'))
                  ∧ with_Journalist (Journalist r) r' = r) (df1 [r]).
Proof.
  assert (df1 [r] = (λ j, with_Journalist j r) <$> Py.split_char "," (Journalist r)) as Hr.
  { rewrite df1_cons. apply app_nil_r. }
  split_and!.
  - rewrite Hr. unfold df1. by rewrite bind_app, bind_cons.
  - rewrite Hr. intros Hnil%fmap_nil_inv. by apply split_char_not_nil in Hnil.
  - rewrite Hr, <-list_fmap_compose.
    rewrite (list_fmap_ext _ id (Py.split_char "," (Journalist r))) by done.
    rewrite list_fmap_id. apply split_char_concat.
  - rewrite Hr. apply Forall_fmap, Forall_forall. intros j Hj. cbn [compose].
    split; [by apply split_char_no_sep in Hj|]. by destruct r.
Qed.

(** X7.  The exploded table has one row per article and one more for every
    comma of a journalist field. *)
Theorem df1_length (df : list Row) :
  length (df1 df)
  = (length df
     + sum_list ((λ r, length (filter (λ a, a = ","%char) (chars (Journalist r)))) <$> df))%nat.
Proof.
  induction df as [|r df IH]; [done|].
  rewrite df1_cons, length_app, length_fmap, split_char_length, IH. csimpl. lia.
Qed.

End ExplodeFacts.

(** ** Publication and publication type tables (lines 182-186, 210-214) *)

Module TotalsFacts.
Import Report FrameFacts CountFacts JournalistFacts.

Lemma at_column_last (c : string) (cs : list string) (vs : list Z) (v : Z) :
  c ∉ cs → length cs = length vs → at_column c (cs ++ [c]) (vs ++ [v]) = Some v.
Proof.
  revert vs. induction cs as [|c' cs IH]; intros [|v' vs] Hc Hlen; try done.
  - simpl. by rewrite decide_True.
  - apply not_elem_of_cons in Hc as [Hne Hc]. simpl. rewrite decide_False by done.
    apply IH; [done|]. simpl in Hlen. lia.
Qed.

Lemma StronglySorted_impl_elem {A} (R R' : relation A) (l : list A) :
  (∀ x y, x ∈ l → y ∈ l → R x y → R' x y) → StronglySorted R l → StronglySorted R' l.
Proof.
  intros H Hs. induction Hs as [|x l Hs IH Hx]; [constructor|]. constructor.
  - apply IH. intros ?? ? ?. apply H; by right.
  - apply Forall_forall. intros y Hy. apply H; [by left|by right|].
    eapply Forall_forall in Hx; done.
Qed.

Section totals.
Context (name : string) (key : Row → string) (df : list Row).

Local Abbreviation ents := (merge_sort String.le (remove_dups (Entity <$> df))).
Local Abbreviation keys := (merge_sort String.le (remove_dups (key <$> df))).
Local Abbreviation pairs := (zip (key <$> df) (Entity <$> df)).
Local Abbreviation n_key k := (Z.of_nat (length (filter (λ x, key x = k) df))).
Local Abbreviation n_ent c := (Z.of_nat (length (filter (λ x, Entity x = c) df))).
Local Abbreviation n_pair k c :=
  (Z.of_nat (length (filter (λ x, key x = k ∧ Entity x = c) df))).
Local Abbreviation counted :=
  ((λ k, (k, ((λ c, n_pair k c) <$> ents) ++ [n_key k])) <$> keys).

(** The cross-tabulation with its [Total] column (lines 182-183). *)
Lemma crosstab_with_Total :
  "Total" ∉ Entity <$> df →
  set_column "Total" (λ r, sum_Z r.2) (crosstab String.le name (key <$> df) (Entity <$> df))
  = {| index_name := name; columns := ents ++ ["Total"]; rows := counted |}.
Proof.
  intros HT. unfold set_column.
  rewrite crosstab_columns, crosstab_rows, zip_fmap_fst, zip_fmap_snd.
  destruct (decide ("Total" ∈ ents)) as [Hin|_].
  { by apply elem_of_sorted_keys in Hin. }
  f_equal. rewrite <-list_fmap_compose. apply list_fmap_ext. intros _ k _.
  cbn [compose fst snd].
  assert ((λ c, count_pairs k c pairs) <$> ents = (λ c, n_pair k c) <$> ents) as ->.
  { apply list_fmap_ext. intros _ c _. apply count_pairs_rows. }
  by rewrite (sum_n_pair key df k).
Qed.

(** The column sums of the counted rows in any order (line 185). *)
Lemma column_sums_counted (data : list (string * list Z)) :
  data ≡ₚ counted →
  column_sums {| index_name := name; columns := ents ++ ["Total"]; rows := data |}
  = ((λ c, n_ent c) <$> ents) ++ [Z.of_nat (length df)].
Proof.
  intros Hperm. unfold column_sums. cbn [columns rows]. rewrite imap_app. f_equal.
  - rewrite <-(imap_const (λ c, n_ent c) ents). apply imap_ext. intros i c Hi. unfold const.
    rewrite (sum_Z_Permutation _ ((λ r, default 0 (r.2 !! i)) <$> counted))
      by (by apply fmap_Permutation).
    rewrite <-list_fmap_compose, <-(sum_n_pair_col String.le key df c). f_equal.
    apply list_fmap_ext. intros _ k _. cbn [compose snd].
    rewrite lookup_app_l by (rewrite length_fmap; by eapply lookup_lt_Some).
    by rewrite list_lookup_fmap, Hi.
  - cbn [imap]. f_equal. rewrite Nat.add_0_r.
    rewrite (sum_Z_Permutation _ ((λ r, default 0 (r.2 !! length ents)) <$> counted))
      by (by apply fmap_Permutation).
    rewrite <-list_fmap_compose, <-(sum_n_key String.le key df). f_equal.
    apply list_fmap_ext. intros _ k _. cbn [compose snd].
    rewrite lookup_app_r by (by rewrite length_fmap).
    by rewrite length_fmap, Nat.sub_diag.
Qed.

Lemma totals_table_Ok :
  name ≠ "Total" →
  name ∉ Entity <$> df →
  "Total" ∉ Entity <$> df →
  "GrandTotal" ∉ key <$> df →
  ∃ data,
    totals_table name key df
    = Ok {| index_name := name; columns := ents ++ ["Total"];
            rows := data ++ [("GrandTotal",
                              ((λ c, n_ent c) <$> ents) ++ [Z.of_nat (length df)])] |}
    ∧ data ≡ₚ counted
    ∧ StronglySorted (by_desc (λ r, n_key r.1)) data.
Proof.
  intros Hname HnE HT HG. unfold totals_table. cbv zeta.
  rewrite crosstab_with_Total by done.
  unfold sort_by_column. cbn [columns rows index_name].
  rewrite decide_True by (apply elem_of_app; right; by left).
  cbn [mbind result_bind columns rows index_name].
  set (data := sort_desc _ counted).
  assert (data ≡ₚ counted) as Hperm by apply merge_sort_Permutation.
  rewrite column_sums_counted by done.
  unfold set_row. rewrite decide_False; cycle 1.
  { rewrite Hperm, <-list_fmap_compose. cbn [compose fst].
    rewrite list_fmap_id, elem_of_sorted_keys. done. }
  unfold to_records. cbn [columns index_name]. rewrite decide_False; cycle 1.
  { rewrite elem_of_app, elem_of_sorted_keys, list_elem_of_singleton. tauto. }
  exists data. split_and!; [done|done|].
  apply (StronglySorted_impl_elem
           (by_desc (λ r, default 0 (at_column "Total" (ents ++ ["Total"]) r.2)))).
  - assert (∀ x, x ∈ data →
                 default 0 (at_column "Total" (ents ++ ["Total"]) x.2) = n_key x.1) as Hkey.
    { intros x Hx. rewrite Hperm in Hx. apply list_elem_of_fmap in Hx as (k & -> & _).
      cbn [fst snd]. rewrite at_column_last; [done| |by rewrite length_fmap].
      by rewrite elem_of_sorted_keys. }
    intros x y Hx Hy. unfold by_desc. by rewrite !Hkey.
  - apply StronglySorted_merge_sort; apply _.
Qed.

End totals.

(** X8.  The publication table (and in the same way the publication type
    table), when no entity is called "Total" or like the key column and no
    key is "GrandTotal": one row per publication with the number of articles
    per entity and, under Total, the number of articles of the publication;
    the rows are in descending order of that number; the last row,
    GrandTotal, holds the number of articles of each entity and, under
    Total, the number of rows of the table. *)
Theorem totals_table_totals (name : string) (key : Row → string) (df : list Row) :
  name ≠ "Total" →
  name ∉ Entity <$> df →
  "Total" ∉ Entity <$> df →
  "GrandTotal" ∉ key <$> df →
  let ents := merge_sort String.le (remove_dups (Entity <$> df)) in
  let keys := merge_sort String.le (remove_dups (key <$> df)) in
  let n_key k := Z.of_nat (length (filter (λ x, key x = k) df)) in
  let n_ent c := Z.of_nat (length (filter (λ x, Entity x = c) df)) in
  let n_pair k c := Z.of_nat (length (filter (λ x, key x = k ∧ Entity x = c) df)) in
  ∃ data,
    totals_table name key df
    = Ok {| index_name := name; columns := ents ++ ["Total"];
            rows := data ++ [("GrandTotal", (n_ent <$> ents) ++ [Z.of_nat (length df)])] |}
    ∧ data ≡ₚ (λ k, (k, (n_pair k <$> ents) ++ [n_key k])) <$> keys
    ∧ StronglySorted (by_desc (λ r, n_key r.1)) data
    ∧ (∀ k, sum_Z (n_pair k <$> ents) = n_key k)
    ∧ sum_Z (n_ent <$> ents) = Z.of_nat (length df).
Proof.
  intros Hname HnE HT HG. cbv beta zeta.
  destruct (totals_table_Ok name key df Hname HnE HT HG) as (data & Hok & Hperm & Hsort).
  exists data. split_and!; [done|done|done| |].
  - intros k. apply (sum_n_pair key df k).
  - apply (sum_n_ent df).
Qed.

(** The theorem for the publication table of three articles: P1 with two
    articles comes before P2 with one. *)
Lemma totals_table_totals_witness :
  ∃ data,
    Publication Inputs.sov_rows
    = Ok {| index_name := "Publication Name"; columns := ["A"; "B"; "Total"];
            rows := data ++ [("GrandTotal", [2; 1; 3])] |}
    ∧ data ≡ₚ [("P1", [1; 1; 2]); ("P2", [1; 0; 1])].
Proof.
  destruct (totals_table_totals "Publication Name" Publication_Name Inputs.sov_rows)
    as (data & Hok & Hperm & _).
  - done.
  - not_in_list.
  - not_in_list.
  - not_in_list.
  - exists data. split; [exact Hok|exact Hperm].
Defined.

End TotalsFacts.

(** ** Month on month table (lines 180-181) *)

Module MonthFacts.
Import Report FrameFacts CountFacts.

Global Instance plabel_le_trans : Transitive plabel_le.
Proof.
  intros [y1 m1|s1] [y2 m2|s2] [y3 m3|s3]; simpl; try done; try lia.
  intros ??. by etrans.
Qed.

Global Instance plabel_le_total : Total plabel_le.
Proof.
  intros [y1 m1|s1] [y2 m2|s2]; simpl; try lia; try tauto.
  apply (total String.le).
Qed.

Lemma length_filter_pos {A} (P : A → Prop) `{∀ x, Decision (P x)} (l : list A) (x : A) :
  x ∈ l → P x → 0 < Z.of_nat (length (filter P l)).
Proof.
  intros Hx HP. assert (x ∈ filter P l) as Hin by (by apply list_elem_of_filter).
  destruct (filter P l); [by apply elem_of_nil in Hin|]. simpl. lia.
Qed.

(** The month table as lines 180-181 make it. *)
Lemma sov_dt_eq (df : list Row) :
  df ≠ [] →
  "Total" ∉ Entity <$> df →
  let period x := to_period_M (Date x) in
  let ents := merge_sort String.le (remove_dups (Entity <$> df)) in
  let months := merge_sort plabel_le (remove_dups (period <$> df)) in
  let n_month m := Z.of_nat (length (filter (λ x, period x = m) df)) in
  let n_ent c := Z.of_nat (length (filter (λ x, Entity x = c) df)) in
  let n_pair m c := Z.of_nat (length (filter (λ x, period x = m ∧ Entity x = c) df)) in
  sov_dt df
  = Ok {| index_name := "Date"; columns := ents ++ ["Total"];
          rows := ((λ m, (m, (n_pair m <$> ents) ++ [n_month m])) <$> months)
                  ++ [(PName "Total", (n_ent <$> ents) ++ [Z.of_nat (length df)])] |}.
Proof.
  intros Hne HT. cbv beta zeta.
  set (period := λ x, to_period_M (Date x)).
  unfold sov_dt, crosstab_margins. fold period.
  rewrite crosstab_keys, crosstab_columns, crosstab_rows, zip_fmap_fst, zip_fmap_snd.
  rewrite decide_False; cycle 1.
  { rewrite elem_of_sorted_keys. by intros (x & ? & _)%list_elem_of_fmap. }
  rewrite decide_False by (by rewrite elem_of_sorted_keys).
  destruct (merge_sort String.le (remove_dups (Entity <$> df))) as [|e es] eqn:He.
  { apply sorted_keys_nil, fmap_nil_inv in He. done. }
  rewrite <-He. cbn [index_name]. f_equal. f_equal. f_equal.
  - rewrite <-list_fmap_compose. apply list_fmap_ext. intros _ m _.
    cbn [compose fst snd]. f_equal. f_equal.
    + apply list_fmap_ext. intros _ c _. apply count_pairs_rows.
    + f_equal. f_equal. apply length_filter_pairs_1.
  - f_equal. f_equal. f_equal.
    + apply list_fmap_ext. intros _ c _. f_equal. apply length_filter_pairs_2.
    + by rewrite length_zip_fmap.
Qed.

(** X9.  The month table of a table with rows and no entity called
    "Total": one row per calendar month that occurs (the day of the month
    plays no part), in chronological order, then the row Total; one column
    per entity, then the column Total.  A cell counts the articles of the
    entity in the month.  The two margins agree with the cells: the Total
    of a month is the sum of its cells, the row Total holds the number of
    articles of each entity, and both the entity totals and the month totals
    add up to the number of rows of the table, which is the corner cell. *)
Theorem sov_dt_totals (df : list Row) :
  df ≠ [] →
  "Total" ∉ Entity <$> df →
  let period x := to_period_M (Date x) in
  let ents := merge_sort String.le (remove_dups (Entity <$> df)) in
  let months := merge_sort plabel_le (remove_dups (period <$> df)) in
  let n_month m := Z.of_nat (length (filter (λ x, period x = m) df)) in
  let n_ent c := Z.of_nat (length (filter (λ x, Entity x = c) df)) in
  let n_pair m c := Z.of_nat (length (filter (λ x, period x = m ∧ Entity x = c) df)) in
  sov_dt df
  = Ok {| index_name := "Date"; columns := ents ++ ["Total"];
          rows := ((λ m, (m, (n_pair m <$> ents) ++ [n_month m])) <$> months)
                  ++ [(PName "Total", (n_ent <$> ents) ++ [Z.of_nat (length df)])] |}
  ∧ StronglySorted plabel_le months
  ∧ NoDup months
  ∧ (∀ m, m ∈ months ↔ ∃ x, x ∈ df ∧ m = Period (year (Date x)) (month (Date x)))
  ∧ (∀ m, sum_Z (n_pair m <$> ents) = n_month m)
  ∧ sum_Z (n_ent <$> ents) = Z.of_nat (length df)
  ∧ sum_Z (n_month <$> months) = Z.of_nat (length df).
Proof.
  intros Hne HT. cbv beta zeta. split_and!.
  - apply (sov_dt_eq df Hne HT).
  - apply StronglySorted_merge_sort; apply _.
  - apply NoDup_sorted_keys.
  - intros m. rewrite elem_of_sorted_keys, list_elem_of_fmap. split.
    + intros (x & -> & Hx). by exists x.
    + intros (x & Hx & ->). by exists x.
  - intros m. apply (sum_n_pair (λ x, to_period_M (Date x)) df m).
  - apply (sum_n_ent df).
  - apply (sum_n_key plabel_le (λ x, to_period_M (Date x)) df).
Qed.

(** The theorem on three articles of one month. *)
Lemma sov_dt_totals_witness :
  sov_dt Inputs.sov_rows
  = Ok {| index_name := "Date"; columns := ["A"; "B"; "Total"];
          rows := [(Period 2024 4, [2; 1; 3]); (PName "Total", [2; 1; 3])] |}.
Proof.
  destruct (sov_dt_totals Inputs.sov_rows) as [Hok _]; [done|not_in_list|].
  rewrite Hok. by vm_compute.
Defined.

(** X10.  In the share of voice table of a table with rows and no entity
    called "Total", the count of the row Total is the number of rows of the
    table, the counts of the entity rows add up to it, and every entity row
    counts at least one article. *)
Theorem Entity_SOV_counts (df : list Row) :
  df ≠ [] →
  "Total" ∉ Entity <$> df →
  ∃ data total,
    Entity_SOV df = Ok (data ++ [total])
    ∧ sov_Entity total = "Total"
    ∧ sov_News_Count total = CInt (Z.of_nat (length df))
    ∧ sum_Z ((λ r, cell_Z (sov_News_Count r)) <$> data) = Z.of_nat (length df)
    ∧ Forall (λ r, 0 < cell_Z (sov_News_Count r)) data.
Proof.
  intros Hne HT. rewrite (SOVFacts.Entity_SOV_eq df Hne HT). cbv zeta.
  eexists _, _. split_and!; [done|done|done| |].
  - rewrite <-list_fmap_compose. apply (sum_n_ent df).
  - apply Forall_fmap, Forall_forall. intros e He. cbn [compose sov_News_Count cell_Z].
    apply elem_of_sorted_keys, list_elem_of_fmap in He as (x & -> & Hx).
    by apply (length_filter_pos _ df x).
Qed.

(** The theorem on three articles on two entities. *)
Lemma Entity_SOV_counts_witness :
  ∃ data total,
    Entity_SOV Inputs.sov_rows = Ok (data ++ [total])
    ∧ sov_News_Count total = CInt 3
    ∧ sum_Z ((λ r, cell_Z (sov_News_Count r)) <$> data) = 3.
Proof.
  destruct (Entity_SOV_counts Inputs.sov_rows)
    as (data & total & H1 & _ & H2 & H3 & _); [done|not_in_list|].
  exists data, total. split_and!; [exact H1|exact H2|exact H3].
Defined.

End MonthFacts.

(** ** Rows and totals of the journalist table (lines 190-208) *)

Module JourTableFacts.
Import Report FrameFacts CountFacts JournalistFacts.

Lemma filter_fmap_comm {A B} (P : B → Prop) `{∀ x, Decision (P x)} (f : A → B)
    (l : list A) :
  filter P (f <$> l) = f <$> filter (λ x, P (f x)) l.
Proof.
  induction l as [|x l IH]; [done|]. rewrite fmap_cons, !filter_cons.
  destruct (decide (P (f x))); by rewrite ?fmap_cons, IH.
Qed.

Lemma head_fmap {A B} (f : A → B) (l : list A) : head (f <$> l) = f <$> head l.
Proof. by destruct l. Qed.

Lemma head_filter_elem {A} (P : A → Prop) `{∀ x, Decision (P x)} (l : list A) (x : A) :
  x ∈ l → P x → ∃ y, head (filter P l) = Some y ∧ P y ∧ y ∈ l.
Proof.
  intros Hx HP. assert (x ∈ filter P l) as Hin by (by apply list_elem_of_filter).
  destruct (filter P l) as [|y k] eqn:Hf; [by apply elem_of_nil in Hin|].
  exists y. split; [done|]. apply (list_elem_of_filter P l y). rewrite Hf. by left.
Qed.

(** Rows whose key was seen are dropped. *)
Lemma drop_duplicates_seen {A} (key : A → string) (seen : list string) (a b : list A) :
  (∀ x, x ∈ a → key x ∈ seen) →
  drop_duplicates key seen (a ++ b) = drop_duplicates key seen b.
Proof.
  induction a as [|x a IH]; intros Ha; [done|].
  rewrite <-app_comm_cons. cbn [drop_duplicates].
  rewrite decide_True by (apply Ha; by left). apply IH. intros y Hy. apply Ha. by right.
Qed.

(** The merge of line 193 followed by [drop_duplicates] of line 194: every
    row of the left frame gets the first row of the right frame with its
    key; a row without a match is dropped. *)
Lemma drop_duplicates_merge (left : list (string * list Z)) (right : list (string * string))
    (seen : list string) :
  NoDup left.*1 →
  (∀ k, k ∈ left.*1 → k ∉ seen) →
  drop_duplicates (λ x : string * list Z * string, x.1.1) seen (merge_inner left right)
  = omap (λ l, (λ r : string * string, (l.1, l.2, r.2))
                 <$> head (filter (λ r, r.1 = l.1) right)) left.
Proof.
  revert seen. induction left as [|l left IH]; intros seen Hnd Hseen; [done|].
  rewrite fmap_cons in Hnd, Hseen. apply NoDup_cons in Hnd as [Hl Hnd].
  unfold merge_inner. rewrite bind_cons. fold (merge_inner left right).
  cbn [omap list_omap].
  destruct (filter (λ r : string * string, r.1 = l.1) right) as [|r rs].
  - cbn [fmap list_fmap app head option_fmap option_map]. apply IH; [done|].
    intros k Hk. apply Hseen. by right.
  - rewrite fmap_cons, <-app_comm_cons. cbn [drop_duplicates fst head fmap option_fmap option_map].
    rewrite decide_False by (apply Hseen; by left). f_equal.
    rewrite drop_duplicates_seen.
    + apply IH; [done|]. intros k Hk [->|Hin]%elem_of_cons; [done|].
      revert Hin. apply Hseen. by right.
    + intros x (r' & -> & _)%list_elem_of_fmap. by left.
Qed.

Lemma omap_all_Some {A B} (f : A → option B) (g : A → B) (l : list A) :
  (∀ x, x ∈ l → f x = Some (g x)) → omap f l = g <$> l.
Proof.
  induction l as [|x l IH]; intros Hf; [done|]. cbn [omap list_omap].
  rewrite (Hf x) by (by left). rewrite fmap_cons, IH; [done|].
  intros y Hy. apply Hf. by right.
Qed.

Section rows.
Context (df : list Row).

Local Abbreviation d1 := (df1 df).
Local Abbreviation ents := (merge_sort String.le (remove_dups (Entity <$> d1))).
Local Abbreviation js := (merge_sort String.le (remove_dups (Journalist <$> d1))).
Local Abbreviation pairs := (zip (Journalist <$> d1) (Entity <$> d1)).
Local Abbreviation counts j := ((λ c, count_pairs j c pairs) <$> ents).
Local Abbreviation first_pub j :=
  (default "" (Publication_Name <$> head (filter (λ x, Journalist x = j) d1))).

(** Lines 190-197: one entry per name of the exploded table, with the
    publication of the first exploded row of that name. *)
Lemma Journalist_Table_perm :
  (∀ n, n ∈ ["Journalist"; "Publication Name"; "Total"] → n ∉ Entity <$> df) →
  ∃ entries,
    Journalist_Table df = Ok (ents, entries)
    ∧ entries ≡ₚ (λ j, {| e_Journalist := j; e_counts := counts j;
                          e_Publication_Name := first_pub j;
                          e_Total := sum_Z (counts j) |}) <$> js.
Proof.
  intros Hres. unfold Journalist_Table.
  rewrite crosstab_columns, crosstab_rows, zip_fmap_fst, zip_fmap_snd.
  assert (∀ n, n ∈ ["Journalist"; "Publication Name"; "Total"] → n ∉ ents) as Hres'.
  { intros n Hn. rewrite elem_of_sorted_keys, Entity_df1. by apply Hres. }
  rewrite !decide_False by (apply Hres'; rewrite !elem_of_cons; tauto).
  eexists. split; [done|]. unfold sort_desc. rewrite merge_sort_Permutation.
  rewrite drop_duplicates_merge; cycle 1.
  { rewrite <-list_fmap_compose. cbn [compose fst]. rewrite list_fmap_id.
    apply NoDup_sorted_keys. }
  { intros ? _. apply not_elem_of_nil. }
  rewrite (omap_all_Some _ (λ l : string * list Z, (l.1, l.2, first_pub l.1))).
  - by rewrite <-!list_fmap_compose.
  - intros l (j & -> & Hj)%list_elem_of_fmap. cbn [fst snd].
    rewrite filter_fmap_comm, head_fmap. cbn [fst].
    apply elem_of_sorted_keys, list_elem_of_fmap in Hj as (x & -> & Hx).
    destruct (head_filter_elem (λ y, Journalist y = Journalist x) d1 x Hx eq_refl)
      as (y & -> & _). done.
Qed.

End rows.

Lemma imap_data_row_entries (l : list JEntry) :
  (λ r, (j_Journalist r, j_Publication_Name r, j_counts r, j_Total r)) <$> imap data_row l
  = (λ e, (CStr (e_Journalist e), CStr (e_Publication_Name e), e_counts e, e_Total e)) <$> l.
Proof.
  rewrite fmap_imap. rewrite (imap_ext _ (const (λ e, (CStr (e_Journalist e),
    CStr (e_Publication_Name e), e_counts e, e_Total e)))) by done.
  apply imap_const.
Qed.

(** The rows of the table before the two total rows are the entries in some
    order, numbered from 0. *)
Lemma Jour_table_data (df : list Row) :
  (∀ n, n ∈ ["Journalist"; "Publication Name"; "Total"] → n ∉ Entity <$> df) →
  let d1 := df1 df in
  let ents := merge_sort String.le (remove_dups (Entity <$> d1)) in
  let js := merge_sort String.le (remove_dups (Journalist <$> d1)) in
  let pairs := zip (Journalist <$> d1) (Entity <$> d1) in
  ∃ l,
    Jour_table df
    = Ok (ents, imap data_row l
                ++ [sum_row "GrandTotal" (length ents) (imap data_row l);
                    sum_row "Total" (length ents)
                      (imap data_row l
                       ++ [sum_row "GrandTotal" (length ents) (imap data_row l)])])
    ∧ l ≡ₚ (λ j, {| e_Journalist := j;
                    e_counts := (λ c, count_pairs j c pairs) <$> ents;
                    e_Publication_Name :=
                      default "" (Publication_Name
                                    <$> head (filter (λ x, Journalist x = j) d1));
                    e_Total := sum_Z ((λ c, count_pairs j c pairs) <$> ents) |}) <$> js.
Proof.
  intros Hres. cbv zeta.
  destruct (Journalist_Table_perm df Hres) as (entries & Hok & Hperm).
  unfold Jour_table. rewrite Hok. cbn [mbind result_bind].
  eexists. split; [by rewrite <-(assoc_L (++))|].
  rewrite <-Hperm. rewrite Permutation_app_comm.
  apply (filter_app_complement (λ e, e_Journalist e = "Bureau News")).
Qed.

Lemma fmap_imap_data_row {B} (g : JRow → B) (h : JEntry → B) (l : list JEntry) :
  (∀ i e, g (data_row i e) = h e) → g <$> imap data_row l = h <$> l.
Proof.
  intros Hgh. rewrite fmap_imap, <-(imap_const h l). apply imap_ext.
  intros i e _. apply Hgh.
Qed.

Lemma fmap_seq_lookup {A B} (f : nat → B) (g : A → B) (l : list A) :
  (∀ i x, l !! i = Some x → f i = g x) → f <$> seq 0 (length l) = g <$> l.
Proof.
  intros Hfg. apply list_eq. intros i. rewrite !list_lookup_fmap.
  destruct (l !! i) as [x|] eqn:Hx.
  - rewrite lookup_seq_lt by (by eapply lookup_lt_Some). simpl. f_equal. by apply Hfg.
  - rewrite lookup_seq_ge; [done|]. by apply lookup_ge_None.
Qed.

Lemma imap_index (l : list JEntry) :
  j_index <$> imap data_row l = RowNumber <$> seq 0 (length l).
Proof.
  rewrite fmap_imap. symmetry. rewrite <-(imap_const RowNumber (seq 0 (length l))).
  apply list_eq. intros i. rewrite !list_lookup_imap.
  destruct (l !! i) as [x|] eqn:Hx.
  - rewrite lookup_seq_lt by (by eapply lookup_lt_Some). done.
  - rewrite lookup_seq_ge; [done|]. by apply lookup_ge_None.
Qed.

(** X11.  The rows of the journalist table above its two total rows, when
    no entity is called like a column of the table ("index" is the name
    that [to_records] gives the unnamed index at line 208): one row per name
    of the exploded table, numbered from 0.  The row of a name holds the
    publication of the first exploded row with that name (the publications
    of its other articles are dropped), per entity the number of exploded
    rows of the name with the entity, and under Total the number of exploded
    rows of the name, which is at least 1. *)
Theorem Jour_table_rows (df : list Row) :
  (∀ n, n ∈ ["Journalist"; "Publication Name"; "Total"; "index"] → n ∉ Entity <$> df) →
  let d1 := df1 df in
  let ents := merge_sort String.le (remove_dups (Entity <$> d1)) in
  let n_name j := Z.of_nat (length (filter (λ x, Journalist x = j) d1)) in
  let n_pair j c := Z.of_nat (length (filter (λ x, Journalist x = j ∧ Entity x = c) d1)) in
  ∃ data grand total,
    Jour_table df = Ok (ents, data ++ [grand; total])
    ∧ j_index <$> data = RowNumber <$> seq 0 (length data)
    ∧ NoDup (j_Journalist <$> data)
    ∧ (∀ j, j ∈ Journalist <$> d1 ↔ CStr j ∈ j_Journalist <$> data)
    ∧ ∀ r, r ∈ data →
        ∃ j first,
          j_Journalist r = CStr j
          ∧ head (filter (λ x, Journalist x = j) d1) = Some first
          ∧ j_Publication_Name r = CStr (Publication_Name first)
          ∧ j_counts r = n_pair j <$> ents
          ∧ j_Total r = n_name j
          ∧ 0 < n_name j.
Proof.
  intros Hres. cbv beta zeta.
  destruct (Jour_table_data df) as (l & Hok & Hperm).
  { intros n Hn. apply Hres. rewrite !elem_of_cons, elem_of_nil in Hn.
    rewrite !elem_of_cons. tauto. }
  cbv zeta in Hok, Hperm.
  eexists _, _, _. split; [exact Hok|].
  assert (j_Journalist <$> imap data_row l
          ≡ₚ CStr <$> merge_sort String.le (remove_dups (Journalist <$> df1 df))) as Hnames.
  { rewrite (fmap_imap_data_row _ (λ e, CStr (e_Journalist e))) by done.
    by rewrite Hperm, <-list_fmap_compose. }
  split_and!.
  - by rewrite imap_index, length_imap.
  - rewrite Hnames. apply NoDup_fmap_2; [by intros ?? [= ->]|apply NoDup_sorted_keys].
  - intros j. rewrite Hnames, <-(elem_of_sorted_keys String.le). split.
    + apply list_elem_of_fmap_2.
    + by intros (j' & [= ->] & ?)%list_elem_of_fmap.
  - intros r (i & e & -> & He)%elem_of_lookup_imap.
    apply list_elem_of_lookup_2 in He. rewrite Hperm in He.
    apply list_elem_of_fmap in He as (j & -> & Hj).
    apply elem_of_sorted_keys, list_elem_of_fmap in Hj as (x & -> & Hx).
    destruct (head_filter_elem (λ y, Journalist y = Journalist x) (df1 df) x Hx eq_refl)
      as (first & Hfirst & _).
    exists (Journalist x), first. cbn [data_row j_Journalist j_Publication_Name j_counts
      j_Total e_Journalist e_Publication_Name e_counts e_Total].
    assert ((λ c, count_pairs (Journalist x) c
                    (zip (Journalist <$> df1 df) (Entity <$> df1 df)))
              <$> merge_sort String.le (remove_dups (Entity <$> df1 df))
            = (λ c, Z.of_nat (length (filter (λ y, Journalist y = Journalist x ∧ Entity y = c)
                                        (df1 df))))
                <$> merge_sort String.le (remove_dups (Entity <$> df1 df))) as ->.
    { apply list_fmap_ext. intros _ c _. apply count_pairs_rows. }
    rewrite Hfirst. split_and!; [done|done|done|done| |].
    + apply (sum_n_pair Journalist (df1 df)).
    + by apply (MonthFacts.length_filter_pos _ (df1 df) x).
Qed.

(** The theorem on two articles, the second by two authors. *)
Lemma Jour_table_rows_witness :
  ∃ cols data grand total,
    Jour_table Inputs.comma_rows = Ok (cols, data ++ [grand; total])
    ∧ j_index <$> data = RowNumber <$> seq 0 (length data)
    ∧ (CStr "J3" ∈ j_Journalist <$> data).
Proof.
  destruct (Jour_table_rows Inputs.comma_rows)
    as (data & grand & total & H1 & H2 & _ & H3 & _).
  { intros n Hn. repeat (apply elem_of_cons in Hn as [->|Hn]; [not_in_list|]).
    by apply elem_of_nil in Hn. }
  eexists _, data, grand, total. split_and!; [exact H1|exact H2|].
  apply H3. vm_compute. repeat constructor.
Defined.

(** X12.  The two total rows of the journalist table, when no entity is
    called like a column of the table (Journalist, Publication Name, Total,
    or index).  The row GrandTotal holds, per
    entity, the number of rows of the exploded table with that entity and,
    under Total, the number of rows of the exploded table: an article with
    several authors is counted once for each.  The row Total is computed
    over the table that already holds GrandTotal and has twice these
    numbers. *)
Theorem Jour_table_totals (df : list Row) :
  (∀ n, n ∈ ["Journalist"; "Publication Name"; "Total"; "index"] → n ∉ Entity <$> df) →
  let d1 := df1 df in
  let ents := merge_sort String.le (remove_dups (Entity <$> d1)) in
  let n_ent c := Z.of_nat (length (filter (λ x, Entity x = c) d1)) in
  ∃ data grand total,
    Jour_table df = Ok (ents, data ++ [grand; total])
    ∧ j_index grand = RowName "GrandTotal"
    ∧ j_counts grand = n_ent <$> ents
    ∧ j_Total grand = Z.of_nat (length d1)
    ∧ j_index total = RowName "Total"
    ∧ j_counts total = (λ c, 2 * n_ent c) <$> ents
    ∧ j_Total total = 2 * Z.of_nat (length d1).
Proof.
  intros Hres. cbv beta zeta.
  destruct (Jour_table_data df) as (l & Hok & Hperm).
  { intros n Hn. apply Hres. rewrite !elem_of_cons, elem_of_nil in Hn.
    rewrite !elem_of_cons. tauto. }
  cbv zeta in Hok, Hperm.
  eexists _, _, _. split; [exact Hok|].
  set (ents := merge_sort String.le (remove_dups (Entity <$> df1 df))) in *.
  set (js := merge_sort String.le (remove_dups (Journalist <$> df1 df))) in *.
  set (pairs := zip (Journalist <$> df1 df) (Entity <$> df1 df)) in *.
  assert (sum_Z (j_Total <$> imap data_row l) = Z.of_nat (length (df1 df))) as Htot.
  { rewrite (fmap_imap_data_row _ e_Total) by done.
    rewrite (sum_Z_Permutation _ _ (fmap_Permutation e_Total _ _ Hperm)).
    rewrite <-list_fmap_compose.
    rewrite <-(sum_n_key String.le Journalist (df1 df)). f_equal.
    apply list_fmap_ext. intros _ j _. cbn [compose e_Total].
    rewrite <-(sum_n_pair Journalist (df1 df) j). f_equal.
    apply list_fmap_ext. intros _ c _. apply count_pairs_rows. }
  assert (∀ i c, ents !! i = Some c →
            sum_Z ((λ r, default 0 (j_counts r !! i)) <$> imap data_row l)
            = Z.of_nat (length (filter (λ x, Entity x = c) (df1 df)))) as Hcol.
  { intros i c Hi.
    rewrite (fmap_imap_data_row _ (λ e, default 0 (e_counts e !! i))) by done.
    rewrite (sum_Z_Permutation _ _
               (fmap_Permutation (λ e, default 0 (e_counts e !! i)) _ _ Hperm)).
    rewrite <-list_fmap_compose.
    rewrite <-(sum_n_pair_col String.le Journalist (df1 df) c). f_equal.
    apply list_fmap_ext. intros _ j _. cbn [compose e_counts].
    rewrite list_lookup_fmap, Hi. simpl.
    apply count_pairs_rows. }
  assert (j_counts (sum_row "GrandTotal" (length ents) (imap data_row l))
          = (λ c, Z.of_nat (length (filter (λ x, Entity x = c) (df1 df)))) <$> ents)
    as Hgrand.
  { cbn [sum_row j_counts]. apply fmap_seq_lookup. intros i c Hi. by apply Hcol. }
  split_and!; [done|exact Hgrand|exact Htot|done| |].
  - cbn [sum_row j_counts]. apply fmap_seq_lookup. intros i c Hi.
    rewrite fmap_app, sum_Z_app, list_fmap_singleton, sum_Z_cons, Hgrand.
    rewrite (Hcol i c Hi), list_lookup_fmap, Hi. simpl. unfold sum_Z. simpl. lia.
  - cbn [sum_row j_Total]. rewrite fmap_app, sum_Z_app, list_fmap_singleton, sum_Z_cons.
    cbn [sum_row j_Total]. rewrite Htot. unfold sum_Z. simpl. lia.
Qed.

(** The theorem on two articles, the second by two authors: three exploded
    rows, GrandTotal 3 and Total 6. *)
Lemma Jour_table_totals_witness :
  ∃ cols data grand total,
    Jour_table Inputs.comma_rows = Ok (cols, data ++ [grand; total])
    ∧ j_Total grand = 3
    ∧ j_Total total = 6.
Proof.
  destruct (Jour_table_totals Inputs.comma_rows)
    as (data & grand & total & H1 & _ & _ & H2 & _ & _ & H3).
  { intros n Hn. repeat (apply elem_of_cons in Hn as [->|Hn]; [not_in_list|]).
    by apply elem_of_nil in Hn. }
  eexists _, data, grand, total. split_and!; [exact H1|exact H2|exact H3].
Defined.

End JourTableFacts.

(** ** When the report is produced (lines 171-236) *)

Module ReportRunFacts.
Import Report FrameFacts CountFacts JournalistFacts.

Lemma sov_dt_no_raise (df : list Row) :
  "Total" ∉ Entity <$> df → ∃ f, sov_dt df = Ok f.
Proof.
  intros HT. unfold sov_dt, crosstab_margins.
  rewrite crosstab_keys, crosstab_columns, zip_fmap_fst, zip_fmap_snd.
  rewrite decide_False; cycle 1.
  { rewrite elem_of_sorted_keys. by intros (x & ? & _)%list_elem_of_fmap. }
  rewrite decide_False by (by rewrite elem_of_sorted_keys).
  destruct (merge_sort String.le (remove_dups (Entity <$> df))); by eexists.
Qed.

Lemma totals_table_no_raise (name : string) (key : Row → string) (df : list Row) :
  name ≠ "Total" → name ∉ Entity <$> df → "Total" ∉ Entity <$> df →
  ∃ f, totals_table name key df = Ok f.
Proof.
  intros Hname HnE HT. unfold totals_table. cbv zeta.
  rewrite TotalsFacts.crosstab_with_Total by done.
  unfold sort_by_column. cbn [columns rows index_name].
  rewrite decide_True by (apply elem_of_app; right; by left).
  cbn [mbind result_bind]. unfold to_records. cbn [columns index_name].
  rewrite decide_False; [by eexists|].
  rewrite elem_of_app, elem_of_sorted_keys, list_elem_of_singleton. tauto.
Qed.

(** An entity called like the key column: the index and a column of the
    table get one name, which [to_records] refuses. *)
Lemma totals_table_raises (name : string) (key : Row → string) (df : list Row) :
  name ∈ Entity <$> df → ∃ e, totals_table name key df = Raise e.
Proof.
  intros Hin. unfold totals_table, sort_by_column, to_records, set_column. cbv zeta.
  rewrite crosstab_columns, zip_fmap_snd. cbn [columns index_name rows crosstab].
  assert (name ∈ merge_sort String.le (remove_dups (Entity <$> df))) as Hname
    by (by apply elem_of_sorted_keys).
  destruct (decide ("Total" ∈ merge_sort String.le (remove_dups (Entity <$> df)))).
  - rewrite decide_True by done. cbn [mbind result_bind columns index_name].
    rewrite decide_True by done. by eexists.
  - rewrite decide_True by (apply elem_of_app; right; by left).
    cbn [mbind result_bind columns index_name].
    rewrite decide_True by (apply elem_of_app; by left). by eexists.
Qed.

Lemma Jour_table_raises (df : list Row) :
  "Journalist" ∈ Entity <$> df → ∃ e, Jour_table df = Raise e.
Proof.
  intros Hin. unfold Jour_table, Journalist_Table.
  rewrite crosstab_columns, zip_fmap_snd.
  rewrite decide_True by (by rewrite elem_of_sorted_keys, Entity_df1). by eexists.
Qed.

Lemma crosstab_Journalist_raises (df : list Row) :
  "Total" ∈ Journalist <$> df → ∃ e, crosstab_Journalist df = Raise e.
Proof.
  intros Hin. unfold crosstab_Journalist, crosstab_margins.
  rewrite crosstab_keys, zip_fmap_fst.
  rewrite decide_True by (by rewrite elem_of_sorted_keys). by eexists.
Qed.

(** X13.  The seven tables are produced for every table with at least one
    row in which no entity is called Total, Journalist, Publication Name,
    Publication Type or index (names of the index or of a column of one of
    the tables) and no journalist field is Total (the name of the margin
    row of the journalist cross-tabulation). *)
Theorem df_dict_Ok (df : list Row) :
  df ≠ [] →
  (∀ n, n ∈ ["Total"; "Journalist"; "Publication Name"; "Publication Type"; "index"] →
        n ∉ Entity <$> df) →
  "Total" ∉ Journalist <$> df →
  ∃ tables, df_dict df = Ok tables.
Proof.
  intros Hne Hres HJ.
  assert (∀ n, n ∈ ["Total"; "Journalist"; "Publication Name"; "Publication Type"] →
               n ∉ Entity <$> df) as Hres'.
  { intros n Hn. apply Hres. rewrite !elem_of_cons, elem_of_nil in Hn.
    rewrite !elem_of_cons. tauto. }
  assert ("Total" ∉ Entity <$> df) as HT by (apply Hres'; rewrite !elem_of_cons; tauto).
  pose proof (SOVFacts.Entity_SOV_eq df Hne HT) as H1. cbv zeta in H1.
  destruct (sov_dt_no_raise df HT) as [b H2].
  destruct (totals_table_no_raise "Publication Name" Publication_Name df) as [c H3];
    [done|apply Hres'; rewrite !elem_of_cons; tauto|done|].
  destruct (JourTableFacts.Jour_table_data df) as (l & H4 & _).
  { intros n Hn. apply Hres'. rewrite !elem_of_cons, elem_of_nil in Hn.
    rewrite !elem_of_cons. tauto. }
  destruct (totals_table_no_raise "Publication Type" Publication_Type df) as [e H5];
    [done|apply Hres'; rewrite !elem_of_cons; tauto|done|].
  destruct (ClientFacts.crosstab_Journalist_total df) as [ct Hct];
    [done|done|apply Hres'; rewrite !elem_of_cons; tauto|].
  assert (client_cols ct ≠ [] ∨ competitor_cols ct ≠ []) as Hcols.
  { destruct df as [|x df']; [done|].
    destruct (ClientFacts.entity_column_split (x :: df') ct (Entity x) Hct) as [_ [Hin|Hin]].
    - rewrite fmap_cons. by left.
    - left. by apply elem_of_not_nil in Hin.
    - right. by apply elem_of_not_nil in Hin. }
  destruct (ClientFacts.j_abt_client_rows df ct Hct Hcols) as (f & H6 & _).
  destruct (ClientFacts.j_abt_comp_rows df ct Hct Hcols) as (g & H7 & _).
  unfold df_dict. fold (Publication df) in H3. fold (PType_Entity df) in H5.
  rewrite H1, H2, H3, H4, H5, H6, H7. by eexists.
Qed.

(** The theorem on four articles on a client and a competitor. *)
Lemma df_dict_Ok_witness : ∃ tables, df_dict Inputs.mixed_rows = Ok tables.
Proof.
  apply df_dict_Ok; [done| |not_in_list].
  intros n Hn. repeat (apply elem_of_cons in Hn as [->|Hn]; [not_in_list|]).
  by apply elem_of_nil in Hn.
Defined.

(** X14.  The run ends with an exception, and no table is shown or
    exported, when the table has no row, when an entity is called Total,
    Journalist, Publication Name or Publication Type, or when a journalist
    field is Total. *)
Theorem df_dict_raises (df : list Row) :
  df = []
  ∨ (∃ n, n ∈ ["Total"; "Journalist"; "Publication Name"; "Publication Type"]
          ∧ n ∈ Entity <$> df)
  ∨ "Total" ∈ Journalist <$> df →
  ∃ e, df_dict df = Raise e.
Proof.
  intros Hcase. unfold df_dict.
  destruct (Entity_SOV df) as [a|] eqn:H1; [|by eexists].
  destruct (sov_dt df) as [b|] eqn:H2; [|by eexists].
  destruct (Publication df) as [c|] eqn:H3; [|by eexists].
  destruct (Jour_table df) as [d|] eqn:H4; [|by eexists].
  destruct (PType_Entity df) as [e|] eqn:H5; [|by eexists].
  destruct (j_abt_client df) as [f|] eqn:H6; [|by eexists].
  exfalso. destruct Hcase as [->|[(n & Hn & Hin)|HJ]].
  - by vm_compute in H1.
  - rewrite !elem_of_cons, elem_of_nil in Hn. destruct Hn as [->|[->|[->|[->|[]]]]].
    + rewrite SOVFacts.Entity_SOV_Total in H1 by done. done.
    + destruct (Jour_table_raises df Hin) as [? Hr]. congruence.
    + destruct (totals_table_raises "Publication Name" Publication_Name df Hin) as [? Hr].
      unfold Publication in H3. congruence.
    + destruct (totals_table_raises "Publication Type" Publication_Type df Hin) as [? Hr].
      unfold PType_Entity in H5. congruence.
  - destruct (crosstab_Journalist_raises df HJ) as [? Hr].
    unfold j_abt_client in H6. rewrite Hr in H6. done.
Qed.

(** The theorem on a table with an entity called Total. *)
Lemma df_dict_raises_witness : ∃ e, df_dict [Inputs.row "Total" "P1" "J1"] = Raise e.
Proof.
  apply df_dict_raises. right. left. exists "Total". split.
  - by left.
  - vm_compute. repeat constructor.
Defined.

End ReportRunFacts.

(** ** Tables 6 and 7: selection and order (lines 215-228) *)

Module SelectionFacts.
Import Report FrameFacts CountFacts JournalistFacts ClientFacts.

(** A selection sorted by [Total] keeps the columns, holds rows of the
    frame only and is in descending order of [Total]. *)
Lemma select_sort (ct sel out : Frame string) (m : mask) :
  select ct m = Ok sel →
  sort_by_column "Total" sel = Ok out →
  columns out = columns ct
  ∧ (∀ r, r ∈ rows out → r ∈ rows ct)
  ∧ StronglySorted (by_desc (λ r, default 0 (at_column "Total" (columns ct) r.2)))
      (rows out).
Proof.
  unfold select. destruct m as [b|bs]; [done|]. intros [= <-].
  unfold sort_by_column. cbn [columns rows index_name].
  destruct (decide ("Total" ∈ columns ct)); [|done]. intros [= <-].
  cbn [columns rows]. split_and!; [done| |].
  - intros r. unfold sort_desc. rewrite merge_sort_Permutation.
    intros ([r' b] & -> & [_ Hin]%list_elem_of_filter)%list_elem_of_fmap.
    by apply elem_of_zip_l in Hin.
  - apply StronglySorted_merge_sort; apply _.
Qed.

Lemma j_abt_sorted (df : list Row) (out : Frame string) :
  j_abt_client df = Ok out ∨ j_abt_comp df = Ok out →
  ∃ ct, crosstab_Journalist df = Ok ct
    ∧ columns out = columns ct
    ∧ (∀ r, r ∈ rows out → r ∈ rows ct)
    ∧ StronglySorted (by_desc (λ r, default 0 (at_column "Total" (columns ct) r.2)))
        (rows out).
Proof.
  unfold j_abt_client, j_abt_comp.
  destruct (crosstab_Journalist df) as [ct|]; [|by intros [?|?]].
  cbn [mbind result_bind]. intros [Hout|Hout]; exists ct; (split; [done|]).
  - destruct (select ct _) as [sel|] eqn:Hsel; [|done].
    by apply (select_sort ct sel out _ Hsel).
  - destruct (select ct _) as [sel|] eqn:Hsel; [|done].
    by apply (select_sort ct sel out _ Hsel).
Qed.

(** The [Total] of a row of the cross-tabulation of lines 215-216: the
    number of rows of the table for the margin row, at most that for any
    row. *)
Lemma crosstab_Journalist_Total (df : list Row) (ct : Frame string) (r : string * list Z) :
  crosstab_Journalist df = Ok ct →
  r ∈ rows ct →
  default 0 (at_column "Total" (columns ct) r.2) ≤ Z.of_nat (length df)
  ∧ (r.1 = "Total" →
     default 0 (at_column "Total" (columns ct) r.2) = Z.of_nat (length df)).
Proof.
  intros Hct Hr.
  destruct (crosstab_Journalist_Ok df ct Hct)
    as (_ & HJ & HT & _ & [(_ & _ & Hrows)|(_ & Hcols & Hrows)]).
  { rewrite Hrows in Hr. by apply elem_of_nil in Hr. }
  cbv zeta in Hrows. rewrite Hcols. rewrite Hrows in Hr.
  apply elem_of_app in Hr as [(j & -> & Hj)%list_elem_of_fmap| ->%list_elem_of_singleton];
    cbn [fst snd]; rewrite TotalsFacts.at_column_last by (by rewrite ?length_fmap).
  - split; [|by intros ->]. cbn [default from_option id].
    pose proof (length_filter (λ p : string * string, p.1 = j)
                  (zip (Journalist <$> df) (Entity <$> df))) as Hle.
    rewrite length_zip_fmap in Hle. lia.
  - cbn [default from_option id]. rewrite length_zip_fmap. split; [lia|done].
Qed.

(** X15.  Tables 6 and 7 are sorted together with the margin row of the
    cross-tabulation: when the row Total is in such a table, its Total is
    the number of rows of the edited table and every row above it has that
    same Total, so the row stands on top of the table (after rows that tie
    with it), not below the journalists. *)
Theorem margin_row_on_top (df : list Row) (out : Frame string)
    (pre post : list (string * list Z)) (vals : list Z) :
  j_abt_client df = Ok out ∨ j_abt_comp df = Ok out →
  rows out = pre ++ ("Total", vals) :: post →
  let Total v := default 0 (at_column "Total" (columns out) v) in
  Total vals = Z.of_nat (length df)
  ∧ ∀ r, r ∈ pre → Total r.2 = Total vals.
Proof.
  intros Hout Hrows. cbv zeta.
  destruct (j_abt_sorted df out Hout) as (ct & Hct & -> & Hsub & Hsorted).
  assert (("Total", vals) ∈ rows ct) as Hmargin.
  { apply Hsub. rewrite Hrows. apply elem_of_app. right. by left. }
  destruct (crosstab_Journalist_Total df ct _ Hct Hmargin) as [_ Hm].
  specialize (Hm eq_refl). cbn [snd] in Hm. split; [done|].
  intros r Hr. rewrite Hm.
  assert (r ∈ rows ct) as Hin.
  { apply Hsub. rewrite Hrows. apply elem_of_app. by left. }
  destruct (crosstab_Journalist_Total df ct r Hct Hin) as [Hle _].
  rewrite Hrows in Hsorted.
  pose proof (StronglySorted_app_1_elem_of _ _ _ r ("Total", vals) Hsorted Hr) as Hge.
  unfold by_desc in Hge. cbn [snd] in Hge. rewrite Hm in Hge.
  specialize (Hge ltac:(by left)). lia.
Qed.

(** The theorem on the table of one client: the rows of table 6 are the
    journalist J1 and the margin row, both with Total 1. *)
Lemma margin_row_on_top_witness :
  ∃ out pre vals post,
    j_abt_client Inputs.client_rows = Ok out
    ∧ rows out = pre ++ ("Total", vals) :: post
    ∧ default 0 (at_column "Total" (columns out) vals) = 1.
Proof.
  destruct (j_abt_client Inputs.client_rows) as [out|] eqn:Hout; [|by vm_compute in Hout].
  assert (rows out = [("J1", [1; 1])] ++ ("Total", [1; 1]) :: []) as Hrows.
  { vm_compute in Hout. by injection Hout as <-. }
  destruct (margin_row_on_top Inputs.client_rows out _ _ _ (or_introl Hout) Hrows) as [H1 _].
  exists out, [("J1", [1; 1])], [1; 1], []. split_and!; [done|exact Hrows|exact H1].
Defined.

(** A row of the cross-tabulation with a positive cell under a selected
    entity has a positive sum over the selection. *)
Lemma row_sum_pos (sel ents : list string) (g : string → Z) (t : Z) (e : string) :
  (∀ c, 0 ≤ g c) → 0 ≤ t → e ∈ ents → e ∈ sel → 0 < g e →
  0 < sum_columns sel (ents ++ ["Total"]) ((g <$> ents) ++ [t]).
Proof.
  intros Hg Ht He Hsel Hpos. apply (sum_columns_pos _ _ _ e (g e)); [| |done|done].
  - apply Forall_app. split; [|by apply Forall_singleton].
    apply Forall_fmap, Forall_forall. intros c _. apply Hg.
  - rewrite zip_with_app by (by rewrite length_fmap). apply elem_of_app. left.
    rewrite zip_with_fmap_r, zip_with_diag. apply list_elem_of_fmap. by exists e.
Qed.

(** X16.  On a table with rows in which every entity column starts with
    "Client-" (the cross-tabulation has no competitor column), table 7 is
    made and has no row, and table 6 holds every row of the
    cross-tabulation: all journalists and the margin row. *)
Theorem no_competitor_columns (df : list Row) (ct : Frame string) :
  crosstab_Journalist df = Ok ct →
  df ≠ [] →
  competitor_cols ct = [] →
  ∃ cl co, j_abt_client df = Ok cl ∧ j_abt_comp df = Ok co
    ∧ rows co = []
    ∧ ∀ r, r ∈ rows cl ↔ r ∈ rows ct.
Proof.
  intros Hct Hne Hco.
  assert (∀ e, e ∈ Entity <$> df → e ∈ client_cols ct) as Hclient.
  { intros e He. destruct (entity_column_split df ct e Hct He) as [_ [Hin|Hin]]; [done|].
    rewrite Hco in Hin. by apply elem_of_nil in Hin. }
  assert (client_cols ct ≠ []) as Hcl.
  { destruct df as [|x df']; [done|]. apply (elem_of_not_nil (Entity x)).
    apply Hclient. rewrite fmap_cons. by left. }
  destruct (j_abt_client_rows df ct Hct) as (cl & Hcl_ok & _ & Hcl_rows); [by left|].
  destruct (j_abt_comp_rows df ct Hct) as (co & Hco_ok & _ & Hco_rows); [by left|].
  exists cl, co. split_and!; [done|done| |].
  - apply elem_of_nil_inv. intros r Hr. apply Hco_rows in Hr as (_ & _ & [Hno _]). done.
  - intros r. rewrite Hcl_rows. split; [tauto|]. intros Hr.
    split_and!; [done|done| |by intros ?].
    destruct (crosstab_Journalist_Ok df ct Hct)
      as (_ & _ & _ & _ & [(? & _)|(_ & Hcols & Hrows)]); [done|].
    cbv zeta in Hrows. rewrite Hcols. rewrite Hrows in Hr.
    apply elem_of_app in Hr as [(j & -> & Hj)%list_elem_of_fmap| ->%list_elem_of_singleton];
      cbn [snd].
    + apply elem_of_sorted_keys, list_elem_of_fmap in Hj as (x & -> & Hx).
      enough (0 < sum_columns (client_cols ct)
                    (merge_sort String.le (remove_dups (Entity <$> df)) ++ ["Total"])
                    (((λ c, count_pairs (Journalist x) c
                              (zip (Journalist <$> df) (Entity <$> df)))
                        <$> merge_sort String.le (remove_dups (Entity <$> df)))
                     ++ [Z.of_nat (length (filter (λ p : string * string, p.1 = Journalist x)
                                             (zip (Journalist <$> df) (Entity <$> df))))]))
        by lia.
      apply (row_sum_pos _ _ _ _ (Entity x)).
      * intros c. apply count_pairs_nonneg.
      * lia.
      * apply elem_of_sorted_keys. by apply list_elem_of_fmap_2.
      * apply Hclient. by apply list_elem_of_fmap_2.
      * rewrite count_pairs_rows.
        by apply (MonthFacts.length_filter_pos _ df x).
    + enough (0 < sum_columns (client_cols ct)
                    (merge_sort String.le (remove_dups (Entity <$> df)) ++ ["Total"])
                    (((λ c, Z.of_nat (length (filter (λ p : string * string, p.2 = c)
                                                (zip (Journalist <$> df) (Entity <$> df)))))
                        <$> merge_sort String.le (remove_dups (Entity <$> df)))
                     ++ [Z.of_nat (length (zip (Journalist <$> df) (Entity <$> df)))]))
        by lia.
      destruct df as [|x df']; [done|].
      apply (row_sum_pos _ _ _ _ (Entity x)).
      * intros c. lia.
      * lia.
      * apply elem_of_sorted_keys. rewrite fmap_cons. by left.
      * apply Hclient. rewrite fmap_cons. by left.
      * rewrite length_filter_pairs_2.
        apply (MonthFacts.length_filter_pos _ (x :: df') x); [by left|done].
Qed.

(** The theorem on a table whose one entity is a client. *)
Lemma no_competitor_columns_witness :
  ∃ cl co, j_abt_client Inputs.client_rows = Ok cl
    ∧ j_abt_comp Inputs.client_rows = Ok co
    ∧ rows co = []
    ∧ ("J1", [1; 1]) ∈ rows cl.
Proof.
  destruct (crosstab_Journalist Inputs.client_rows) as [ct|] eqn:Hct;
    [|by vm_compute in Hct].
  destruct (no_competitor_columns Inputs.client_rows ct Hct)
    as (cl & co & H1 & H2 & H3 & H4); [done| |].
  - vm_compute in Hct. injection Hct as <-. by vm_compute.
  - exists cl, co. split_and!; [exact H1|exact H2|exact H3|].
    apply H4. vm_compute in Hct. injection Hct as <-. cbn [rows]. by left.
Defined.

(** X21.  The rows of tables 6 and 7 are named by the journalist field as
    it stands in the edited table, not by the names the journalist table
    splits it into: a row is the margin row Total or carries the whole
    field of some article, commas included, and its Total is the number of
    articles with exactly that field. *)
Theorem j_abt_names_unsplit (df : list Row) (out : Frame string) (r : string * list Z) :
  j_abt_client df = Ok out ∨ j_abt_comp df = Ok out →
  r ∈ rows out →
  r.1 = "Total"
  ∨ (∃ x, x ∈ df ∧ r.1 = Journalist x)
    ∧ default 0 (at_column "Total" (columns out) r.2)
      = Z.of_nat (length (filter (λ x, Journalist x = r.1) df)).
Proof.
  intros Hout Hr.
  destruct (j_abt_sorted df out Hout) as (ct & Hct & -> & Hsub & _).
  apply Hsub in Hr.
  destruct (crosstab_Journalist_Ok df ct Hct)
    as (_ & _ & HT & _ & [(_ & _ & Hrows)|(_ & Hcols & Hrows)]).
  { rewrite Hrows in Hr. by apply elem_of_nil in Hr. }
  cbv zeta in Hrows. rewrite Hcols. rewrite Hrows in Hr.
  apply elem_of_app in Hr as [(j & -> & Hj)%list_elem_of_fmap| ->%list_elem_of_singleton];
    [right|by left].
  cbn [fst snd]. split.
  - apply elem_of_sorted_keys, list_elem_of_fmap in Hj as (x & -> & Hx). by exists x.
  - rewrite TotalsFacts.at_column_last by (by rewrite ?length_fmap).
    cbn [default from_option id]. by rewrite length_filter_pairs_1.
Qed.

(** The theorem on the table whose one article has the field "J1,J2". *)
Lemma j_abt_names_unsplit_witness :
  ∃ out, j_abt_client Inputs.two_names = Ok out
    ∧ (("J1,J2", [1; 1]) ∈ rows out)
    ∧ ("J1,J2" = "Total"
       ∨ (∃ x, x ∈ Inputs.two_names ∧ "J1,J2" = Journalist x)
         ∧ default 0 (at_column "Total" (columns out) [1; 1])
           = Z.of_nat (length (filter (λ x, Journalist x = "J1,J2") Inputs.two_names))).
Proof.
  destruct (j_abt_client Inputs.two_names) as [out|] eqn:Hout; [|by vm_compute in Hout].
  assert (("J1,J2", [1; 1]) ∈ rows out) as Hin.
  { vm_compute in Hout. injection Hout as <-. cbn [rows].
    rewrite !elem_of_cons. tauto. }
  exists out. split_and!; [done|exact Hin|].
  exact (j_abt_names_unsplit Inputs.two_names out ("J1,J2", [1; 1]) (or_introl Hout) Hin).
Defined.

End SelectionFacts.

(** ** Cells of the sheet (lines 13-122) *)

Module SheetFacts.
Import Workbook WorkbookFacts.
Local Open Scope nat_scope.

(** One row of cells: what each cell becomes, and what is left alone. *)
Lemma write_row_exact {A} (g : A → Cell → Cell) (row : nat) (l : list A)
    (start : nat) (ws : Worksheet) :
  Forall (λ rg : range, rg.1.2 < row) (merged_cells ws) →
  ∃ ws', for_enumerate (λ col x ws, set_cell row col (g x) ws) start l ws = Ok ws'
    ∧ merged_cells ws' = merged_cells ws
    ∧ title ws' = title ws
    ∧ (∀ j x, l !! j = Some x →
         cells ws' !! (row, start + j)
         = Some (g x (default blank (cells ws !! (row, start + j)))))
    ∧ (∀ pos, pos.1 ≠ row ∨ pos.2 < start → cells ws' !! pos = cells ws !! pos).
Proof.
  revert start ws. induction l as [|x l IH]; intros start ws Hm.
  - exists ws. split_and!; [done|done|done| |done]. intros j x Hx. done.
  - cbn [for_enumerate]. rewrite set_cell_Ok by done. cbn [mbind result_bind].
    set (ws1 := {| title := _; cells := _; merged_cells := _ |}).
    destruct (IH (S start) ws1 Hm) as (ws' & Hok & Hmerged & Htitle & Hcells & Hframe).
    exists ws'. split_and!; [done|done|done| |].
    + intros [|j] y Hy.
      * injection Hy as <-. rewrite Hframe by (right; simpl; lia).
        rewrite Nat.add_0_r. unfold ws1. cbn [cells]. apply lookup_insert_eq.
      * rewrite <-Nat.add_succ_comm, (Hcells j y Hy). do 2 f_equal.
        unfold ws1. cbn [cells]. rewrite lookup_insert_ne; [done|].
        intros [= ?]. lia.
    + intros pos Hpos. rewrite Hframe by (destruct Hpos; [by left|right; lia]).
      unfold ws1. cbn [cells]. apply lookup_insert_ne. destruct pos as [r c].
      intros [= <- <-]. simpl in Hpos. lia.
Qed.

Lemma write_rows_exact (rows : list (list cell)) (start : nat) (ws : Worksheet) :
  Forall (λ rg : range, rg.1.2 < start) (merged_cells ws) →
  ∃ ws', for_enumerate
           (λ row_idx row_data ws,
              for_enumerate (λ col_idx v ws, set_cell row_idx col_idx (data_cell v) ws)
                1 row_data ws)
           start rows ws = Ok ws'
    ∧ merged_cells ws' = merged_cells ws
    ∧ title ws' = title ws
    ∧ (∀ i row j v, rows !! i = Some row → row !! j = Some v →
         cells ws' !! (start + i, 1 + j)
         = Some (data_cell v (default blank (cells ws !! (start + i, 1 + j)))))
    ∧ (∀ pos, pos.1 < start ∨ start + length rows ≤ pos.1 →
         cells ws' !! pos = cells ws !! pos).
Proof.
  revert start ws. induction rows as [|row rows IH]; intros start ws Hm.
  - exists ws. split_and!; [done|done|done| |done]. intros i row j v Hrow. done.
  - cbn [for_enumerate].
    destruct (write_row_exact data_cell start row 1 ws Hm)
      as (ws1 & Hok1 & Hm1 & Ht1 & Hcells1 & Hframe1).
    rewrite Hok1. cbn [mbind result_bind].
    destruct (IH (S start) ws1) as (ws' & Hok & Hmerged & Htitle & Hcells & Hframe).
    { rewrite Hm1. eapply Forall_impl; [exact Hm|]. intros rg Hrg. simpl in *. lia. }
    exists ws'. split_and!; [done|by rewrite Hmerged|by rewrite Htitle| |].
    + intros [|i] r j v Hr Hv.
      * injection Hr as <-. rewrite Hframe by (left; simpl; lia).
        rewrite Nat.add_0_r. by apply Hcells1.
      * rewrite <-Nat.add_succ_comm, (Hcells i r j v Hr Hv). do 3 f_equal.
        apply Hframe1. left. simpl. lia.
    + intros pos Hpos. cbn [length] in Hpos.
      rewrite Hframe by (destruct Hpos; [left|right]; lia).
      apply Hframe1. left. destruct Hpos; lia.
Qed.

(** One table: the cell of the title, of every column name and of every
    value, made from the cell that was there; the rows outside the block
    are left alone. *)
Lemma add_styling_exact (ws : Worksheet) (df : DataFrame) (start_row : nat)
    (comment : string) :
  Forall (λ rg : range, rg.1.2 < start_row) (merged_cells ws) →
  columns df ≠ [] →
  ∃ ws', add_styling_to_worksheet ws df start_row comment = Ok ws'
    ∧ merged_cells ws'
      = merged_cells ws ++ [(start_row, 1, start_row, length (columns df))]
    ∧ title ws' = title ws
    ∧ cells ws' !! (start_row, 1)
      = Some (title_cell comment (default blank (cells ws !! (start_row, 1))))
    ∧ (∀ j c, columns df !! j = Some c →
         cells ws' !! (start_row + 1, 1 + j)
         = Some (header_cell c (default blank (cells ws !! (start_row + 1, 1 + j)))))
    ∧ (∀ i row j v, values df !! i = Some row → row !! j = Some v →
         cells ws' !! (start_row + 2 + i, 1 + j)
         = Some (data_cell v (default blank (cells ws !! (start_row + 2 + i, 1 + j)))))
    ∧ (∀ pos, pos.1 < start_row ∨ start_row + 2 + length (values df) ≤ pos.1 →
         cells ws' !! pos = cells ws !! pos).
Proof.
  intros Hm Hcols. unfold add_styling_to_worksheet.
  rewrite set_cell_Ok by done. cbn [mbind result_bind].
  set (ws1 := {| title := _; cells := _; merged_cells := _ |}).
  unfold merge_cells. cbn [fst snd]. rewrite decide_True.
  2: { split; [|done]. destruct (columns df); [done|]. simpl. lia. }
  cbn [mbind result_bind].
  set (ws2 := {| title := _; cells := _; merged_cells := _ |}).
  assert (Forall (λ rg : range, rg.1.2 < start_row + 1) (merged_cells ws2)) as Hm2.
  { unfold ws2, ws1. cbn [merged_cells]. apply Forall_app. split.
    - eapply Forall_impl; [exact Hm|]. intros rg Hrg. simpl in *. lia.
    - apply Forall_singleton. simpl. lia. }
  assert (∀ pos, pos.1 ≠ start_row → cells ws2 !! pos = cells ws !! pos) as Hframe2.
  { intros pos Hpos. unfold ws2. cbn [cells]. rewrite lookup_merged.
    2: { intros [Hin _]. unfold in_range in Hin. simpl in Hin. lia. }
    unfold ws1. cbn [cells]. apply lookup_insert_ne.
    destruct pos as [r c]. intros [= <- <-]. done. }
  destruct (write_row_exact header_cell (start_row + 1) (columns df) 1 ws2 Hm2)
    as (ws3 & Hok3 & Hm3 & Ht3 & Hcells3 & Hframe3).
  rewrite Hok3. cbn [mbind result_bind].
  destruct (write_rows_exact (values df) (start_row + 1 + 1) ws3)
    as (ws4 & Hok4 & Hm4 & Ht4 & Hcells4 & Hframe4).
  { rewrite Hm3. eapply Forall_impl; [exact Hm2|]. intros rg Hrg. simpl in *. lia. }
  exists ws4. split_and!.
  - done.
  - by rewrite Hm4, Hm3.
  - by rewrite Ht4, Ht3.
  - rewrite Hframe4 by (left; simpl; lia). rewrite Hframe3 by (left; simpl; lia).
    unfold ws2. cbn [cells]. rewrite lookup_merged by (intros [_ Hne]; done).
    unfold ws1. cbn [cells]. by rewrite lookup_insert_eq.
  - intros j c Hc. rewrite Hframe4 by (left; simpl; lia).
    rewrite (Hcells3 j c Hc). do 3 f_equal. apply Hframe2. simpl. lia.
  - intros i row j v Hrow Hv.
    replace (start_row + 2 + i) with (start_row + 1 + 1 + i) by lia.
    rewrite (Hcells4 i row j v Hrow Hv). do 3 f_equal.
    rewrite Hframe3 by (left; simpl; lia). apply Hframe2. simpl. lia.
  - intros pos Hpos. rewrite Hframe4 by (destruct Hpos; [left|right]; lia).
    rewrite Hframe3 by (left; destruct Hpos; lia).
    apply Hframe2. destruct Hpos; lia.
Qed.


(** The lines of the header text, one below the other in column 1. *)
Lemma write_column_exact {A} (g : A → Cell → Cell) (base : nat) (l : list A)
    (start : nat) (ws : Worksheet) :
  merged_cells ws = [] →
  1 ≤ start →
  ∃ ws', for_enumerate (λ i x ws, set_cell (base + i - 1) 1 (g x) ws) start l ws = Ok ws'
    ∧ merged_cells ws' = []
    ∧ title ws' = title ws
    ∧ (∀ j x, l !! j = Some x →
         cells ws' !! (base + (start + j) - 1, 1)
         = Some (g x (default blank (cells ws !! (base + (start + j) - 1, 1)))))
    ∧ (∀ pos, pos.2 ≠ 1 ∨ pos.1 < base + start - 1 ∨ base + start - 1 + length l ≤ pos.1 →
         cells ws' !! pos = cells ws !! pos).
Proof.
  revert start ws. induction l as [|x l IH]; intros start ws Hm Hstart.
  - exists ws. split_and!; [done|done|done| |done]. intros j x Hx. done.
  - cbn [for_enumerate]. rewrite set_cell_Ok by (rewrite Hm; constructor).
    cbn [mbind result_bind].
    set (ws1 := {| title := _; cells := _; merged_cells := _ |}).
    destruct (IH (S start) ws1) as (ws' & Hok & Hmerged & Htitle & Hcells & Hframe);
      [done|lia|].
    exists ws'. split_and!; [done|done|done| |].
    + intros [|j] y Hy.
      * injection Hy as <-. rewrite Hframe by (right; left; simpl; lia).
        rewrite Nat.add_0_r. unfold ws1. cbn [cells]. apply lookup_insert_eq.
      * rewrite <-Nat.add_succ_comm, (Hcells j y Hy). do 2 f_equal.
        unfold ws1. cbn [cells]. rewrite lookup_insert_ne; [done|].
        intros [= ?]. lia.
    + intros pos Hpos. cbn [length] in Hpos.
      rewrite Hframe by (destruct Hpos as [?|[?|?]]; [by left|right; left; lia|right; right; lia]).
      unfold ws1. cbn [cells]. apply lookup_insert_ne. destruct pos as [r c].
      intros [= <- <-]. simpl in Hpos. lia.
Qed.



(** The cells of the header block on the new sheet. *)
Lemma header_sheet (sheet_name entity_info : string) :
  ∃ ws0, add_entity_info {| title := sheet_name; cells := ∅; merged_cells := [] |}
           entity_info 1 = Ok ws0
    ∧ title ws0 = sheet_name
    ∧ merged_cells ws0 = []
    ∧ ∀ pos, cells ws0 !! pos
             = if decide (pos.2 = 1 ∧ 1 ≤ pos.1)
               then (λ line, entity_line line blank)
                      <$> Py.split_char "010" entity_info !! (pos.1 - 1)
               else None.
Proof.
  unfold add_entity_info.
  destruct (write_column_exact entity_line 1 (Py.split_char "010" entity_info) 1
              {| title := sheet_name; cells := ∅; merged_cells := [] |} eq_refl)
    as (ws0 & Hok & Hmerged & Htitle & Hcells & Hframe); [lia|].
  exists ws0. split_and!; [done|done|done|]. intros [r c]. cbn [fst snd].
  destruct (decide (c = 1 ∧ 1 ≤ r)) as [[-> Hr]|Hno].
  - destruct (Py.split_char "010" entity_info !! (r - 1)) as [line|] eqn:Hline.
    + specialize (Hcells (r - 1) line Hline).
      replace (1 + (1 + (r - 1)) - 1) with r in Hcells by lia.
      rewrite Hcells. cbn [cells]. by rewrite lookup_empty.
    + apply lookup_ge_None in Hline. rewrite Hframe by (simpl; lia). done.
  - rewrite Hframe by (simpl; lia). done.
Qed.



(** The loop stops at the first table without a column: the merge of its
    title row would end at column 0. *)
Lemma write_tables_raises (pre post : list (DataFrame * string)) (df : DataFrame)
    (comment : string) (current_row : nat) (ws : Worksheet) :
  Forall (λ rg : range, rg.1.2 < current_row) (merged_cells ws) →
  Forall (λ p : DataFrame * string, columns p.1 ≠ []) pre →
  columns df = [] →
  ∃ msg, write_tables (pre ++ (df, comment) :: post) current_row ws
         = Raise (ValueError msg).
Proof.
  revert current_row ws. induction pre as [|[df0 c0] pre IH];
    intros current_row ws Hm Hpre Hdf.
  - cbn [app write_tables]. unfold add_styling_to_worksheet.
    rewrite set_cell_Ok by done. cbn [mbind result_bind].
    unfold merge_cells. cbn [fst snd]. rewrite Hdf.
    rewrite decide_False by (simpl; lia). by eexists.
  - apply Forall_cons in Hpre as [Hcol0 Hpre]. rewrite <-app_comm_cons.
    cbn [write_tables].
    destruct (add_styling_exact ws df0 current_row c0 Hm Hcol0)
      as (ws1 & Hok1 & Hm1 & _).
    rewrite Hok1. cbn [mbind result_bind]. apply IH; [|done|done].
    rewrite Hm1. apply Forall_app. split.
    + eapply Forall_impl; [exact Hm|]. intros rg Hrg. simpl in *. lia.
    + apply Forall_singleton. simpl. lia.
Qed.

(** X19.  A table without columns among the tables written ends
    [multiple_dfs] with a ValueError (openpyxl refuses the merged range of
    its title, which would end at column 0): no workbook is returned, also
    not for the tables before it. *)
Theorem multiple_dfs_no_columns (df_list : list DataFrame) (sheet_name : string)
    (comments : list string) (entity_info : string)
    (pre post : list (DataFrame * string)) (df : DataFrame) (comment : string) :
  zip df_list comments = pre ++ (df, comment) :: post →
  Forall (λ p : DataFrame * string, columns p.1 ≠ []) pre →
  columns df = [] →
  ∃ msg, multiple_dfs df_list sheet_name comments entity_info = Raise (ValueError msg).
Proof.
  intros Hzip Hpre Hdf. unfold multiple_dfs.
  destruct (header_sheet sheet_name entity_info) as (ws0 & Hok0 & _ & Hm0 & _).
  rewrite Hok0. cbn [mbind result_bind]. rewrite Hzip.
  destruct (write_tables_raises pre post df comment (1 + 6) ws0) as [msg Hr];
    [by rewrite Hm0|done|done|].
  rewrite Hr. by exists msg.
Qed.

(** The theorem on a table with columns followed by one without. *)
Lemma multiple_dfs_no_columns_witness :
  ∃ msg, multiple_dfs [Inputs.table_1; {| columns := []; values := [] |}] "Results"
           ["First"; "Second"] "Entity:" = Raise (ValueError msg).
Proof.
  apply (multiple_dfs_no_columns _ _ _ _ [(Inputs.table_1, "First")] []
           {| columns := []; values := [] |} "Second").
  - reflexivity.
  - repeat constructor; done.
  - reflexivity.
Defined.

End SheetFacts.

(** ** The exported sheet (lines 229-257) *)

Module DownloadFacts.
Import Report FrameFacts CountFacts Download.

(** The first two tables of a run that made its seven tables. *)
Lemma df_dict_first_tables (df : list Row) (t : Tables) :
  df_dict df = Ok t →
  let period x := to_period_M (Date x) in
  let ents := merge_sort String.le (remove_dups (Entity <$> df)) in
  let months := merge_sort plabel_le (remove_dups (period <$> df)) in
  let n_month m := Z.of_nat (length (filter (λ x, period x = m) df)) in
  let n_ent c := Z.of_nat (length (filter (λ x, Entity x = c) df)) in
  let n_pair m c := Z.of_nat (length (filter (λ x, period x = m ∧ Entity x = c) df)) in
  length (t_Entity_SOV t) = S (length ents)
  ∧ t_sov_dt t
    = {| index_name := "Date"; columns := ents ++ ["Total"];
         rows := ((λ m, (m, (n_pair m <$> ents) ++ [n_month m])) <$> months)
                 ++ [(PName "Total", (n_ent <$> ents) ++ [Z.of_nat (length df)])] |}.
Proof.
  unfold df_dict. intros Ht. cbv beta zeta.
  destruct (Entity_SOV df) as [a|] eqn:H1; [|done].
  destruct (sov_dt df) as [b|] eqn:H2; [|done].
  cbn [mbind result_bind] in Ht.
  destruct (Publication df) as [c|]; [|done].
  destruct (Jour_table df) as [d|]; [|done].
  destruct (PType_Entity df) as [e|]; [|done].
  destruct (j_abt_client df) as [f|]; [|done].
  destruct (j_abt_comp df) as [g|]; [|done].
  cbn [mbind result_bind] in Ht. injection Ht as <-. cbn [t_Entity_SOV t_sov_dt].
  assert (df ≠ []) as Hne by (intros ->; by vm_compute in H1).
  assert ("Total" ∉ Entity <$> df) as HT.
  { intros Hin. by rewrite SOVFacts.Entity_SOV_Total in H1. }
  rewrite (SOVFacts.Entity_SOV_eq df Hne HT) in H1. cbv zeta in H1. injection H1 as <-.
  rewrite (MonthFacts.sov_dt_eq df Hne HT) in H2. cbv beta zeta in H2. injection H2 as <-.
  split; [|done]. rewrite length_app, length_fmap. simpl. lia.
Qed.

Local Open Scope nat_scope.

(** X20.  The sheet offered for download after a run that made its seven
    tables (no entity being called "index", the column that holds the
    unnamed index of the journalist table).  It is always produced and has
    seven merged title ranges.  The share of voice block has its title in
    row 7 across 3 columns.  With E entities, the month-on-month block has
    its title in row E + 12 across E + 1 columns; its header row holds the
    entity names and Total from column 1 on, and its data rows hold the
    counts from column 1 on: the months, being the index of that table, are
    not written to the sheet. *)
Theorem excel_bytes_layout (df : list Row) (t : Tables) :
  df_dict df = Ok t →
  "index" ∉ Entity <$> df →
  let period x := to_period_M (Date x) in
  let ents := merge_sort String.le (remove_dups (Entity <$> df)) in
  let E := length ents in
  let months := merge_sort plabel_le (remove_dups (period <$> df)) in
  let n_month m := Z.of_nat (length (filter (λ x, period x = m) df)) in
  let n_pair m c := Z.of_nat (length (filter (λ x, period x = m ∧ Entity x = c) df)) in
  ∃ ws, excel_bytes df = Ok ws
    ∧ length (Workbook.merged_cells ws) = 7
    ∧ Workbook.merged_cells ws !! 0 = Some (7, 1, 7, 3)
    ∧ Workbook.value <$> Workbook.cells ws !! (7, 1) = Some (CStr "SOV Table")
    ∧ Workbook.merged_cells ws !! 1 = Some (E + 12, 1, E + 12, E + 1)
    ∧ Workbook.value <$> Workbook.cells ws !! (E + 12, 1)
      = Some (CStr "Month-on-Month Table")
    ∧ (∀ j c, ents !! j = Some c →
         Workbook.value <$> Workbook.cells ws !! (E + 13, 1 + j) = Some (CStr c))
    ∧ Workbook.value <$> Workbook.cells ws !! (E + 13, 1 + E) = Some (CStr "Total")
    ∧ (∀ i m j c, months !! i = Some m → ents !! j = Some c →
         Workbook.value <$> Workbook.cells ws !! (E + 14 + i, 1 + j)
         = Some (CInt (n_pair m c)))
    ∧ (∀ i m, months !! i = Some m →
         Workbook.value <$> Workbook.cells ws !! (E + 14 + i, 1 + E)
         = Some (CInt (n_month m))).
Proof.
  intros Ht _. cbv beta zeta.
  destruct (df_dict_first_tables df t Ht) as [Hlen Hdt]. cbv beta zeta in Hlen, Hdt.
  set (ents := merge_sort String.le (remove_dups (Entity <$> df))) in *.
  set (months := merge_sort plabel_le
                   (remove_dups ((λ x, to_period_M (Date x)) <$> df))) in *.
  unfold excel_bytes. rewrite Ht. cbn [mbind result_bind].
  unfold Workbook.multiple_dfs.
  destruct (SheetFacts.header_sheet "Results" entity_info) as (ws0 & Hok0 & _ & Hm0 & _).
  rewrite Hok0. cbn [mbind result_bind].
  destruct (WorkbookFacts.write_tables_spec (zip (dfs_for_export t) comments) (1 + 6) ws0)
    as (ws & n & Hok & Hmerged & _ & _ & Htables); [by rewrite Hm0| |].
  { unfold dfs_for_export, comments. cbn [zip zip_with].
    repeat (apply Forall_cons; split; [cbn [fst]|]); try done.
    unfold of_crosstab. cbn [Workbook.columns]. rewrite Hdt. cbn [columns].
    by destruct ents. }
  rewrite Hok. cbn [mbind result_bind]. rewrite Hm0 in Hmerged, Htables.
  exists ws.
  destruct (Htables [] (of_Entity_SOV (t_Entity_SOV t)) "SOV Table"
              (zip (tail (dfs_for_export t)) (tail comments)) eq_refl) as (M1 & T1 & _).
  destruct (Htables [(of_Entity_SOV (t_Entity_SOV t), "SOV Table")]
              (of_crosstab (t_sov_dt t)) "Month-on-Month Table"
              (zip (tail (tail (dfs_for_export t))) (tail (tail comments))) eq_refl)
    as (M2 & T2 & H2 & D2).
  cbv zeta in M1, T1, M2, T2, H2, D2.
  cbn [fmap list_fmap sum_list_with fst id length Workbook.merged_cells] in M1, T1, M2, T2, H2, D2.
  unfold of_Entity_SOV in M1, M2, T2, H2, D2. cbn [Workbook.columns Workbook.values] in M1, M2, T2, H2, D2.
  rewrite length_fmap, Hlen in M2, T2, H2, D2.
  unfold of_crosstab in M2, H2, D2. cbn [Workbook.columns Workbook.values] in M2, H2, D2.
  rewrite Hdt in M2, H2, D2. cbn [columns rows] in M2, H2, D2.
  rewrite length_app in M2. cbn [length] in M2.
  replace (1 + 6 + (S (length ents) + 2 + 2 + 0)) with (length ents + 12) in * by lia.
  replace (length ents + 12 + 1) with (length ents + 13) in * by lia.
  assert (∀ i, length ents + 12 + 2 + i = length ents + 14 + i) as Hadd by (intros; lia).
  split_and!.
  - done.
  - rewrite Hmerged. done.
  - exact M1.
  - exact T1.
  - exact M2.
  - exact T2.
  - intros j c Hc. apply H2. by apply lookup_app_l_Some.
  - apply H2. by rewrite list_lookup_middle.
  - intros i m j c Hm Hc. rewrite <-Hadd.
    apply (D2 i (CInt <$> ((λ c, Z.of_nat (length (filter
             (λ x, to_period_M (Date x) = m ∧ Entity x = c) df))) <$> ents)
             ++ [Z.of_nat (length (filter (λ x, to_period_M (Date x) = m) df))])).
    + rewrite list_lookup_fmap, lookup_app_l
        by (rewrite length_fmap; by eapply lookup_lt_Some).
      by rewrite list_lookup_fmap, Hm.
    + rewrite list_lookup_fmap, lookup_app_l
        by (rewrite length_fmap; by eapply lookup_lt_Some).
      by rewrite list_lookup_fmap, Hc.
  - intros i m Hm. rewrite <-Hadd.
    apply (D2 i (CInt <$> ((λ c, Z.of_nat (length (filter
             (λ x, to_period_M (Date x) = m ∧ Entity x = c) df))) <$> ents)
             ++ [Z.of_nat (length (filter (λ x, to_period_M (Date x) = m) df))])).
    + rewrite list_lookup_fmap, lookup_app_l
        by (rewrite length_fmap; by eapply lookup_lt_Some).
      by rewrite list_lookup_fmap, Hm.
    + rewrite list_lookup_fmap.
      replace (length ents) with (length ((λ c, Z.of_nat (length (filter
                 (λ x, to_period_M (Date x) = m ∧ Entity x = c) df))) <$> ents) + 0)
        by (rewrite length_fmap; lia).
      by rewrite lookup_app_r, Nat.add_0_r, Nat.sub_diag by lia.
Qed.

(** The theorem on three articles on the entities A and B in one month:
    the month-on-month block starts in row 14 and its first data cell is the
    count 2 of A. *)
Lemma excel_bytes_layout_witness :
  ∃ ws, excel_bytes Inputs.sov_rows = Ok ws
    ∧ Workbook.merged_cells ws !! 1 = Some (14, 1, 14, 3)
    ∧ Workbook.value <$> Workbook.cells ws !! (15, 1) = Some (CStr "A")
    ∧ Workbook.value <$> Workbook.cells ws !! (16, 1) = Some (CInt 2).
Proof.
  destruct (df_dict Inputs.sov_rows) as [t|] eqn:Ht; [|by vm_compute in Ht].
  destruct (excel_bytes_layout Inputs.sov_rows t Ht)
    as (ws & Hok & _ & _ & _ & M2 & _ & H2 & _ & D2 & _); [CountFacts.not_in_list|].
  exists ws. split_and!; [exact Hok|exact M2| |].
  - exact (H2 0 "A" eq_refl).
  - exact (D2 0 (Period 2024 4) 0 "A" eq_refl eq_refl).
Defined.

End DownloadFacts.
